(** * bcrdf test server: a shallow embedding of [test-server.py]

    The script changes into [dist], prints the [bcrdf-] files it finds there,
    binds a [socketserver.TCPServer] on port 8080 and serves the directory
    with a [SimpleHTTPRequestHandler] whose [end_headers] adds one header.

    The development follows the script top to bottom.  The classes it
    inherits from ([http.server], [socketserver], [posixpath]) are embedded
    from CPython 3.11's [Lib/] method by method, because the script's own
    lines only make sense together with the methods they override and call.
    Text is modelled as [string] (sequences of 8-bit characters). *)

From Stdlib Require Import String Ascii List ZArith Lia Bool DecimalString.
Import ListNotations.
Local Open Scope list_scope.
Local Open Scope string_scope.

(** [l.append(x)] *)
Definition list_append {A : Type} (l : list A) (x : A) : list A := (l ++ [x])%list.

(** ** Python [str] methods used by the script and by the handler *)

Module PyStr.

(** [s.startswith(p)] *)
Definition startswith (s p : string) : bool := String.prefix p s.

(** [s.endswith(c)] for a one-character [c] *)
Fixpoint endswith (s : string) (c : ascii) : bool :=
  match s with
  | EmptyString => false
  | String a EmptyString => Ascii.eqb a c
  | String _ s' => endswith s' c
  end.

(** [s.split(sep)] for a one-character [sep]: never the empty list *)
Fixpoint split (sep : ascii) (s : string) : list string :=
  match s with
  | EmptyString => [EmptyString]
  | String c s' =>
      if Ascii.eqb c sep then EmptyString :: split sep s'
      else match split sep s' with
           | [] => [String c EmptyString]
           | w :: ws => String c w :: ws
           end
  end.

(** [s.split(sep, 1)[0]]: what comes before the first [sep] *)
Fixpoint before (sep : ascii) (s : string) : string :=
  match s with
  | EmptyString => EmptyString
  | String c s' => if Ascii.eqb c sep then EmptyString else String c (before sep s')
  end.

(** [sep.join(ws)] *)
Fixpoint join (sep : string) (ws : list string) : string :=
  match ws with
  | [] => EmptyString
  | [w] => w
  | w :: ws' => w ++ sep ++ join sep ws'
  end.

(** [str.isspace] on one character below U+0100 *)
Definition isspace (c : ascii) : bool :=
  let n := nat_of_ascii c in
  (((9 <=? n) && (n <=? 13)) || ((28 <=? n) && (n <=? 32))
   || (n =? 133) || (n =? 160))%nat.

(** [s.rstrip(chars)], the set of characters given as a predicate *)
Fixpoint rstrip_by (p : ascii -> bool) (s : string) : string :=
  match s with
  | EmptyString => EmptyString
  | String c s' =>
      match rstrip_by p s' with
      | EmptyString => if p c then EmptyString else String c EmptyString
      | r => String c r
      end
  end.

(** [s.lstrip(chars)] *)
Fixpoint lstrip_by (p : ascii -> bool) (s : string) : string :=
  match s with
  | EmptyString => EmptyString
  | String c s' => if p c then lstrip_by p s' else s
  end.

Definition rstrip (s : string) : string := rstrip_by isspace s.

Definition is_crlf (c : ascii) : bool :=
  Ascii.eqb c "013"%char || Ascii.eqb c "010"%char.

(** [s.split()]: the maximal runs of non-space characters.  [cur] is the
    word being read, [None] between words. *)
Fixpoint split_ws_aux (cur : option string) (s : string) : list string :=
  match s with
  | EmptyString => match cur with Some w => [w] | None => [] end
  | String c s' =>
      if isspace c then
        match cur with
        | Some w => w :: split_ws_aux None s'
        | None => split_ws_aux None s'
        end
      else
        match cur with
        | Some w => split_ws_aux (Some (w ++ String c EmptyString)) s'
        | None => split_ws_aux (Some (String c EmptyString)) s'
        end
  end.

Definition split_ws (s : string) : list string := split_ws_aux None s.

(** [s.lower()] on the ASCII letters; other characters are kept *)
Definition lower_char (c : ascii) : ascii :=
  let n := nat_of_ascii c in
  if ((65 <=? n) && (n <=? 90))%nat then ascii_of_nat (n + 32) else c.

Fixpoint lower (s : string) : string :=
  match s with
  | EmptyString => EmptyString
  | String c s' => String (lower_char c) (lower s')
  end.

(** [str(n)] and [%d] for an integer *)
Definition str_of_Z (n : Z) : string := NilZero.string_of_int (Z.to_int n).

(** [s.split(sep, 1)[1]]: what comes after the first [sep] *)
Fixpoint after (sep : ascii) (s : string) : string :=
  match s with
  | EmptyString => EmptyString
  | String c s' => if Ascii.eqb c sep then s' else after sep s'
  end.

(** [s.replace(c, r)] for a one-character [c] *)
Fixpoint replace (c : ascii) (r : string) (s : string) : string :=
  match s with
  | EmptyString => EmptyString
  | String a s' =>
      if Ascii.eqb a c then r ++ replace c r s' else String a (replace c r s')
  end.

Definition CR : string := String "013"%char EmptyString.
Definition LF : string := String "010"%char EmptyString.
Definition CRLF : string := CR ++ LF.
(** the double-quote character *)
Definition DQ : string := String "034"%char EmptyString.

(** [c in s] for a character *)
Fixpoint contains (c : ascii) (s : string) : bool :=
  match s with
  | EmptyString => false
  | String a s' => Ascii.eqb a c || contains c s'
  end.

End PyStr.

(** ** [posixpath]: the path functions the handler calls *)

Module posixpath.
Import PyStr.

(** [posixpath.join(a, b)] *)
Definition join (a b : string) : string :=
  if startswith b "/" then b
  else if (a =? "") || endswith a "/" then a ++ b
  else a ++ "/" ++ b.

(** One turn of the loop of [normpath]: [comp] is dropped, appended to
    [new_comps], or cancels the last of them. *)
Definition norm_step (initial_slashes : nat) (new_comps : list string)
    (comp : string) : list string :=
  if (comp =? "") || (comp =? ".") then new_comps
  else if negb (comp =? "..")
          || ((initial_slashes =? 0)%nat && (length new_comps =? 0)%nat)
          || (negb (length new_comps =? 0)%nat && (last new_comps "" =? ".."))
       then list_append new_comps comp
       else removelast new_comps.

Definition initial_slashes_of (path : string) : nat :=
  if startswith path "/" then
    if startswith path "//" && negb (startswith path "///") then 2 else 1
  else 0.

Fixpoint seps (n : nat) : string :=
  match n with O => "" | S n' => "/" ++ seps n' end.

(** [posixpath.normpath(path)] *)
Definition normpath (path : string) : string :=
  if path =? "" then "."
  else
    let initial_slashes := initial_slashes_of path in
    let comps := fold_left (norm_step initial_slashes) (split "/" path) [] in
    let path := seps initial_slashes ++ PyStr.join "/" comps in
    if path =? "" then "." else path.

(** [p.rfind(c)]: the last index of [c], or -1 *)
Fixpoint rfind_from (c : ascii) (s : string) (i found : Z) : Z :=
  match s with
  | EmptyString => found
  | String a s' => rfind_from c s' (i + 1) (if Ascii.eqb a c then i else found)
  end.

Definition rfind (c : ascii) (s : string) : Z := rfind_from c s 0 (-1).

(** The [while] of [genericpath._splitext]: is there a character other
    than a dot among the [n] characters of [p] from [filenameIndex]? *)
Fixpoint has_non_dot (p : string) (filenameIndex n : nat) : bool :=
  match n with
  | O => false
  | S n' =>
      match String.get filenameIndex p with
      | Some c => if Ascii.eqb c "." then has_non_dot p (S filenameIndex) n'
                  else true
      | None => true
      end
  end.

(** [posixpath.splitext(p)] *)
Definition splitext (p : string) : string * string :=
  let sepIndex := rfind "/" p in
  let dotIndex := rfind "." p in
  if (sepIndex <? dotIndex)%Z
     && has_non_dot p (Z.to_nat (sepIndex + 1))
          (Z.to_nat (dotIndex - (sepIndex + 1)))
  then (substring 0 (Z.to_nat dotIndex) p,
        substring (Z.to_nat dotIndex) (String.length p - Z.to_nat dotIndex) p)
  else (p, "").

(** [posixpath.dirname(p)] *)
Definition dirname (p : string) : string :=
  let i := Z.to_nat (rfind "/" p + 1) in
  let head := substring 0 i p in
  if negb (head =? "") && negb (head =? seps (String.length head))
  then rstrip_by (fun c => Ascii.eqb c "/") head
  else head.

End posixpath.

(** ** The file system and the operating-system calls of the script *)

Module FS.
Import PyStr.

(** A regular file has its bytes, its modification time (seconds) and
    whether this process may open it for reading; a directory has whether
    this process may list it, and its entries. *)
#[local] Unset Elimination Schemes.
Inductive node :=
| File (data : string) (mtime : Z) (readable : bool)
| Dir (listable : bool) (entries : list (string * node)).
#[local] Set Elimination Schemes.

Fixpoint assoc {A : Type} (k : string) (l : list (string * A)) : option A :=
  match l with
  | [] => None
  | (k', v) :: l' => if k =? k' then Some v else assoc k l'
  end.

(** Descend from [n] along the names [ws]. *)
Fixpoint walk (n : node) (ws : list string) : option node :=
  match ws with
  | [] => Some n
  | w :: ws' =>
      match n with
      | Dir _ es =>
          match assoc w es with
          | Some n' => walk n' ws'
          | None => None
          end
      | File _ _ _ => None
      end
  end.

Definition is_dir (n : option node) : bool :=
  match n with Some (Dir _ _) => true | _ => false end.

Definition is_file (n : option node) : bool :=
  match n with Some (File _ _ _) => true | _ => false end.

(** Path resolution of the kernel: from the directory [cur] (a list of
    names from the root), follow the components [ws] of a path.  Every
    component is looked up in a directory; an empty component or [.] stays,
    [..] goes up. *)
Fixpoint resolve_from (root : node) (cur : list string) (ws : list string)
  : option (list string) :=
  match ws with
  | [] => Some cur
  | w :: ws' =>
      if is_dir (walk root cur) then
        if (w =? "") || (w =? ".") then resolve_from root cur ws'
        else if w =? ".." then resolve_from root (removelast cur) ws'
        else resolve_from root (cur ++ [w])%list ws'
      else None
  end.

(** The node a path names, for a process whose working directory is [cwd] *)
Definition lookup (root : node) (cwd : list string) (path : string)
  : option node :=
  if path =? "" then None
  else
    match resolve_from root (if startswith path "/" then [] else cwd)
            (split "/" path) with
    | Some p => walk root p
    | None => None
    end.

End FS.

(** ** Exceptions, and the [os] calls of the script and of the handler *)

(** The exceptions that occur: an [OSError] of some subclass [kind], with
    its [errno], text and file name; another [Exception]; and
    [KeyboardInterrupt], which is a [BaseException] only. *)
Inductive exn :=
| OSError (kind : string) (errno : Z) (strerror : string)
    (filename : option string)
| Exception (name message : string)
| KeyboardInterrupt.

(** [isinstance(e, Exception)] *)
Definition is_Exception (e : exn) : bool :=
  match e with
  | KeyboardInterrupt => false
  | _ => true
  end.

(** The last line of the traceback of [e] *)
Definition exn_line (e : exn) : string :=
  match e with
  | OSError kind errno strerror filename =>
      kind ++ ": [Errno " ++ PyStr.str_of_Z errno ++ "] " ++ strerror
      ++ match filename with
         | Some f => ": '" ++ f ++ "'"
         | None => ""
         end
  | Exception name message => name ++ ": " ++ message
  | KeyboardInterrupt => "KeyboardInterrupt"
  end.

Definition ENOENT (path : string) : exn :=
  OSError "FileNotFoundError" 2 "No such file or directory" (Some path).
Definition EACCES (path : string) : exn :=
  OSError "PermissionError" 13 "Permission denied" (Some path).
Definition ENOTDIR (path : string) : exn :=
  OSError "NotADirectoryError" 20 "Not a directory" (Some path).
Definition EISDIR (path : string) : exn :=
  OSError "IsADirectoryError" 21 "Is a directory" (Some path).
Definition EADDRINUSE : exn :=
  OSError "OSError" 98 "Address already in use" None.
Definition EACCES_bind : exn :=
  OSError "PermissionError" 13 "Permission denied" None.

(** The calls are on a tree [root], for a process in the directory [cwd];
    each returns its value or the exception it raises. *)
Module Os.
Import PyStr.

(** [os.getcwd()] *)
Definition getcwd (cwd : list string) : string := "/" ++ join "/" cwd.

Section Calls.
Variable root : FS.node.
Variable cwd : list string.

  (** [os.path.isdir(path)] *)
Definition path_isdir (path : string) : bool :=
    FS.is_dir (FS.lookup root cwd path).

  (** [os.path.isfile(path)] *)
Definition path_isfile (path : string) : bool :=
    FS.is_file (FS.lookup root cwd path).

  (** [open(path, 'rb')], then [os.fstat] and reading it all: the bytes
      and the modification time *)
Definition open_rb (path : string) : exn + string * Z :=
    match FS.lookup root cwd path with
    | Some (FS.File data mtime true) => inr (data, mtime)
    | Some (FS.File _ _ false) => inl (EACCES path)
    | Some (FS.Dir _ _) => inl (EISDIR path)
    | None => inl (ENOENT path)
    end.

  (** [os.listdir(path)]: the names, in the order of the directory *)
Definition listdir (path : string) : exn + list string :=
    match FS.lookup root cwd path with
    | Some (FS.Dir true es) => inr (map fst es)
    | Some (FS.Dir false _) => inl (EACCES path)
    | Some (FS.File _ _ _) => inl (ENOTDIR path)
    | None => inl (ENOENT path)
    end.

  (** [os.chdir(path)]: the new working directory *)
Definition chdir (path : string) : exn + list string :=
    if path =? "" then inl (ENOENT path)
    else
      match FS.resolve_from root (if startswith path "/" then [] else cwd)
              (split "/" path) with
      | Some p =>
          match FS.walk root p with
          | Some (FS.Dir _ _) => inr p
          | Some (FS.File _ _ _) => inl (ENOTDIR path)
          | None => inl (ENOENT path)
          end
      | None => inl (ENOENT path)
      end.
End Calls.

End Os.

(** ** [http.server]: the request handler classes *)

(** Library functions the handler calls whose results are text it only
    passes on.  The handler is embedded over any implementation of them. *)
Class StdLib := {
  (** [sys_version] of the handler, as in [Python/3.11.2] *)
  sys_version : string;
  (** [email.utils.formatdate(timestamp, usegmt=True)]; [None] is now *)
  date_time_string : option Z -> string;
  (** [int(s)], [None] for a [ValueError] *)
  py_int : string -> option Z;
  (** [repr(s)], the [%r] of the error messages *)
  py_repr : string -> string;
  (** [urllib.parse.unquote(path, errors='surrogatepass')]; [None] for a
      [UnicodeDecodeError] *)
  unquote_surrogatepass : string -> option string;
  (** [urllib.parse.unquote(path)], which replaces what it cannot decode *)
  unquote_replace : string -> string;
  (** [urllib.parse.quote(name, errors='surrogatepass')] *)
  quote : string -> string;
  (** [urllib.parse.urlsplit(url)], its five parts *)
  urlsplit : string -> string * string * string * string * string;
  (** [urllib.parse.urlunsplit(parts)] *)
  urlunsplit : string * string * string * string * string -> string;
  (** [mimetypes.guess_type(path)[0]] *)
  mimetypes_guess_type : string -> option string;
  (** [email.utils.parsedate_to_datetime(s)]: the seconds since the epoch
      of the date read as UTC and the offset of its time zone ([None] for
      a naive date), or [None] for one of the exceptions it raises *)
  parsedate_to_datetime : string -> option (Z * option Z);
  (** [sys.getfilesystemencoding()] *)
  getfilesystemencoding : string
}.

(** The [try] of [translate_path]: [unquote(path, errors='surrogatepass')],
    and [unquote(path)] on a [UnicodeDecodeError] *)
Definition unquote {L : StdLib} (path : string) : string :=
  match unquote_surrogatepass path with
  | Some decoded => decoded
  | None => unquote_replace path
  end.

Module HTTPStatus.
Definition CONTINUE : Z := 100.
Definition OK : Z := 200.
Definition NO_CONTENT : Z := 204.
Definition RESET_CONTENT : Z := 205.
Definition MOVED_PERMANENTLY : Z := 301.
Definition NOT_MODIFIED : Z := 304.
Definition BAD_REQUEST : Z := 400.
Definition NOT_FOUND : Z := 404.
Definition REQUEST_URI_TOO_LONG : Z := 414.
Definition REQUEST_HEADER_FIELDS_TOO_LARGE : Z := 431.
Definition NOT_IMPLEMENTED : Z := 501.
Definition HTTP_VERSION_NOT_SUPPORTED : Z := 505.

  (** [BaseHTTPRequestHandler.responses], at the codes the handler sends:
      the phrase and the description *)
Definition responses (code : Z) : option (string * string) :=
    if (code =? CONTINUE)%Z then
      Some ("Continue", "Request received, please continue")
    else if (code =? OK)%Z then
      Some ("OK", "Request fulfilled, document follows")
    else if (code =? MOVED_PERMANENTLY)%Z then
      Some ("Moved Permanently", "Object moved permanently -- see URI list")
    else if (code =? NOT_MODIFIED)%Z then
      Some ("Not Modified", "Document has not changed since given time")
    else if (code =? BAD_REQUEST)%Z then
      Some ("Bad Request", "Bad request syntax or unsupported method")
    else if (code =? NOT_FOUND)%Z then
      Some ("Not Found", "Nothing matches the given URI")
    else if (code =? REQUEST_URI_TOO_LONG)%Z then
      Some ("Request-URI Too Long", "URI is too long")
    else if (code =? REQUEST_HEADER_FIELDS_TOO_LARGE)%Z then
      Some ("Request Header Fields Too Large",
            "The server is unwilling to process the request because its header fields are too large")
    else if (code =? NOT_IMPLEMENTED)%Z then
      Some ("Not Implemented", "Server does not support this operation")
    else if (code =? HTTP_VERSION_NOT_SUPPORTED)%Z then
      Some ("HTTP Version Not Supported", "Cannot fulfill request")
    else None.
End HTTPStatus.

(** What one [wfile.write] sent: the header lines that [flush_headers]
    joins, or body bytes. *)
Inductive chunk :=
| Headers (lines : list string)
| Body (data : string).

(** The bytes of a chunk on the connection *)
Definition chunk_bytes (c : chunk) : string :=
  match c with
  | Headers lines => String.concat "" lines
  | Body data => data
  end.

(** What [http.client.parse_headers] makes of the lines after the request
    line: the fields, or one of its two exceptions with its text. *)
Inductive header_parse :=
| HeadersOk (fields : list (string * string))
| LineTooLong (err : string)
| TooManyHeaders (err : string).

(** What a client sends for one request *)
Record request := {
  raw_requestline : string;
  header_lines : header_parse
}.

(** The attributes of a handler object *)
Record handler := mk_handler {
  directory : string;
  request_version : string;
  command : option string;
  path : string;
  headers : list (string * string);
  close_connection : bool;
  headers_buffer : list string;
  wfile : list chunk
}.

Definition set_request_version (h : handler) (v : string) : handler :=
  mk_handler (directory h) v (command h) (path h) (headers h)
    (close_connection h) (headers_buffer h) (wfile h).
Definition set_command (h : handler) (c : option string) : handler :=
  mk_handler (directory h) (request_version h) c (path h) (headers h)
    (close_connection h) (headers_buffer h) (wfile h).
Definition set_path (h : handler) (p : string) : handler :=
  mk_handler (directory h) (request_version h) (command h) p (headers h)
    (close_connection h) (headers_buffer h) (wfile h).
Definition set_headers (h : handler) (hs : list (string * string)) : handler :=
  mk_handler (directory h) (request_version h) (command h) (path h) hs
    (close_connection h) (headers_buffer h) (wfile h).
Definition set_close_connection (h : handler) (b : bool) : handler :=
  mk_handler (directory h) (request_version h) (command h) (path h) (headers h)
    b (headers_buffer h) (wfile h).
Definition set_headers_buffer (h : handler) (b : list string) : handler :=
  mk_handler (directory h) (request_version h) (command h) (path h) (headers h)
    (close_connection h) b (wfile h).
Definition set_wfile (h : handler) (w : list chunk) : handler :=
  mk_handler (directory h) (request_version h) (command h) (path h) (headers h)
    (close_connection h) (headers_buffer h) w.

(** [self.path], where a local variable is called [path] too *)
Definition self_path (h : handler) : string := path h.

(** [self.wfile.write(data)] *)
Definition wfile_write (data : chunk) (h : handler) : handler :=
  set_wfile h (list_append (wfile h) data).

(** [self.headers.get(name)]: the first field of that name, whatever the
    case of its letters *)
Fixpoint headers_get (name : string) (hs : list (string * string))
  : option string :=
  match hs with
  | [] => None
  | (k, v) :: hs' =>
      if PyStr.lower k =? PyStr.lower name then Some v else headers_get name hs'
  end.

Definition option_default {A : Type} (d : A) (o : option A) : A :=
  match o with Some a => a | None => d end.

(** [html.escape(s, quote=False)] *)
Definition html_escape (s : string) : string :=
  PyStr.replace ">" "&gt;" (PyStr.replace "<" "&lt;" (PyStr.replace "&" "&amp;" s)).

Module BaseHTTPRequestHandler.
Import PyStr.

Definition protocol_version : string := "HTTP/1.0".
Definition default_request_version : string := "HTTP/0.9".
Definition error_content_type : string := "text/html;charset=utf-8".

(** [DEFAULT_ERROR_MESSAGE % {'code': .., 'message': .., 'explain': ..}] *)
Definition error_message_format (code : Z) (message explain : string) : string :=
  "<!DOCTYPE HTML>" ++ LF ++
  "<html lang=" ++ DQ ++ "en" ++ DQ ++ ">" ++ LF ++
  "    <head>" ++ LF ++
  "        <meta charset=" ++ DQ ++ "utf-8" ++ DQ ++ ">" ++ LF ++
  "        <title>Error response</title>" ++ LF ++
  "    </head>" ++ LF ++
  "    <body>" ++ LF ++
  "        <h1>Error response</h1>" ++ LF ++
  "        <p>Error code: " ++ str_of_Z code ++ "</p>" ++ LF ++
  "        <p>Message: " ++ message ++ ".</p>" ++ LF ++
  "        <p>Error code explanation: " ++ str_of_Z code ++ " - " ++ explain
     ++ ".</p>" ++ LF ++
  "    </body>" ++ LF ++
  "</html>" ++ LF.

(** ["%s %d %s\r\n" % (protocol_version, code, message)] *)
Definition status_line (code : Z) (message : string) : string :=
  protocol_version ++ " " ++ str_of_Z code ++ " " ++ message ++ CRLF.

(** ["%s: %s\r\n" % (keyword, value)] *)
Definition header_line (keyword value : string) : string :=
  keyword ++ ": " ++ value ++ CRLF.

(** [(a, b) >= (c, d)] on tuples of integers *)
Definition tuple_ge (v w : Z * Z) : bool :=
  ((fst w <? fst v) || ((fst v =? fst w) && (snd w <=? snd v)))%Z.

Section Methods.
Context {L : StdLib}.

  (** What [self.end_headers] is for the class of the object *)
Variable self_end_headers : handler -> handler.
  (** [getattr(self, 'do_' + command)], [None] when [hasattr] is false *)
Variable self_do : string -> option (handler -> handler).

Definition send_response_only (code : Z) (message : option string)
      (h : handler) : handler :=
    if negb (request_version h =? "HTTP/0.9") then
      let message :=
        match message with
        | Some m => m
        | None =>
            match HTTPStatus.responses code with
            | Some (phrase, _) => phrase
            | None => ""
            end
        end in
      set_headers_buffer h
        (list_append (headers_buffer h) (status_line code message))
    else h.

Definition send_header (keyword value : string) (h : handler) : handler :=
    let h :=
      if negb (request_version h =? "HTTP/0.9") then
        set_headers_buffer h
          (list_append (headers_buffer h) (header_line keyword value))
      else h in
    if lower keyword =? "connection" then
      if lower value =? "close" then set_close_connection h true
      else if lower value =? "keep-alive" then set_close_connection h false
      else h
    else h.

Definition flush_headers (h : handler) : handler :=
    let h := wfile_write (Headers (headers_buffer h)) h in
    set_headers_buffer h [].

Definition end_headers (h : handler) : handler :=
    if negb (request_version h =? "HTTP/0.9") then
      let h := set_headers_buffer h (list_append (headers_buffer h) CRLF) in
      flush_headers h
    else h.

  (** [version_string()], with the [server_version] of the class in use *)
Definition version_string (server_version : string) : string :=
    server_version ++ " " ++ sys_version.

Variable self_server_version : string.

Definition send_response (code : Z) (message : option string)
      (h : handler) : handler :=
    let h := send_response_only code message h in
    let h := send_header "Server" (version_string self_server_version) h in
    send_header "Date" (date_time_string None) h.

Definition send_error (code : Z) (message explain : option string)
      (h : handler) : handler :=
    let (shortmsg, longmsg) :=
      option_default ("???", "???") (HTTPStatus.responses code) in
    let message := option_default shortmsg message in
    let explain := option_default longmsg explain in
    let h := send_response code (Some message) h in
    let h := send_header "Connection" "close" h in
    let body :=
      if (200 <=? code)%Z
         && negb ((code =? HTTPStatus.NO_CONTENT)%Z
                  || (code =? HTTPStatus.RESET_CONTENT)%Z
                  || (code =? HTTPStatus.NOT_MODIFIED)%Z)
      then Some (error_message_format code (html_escape message)
                   (html_escape explain))
      else None in
    let h :=
      match body with
      | Some body =>
          let h := send_header "Content-Type" error_content_type h in
          send_header "Content-Length"
            (str_of_Z (Z.of_nat (String.length body))) h
      | None => h
      end in
    let h := self_end_headers h in
    match body with
    | Some body =>
        if negb (match command h with Some c => c =? "HEAD" | None => false end)
           && negb (body =? "")
        then wfile_write (Body body) h
        else h
    | None => h
    end.

Definition handle_expect_100 (h : handler) : bool * handler :=
    let h := send_response_only HTTPStatus.CONTINUE None h in
    (true, self_end_headers h).

  (** The [try] block of [parse_request] on the last word of the request
      line: the text after [HTTP/] and the two numbers, or [None] where it
      raises. *)
Definition parse_version (version : string) : option (string * (Z * Z)) :=
    if negb (startswith version "HTTP/") then None
    else
      let base_version_number := after "/" version in
      match split "." base_version_number with
      | [major; minor] =>
          match py_int major, py_int minor with
          | Some a, Some b => Some (base_version_number, (a, b))
          | _, _ => None
          end
      | _ => None
      end.

  (** The second half of [parse_request], from the header fields on *)
Definition parse_request_headers (fields : header_parse) (h : handler)
    : bool * handler :=
    match fields with
    | LineTooLong err =>
        (false, send_error HTTPStatus.REQUEST_HEADER_FIELDS_TOO_LARGE
                  (Some "Line too long") (Some err) h)
    | TooManyHeaders err =>
        (false, send_error HTTPStatus.REQUEST_HEADER_FIELDS_TOO_LARGE
                  (Some "Too many headers") (Some err) h)
    | HeadersOk fields =>
        let h := set_headers h fields in
        let conntype := option_default "" (headers_get "Connection" fields) in
        let h :=
          if lower conntype =? "close" then set_close_connection h true
          else if (lower conntype =? "keep-alive")
                  && ("HTTP/1.1" <=? protocol_version)
               then set_close_connection h false
               else h in
        let expect := option_default "" (headers_get "Expect" fields) in
        if (lower expect =? "100-continue")
           && ("HTTP/1.1" <=? protocol_version)
           && ("HTTP/1.1" <=? request_version h)
        then
          let (ok, h) := handle_expect_100 h in
          if ok then (true, h) else (false, h)
        else (true, h)
    end.

(** The part of [parse_request] on the protocol version, which a request
    line of three words or more has: the handler after an error response
    (left), or the handler to go on with (right). *)
Definition parse_request_version (words : list string) (h : handler)
  : handler + handler :=
    if (3 <=? length words)%nat then
      let version := last words "" in
      match parse_version version with
      | None =>
          inl (send_error HTTPStatus.BAD_REQUEST
                 (Some ("Bad request version (" ++ py_repr version ++ ")"))
                 None h)
      | Some (base_version_number, version_number) =>
          let h :=
            if tuple_ge version_number (1, 1)%Z
               && ("HTTP/1.1" <=? protocol_version)
            then set_close_connection h false else h in
          if tuple_ge version_number (2, 0)%Z then
            inl (send_error HTTPStatus.HTTP_VERSION_NOT_SUPPORTED
                   (Some ("Invalid HTTP version (" ++ base_version_number
                          ++ ")"))
                   None h)
          else inr (set_request_version h version)
      end
    else inr h.

Definition parse_request (req : request) (h : handler) : bool * handler :=
    let h := set_command h None in
    let h := set_request_version h default_request_version in
    let h := set_close_connection h true in
    let requestline := rstrip_by is_crlf (raw_requestline req) in
    let words := split_ws requestline in
    if (length words =? 0)%nat then (false, h)
    else
      match parse_request_version words h with
      | inl h => (false, h)
      | inr h =>
          if negb ((2 <=? length words)%nat && (length words <=? 3)%nat) then
            (false, send_error HTTPStatus.BAD_REQUEST
                      (Some ("Bad request syntax (" ++ py_repr requestline
                             ++ ")"))
                      None h)
          else
            let command := nth 0 words "" in
            let path := nth 1 words "" in
            let h := if (length words =? 2)%nat
                     then set_close_connection h true else h in
            if (length words =? 2)%nat && negb (command =? "GET") then
              (false, send_error HTTPStatus.BAD_REQUEST
                        (Some ("Bad HTTP/0.9 request type (" ++ py_repr command
                               ++ ")"))
                        None h)
            else
              let h := set_command h (Some command) in
              let h := set_path h path in
              let h :=
                if startswith path "//"
                then set_path h ("/" ++ lstrip_by (fun c => Ascii.eqb c "/") path)
                else h in
              parse_request_headers (header_lines req) h
      end.

Definition handle_one_request (req : request) (h : handler) : handler :=
    if (65536 <? Z.of_nat (String.length (raw_requestline req)))%Z then
      let h := set_request_version h "" in
      let h := set_command h (Some "") in
      send_error HTTPStatus.REQUEST_URI_TOO_LONG None None h
    else if raw_requestline req =? "" then
      set_close_connection h true
    else
      let (ok, h) := parse_request req h in
      if negb ok then h
      else
        let command := option_default "" (command h) in
        match self_do command with
        | None =>
            send_error HTTPStatus.NOT_IMPLEMENTED
              (Some ("Unsupported method (" ++ py_repr command ++ ")")) None h
        | Some method => method h
        end.

  (** [handle]: the requests of one connection in turn, until one of them
      leaves [close_connection] set.  When the client has sent nothing
      more, [readline] returns no bytes and [handle_one_request] closes. *)
Fixpoint handle_requests (reqs : list request) (h : handler) : handler :=
    match reqs with
    | [] => set_close_connection h true
    | req :: reqs' =>
        let h := handle_one_request req h in
        if close_connection h then h else handle_requests reqs' h
    end.

Definition handle (reqs : list request) (h : handler) : handler :=
    let h := set_close_connection h true in
    handle_requests reqs h.

End Methods.
End BaseHTTPRequestHandler.

Module SimpleHTTPRequestHandler.
Import PyStr.

Definition server_version : string := "SimpleHTTP/0.6".

(** [extensions_map] of the class *)
Definition extensions_map : list (string * string) :=
  [ (".gz", "application/gzip");
    (".Z", "application/octet-stream");
    (".bz2", "application/x-bzip2");
    (".xz", "application/x-xz") ].

(** One step of [list.sort(key=lambda a: a.lower())]: [x] goes after the
    names that do not come after it. *)
Fixpoint insert_by_lower (x : string) (l : list string) : list string :=
  match l with
  | [] => [x]
  | y :: l' =>
      if lower x <? lower y then x :: l else y :: insert_by_lower x l'
  end.

Definition sort_by_lower (l : list string) : list string :=
  fold_left (fun sorted x => insert_by_lower x sorted) l [].

Section Methods.
Context {L : StdLib}.
Variable self_end_headers : handler -> handler.
  (** The file system, and the working directory of the process *)
Variable root : FS.node.
Variable cwd : list string.

Definition send_response :=
    BaseHTTPRequestHandler.send_response server_version.
Definition send_header := BaseHTTPRequestHandler.send_header.
Definition send_error :=
    BaseHTTPRequestHandler.send_error self_end_headers server_version.

  (** The body of the [for word in words] loop of [translate_path] *)
Definition translate_step (path word : string) : string :=
    if negb (posixpath.dirname word =? "") || (word =? ".") || (word =? "..")
    then path
    else posixpath.join path word.

Definition translate_path (h : handler) (path : string) : string :=
    let path := before "?" path in
    let path := before "#" path in
    let trailing_slash := endswith (rstrip path) "/" in
    let path := unquote path in
    let path := posixpath.normpath path in
    let words := split "/" path in
    let words := filter (fun w => negb (w =? "")) words in
    let path := fold_left translate_step words (directory h) in
    if trailing_slash then path ++ "/" else path.

Definition guess_type (path : string) : string :=
    let ext := snd (posixpath.splitext path) in
    match FS.assoc ext extensions_map with
    | Some t => t
    | None =>
        let ext := lower ext in
        match FS.assoc ext extensions_map with
        | Some t => t
        | None =>
            match mimetypes_guess_type path with
            | Some guess =>
                if guess =? "" then "application/octet-stream" else guess
            | None => "application/octet-stream"
            end
        end
    end.

  (** One line of the listing.  The tree has no symbolic links, so
      [os.path.islink] is false. *)
Definition list_item (path name : string) : string :=
    let fullname := posixpath.join path name in
    let displayname :=
      if Os.path_isdir root cwd fullname then name ++ "/" else name in
    let linkname := displayname in
    "<li><a href=" ++ DQ ++ quote linkname ++ DQ ++ ">"
      ++ html_escape displayname ++ "</a></li>".

  (** The page [list_directory] builds for the names [list] of [path] *)
Definition listing_page (path displaypath : string) (list : list string)
    : string :=
    let enc := getfilesystemencoding in
    let title := "Directory listing for " ++ displaypath in
    let r :=
      List.app
        [ "<!DOCTYPE HTML>";
          "<html lang=" ++ DQ ++ "en" ++ DQ ++ ">";
          "<head>";
          "<meta charset=" ++ DQ ++ enc ++ DQ ++ ">";
          "<title>" ++ title ++ "</title>" ++ LF ++ "</head>";
          "<body>" ++ LF ++ "<h1>" ++ title ++ "</h1>";
          "<hr>" ++ LF ++ "<ul>" ]
        (List.app (map (list_item path) list)
           [ "</ul>" ++ LF ++ "<hr>" ++ LF ++ "</body>" ++ LF ++ "</html>"
             ++ LF ]) in
    join LF r.

  (** [list_directory]: the listing to copy to the client, or [None] *)
Definition list_directory (path : string) (h : handler)
    : option string * handler :=
    match Os.listdir root cwd path with
    | inl _ =>
        (None, send_error HTTPStatus.NOT_FOUND
                 (Some "No permission to list directory") None h)
    | inr list =>
        let list := sort_by_lower list in
        let displaypath :=
          match unquote_surrogatepass (self_path h) with
          | Some decoded => decoded
          | None => unquote_replace path
          end in
        let displaypath := html_escape displaypath in
        let enc := getfilesystemencoding in
        let encoded := listing_page path displaypath list in
        let h := send_response HTTPStatus.OK None h in
        let h := send_header "Content-type" ("text/html; charset=" ++ enc) h in
        let h := send_header "Content-Length"
                   (str_of_Z (Z.of_nat (String.length encoded))) h in
        let h := self_end_headers h in
        (Some encoded, h)
    end.

  (** The test of [send_head] on [If-Modified-Since]: the file, last
      modified at [mtime], is as the client has it. *)
Definition not_modified (hs : list (string * string)) (mtime : Z) : bool :=
    match headers_get "If-Modified-Since" hs, headers_get "If-None-Match" hs with
    | Some since, None =>
        match parsedate_to_datetime since with
        | None => false
        | Some (ims, tzinfo) =>
            (* a naive date is taken as UTC; another zone is not compared *)
            if (option_default 0 tzinfo =? 0)%Z then (mtime <=? ims)%Z
            else false
        end
    | _, _ => false
    end.

  (** [for index in "index.html", "index.htm"]: the first that is a file *)
Definition find_index (path : string) : option string :=
    let index := posixpath.join path "index.html" in
    if Os.path_isfile root cwd index then Some index
    else
      let index := posixpath.join path "index.htm" in
      if Os.path_isfile root cwd index then Some index else None.

  (** The part of [send_head] after the directory case: [path] is served
      as a file. *)
Definition send_file_head (path : string) (h : handler)
    : option string * handler :=
    let ctype := guess_type path in
    if endswith path "/" then
      (None, send_error HTTPStatus.NOT_FOUND (Some "File not found") None h)
    else
      match Os.open_rb root cwd path with
      | inl _ =>
          (None, send_error HTTPStatus.NOT_FOUND (Some "File not found") None h)
      | inr (data, mtime) =>
          if not_modified (headers h) mtime then
            let h := send_response HTTPStatus.NOT_MODIFIED None h in
            (None, self_end_headers h)
          else
            let h := send_response HTTPStatus.OK None h in
            let h := send_header "Content-type" ctype h in
            let h := send_header "Content-Length"
                       (str_of_Z (Z.of_nat (String.length data))) h in
            let h := send_header "Last-Modified"
                       (date_time_string (Some mtime)) h in
            let h := self_end_headers h in
            (Some data, h)
      end.

  (** [send_head]: the bytes to copy to the client, or [None] *)
Definition send_head (h : handler) : option string * handler :=
    let path := translate_path h (self_path h) in
    if Os.path_isdir root cwd path then
      let '(scheme, netloc, url, query, fragment) := urlsplit (self_path h) in
      if negb (endswith url "/") then
        let h := send_response HTTPStatus.MOVED_PERMANENTLY None h in
        let new_url := urlunsplit (scheme, netloc, url ++ "/", query, fragment) in
        let h := send_header "Location" new_url h in
        let h := send_header "Content-Length" "0" h in
        (None, self_end_headers h)
      else
        match find_index path with
        | Some index => send_file_head index h
        | None => list_directory path h
        end
    else send_file_head path h.

  (** [copyfile(f, self.wfile)]: [shutil.copyfileobj] writes the blocks it
      reads, and nothing for an empty source; the blocks are one chunk. *)
Definition copyfile (data : string) (h : handler) : handler :=
    if data =? "" then h else wfile_write (Body data) h.

Definition do_GET (h : handler) : handler :=
    let (f, h) := send_head h in
    match f with
    | Some data => copyfile data h
    | None => h
    end.

Definition do_HEAD (h : handler) : handler :=
    let (f, h) := send_head h in h.

End Methods.
End SimpleHTTPRequestHandler.

(** ** The script: [MyHTTPRequestHandler] *)

Module MyHTTPRequestHandler.
Section Methods.
Context {L : StdLib}.
Variable root : FS.node.
Variable cwd : list string.

  (** [end_headers] of the script: the header, then the inherited method *)
Definition end_headers (h : handler) : handler :=
    let h := BaseHTTPRequestHandler.send_header
               "Access-Control-Allow-Origin" "*" h in
    BaseHTTPRequestHandler.end_headers h.

  (** The methods the class inherits, with [self.end_headers] bound *)
Definition do_GET : handler -> handler :=
    SimpleHTTPRequestHandler.do_GET end_headers root cwd.
Definition do_HEAD : handler -> handler :=
    SimpleHTTPRequestHandler.do_HEAD end_headers root cwd.

  (** [getattr(self, mname)]: the class has [do_GET] and [do_HEAD] only *)
Definition do_ (command : string) : option (handler -> handler) :=
    if command =? "GET" then Some do_GET
    else if command =? "HEAD" then Some do_HEAD
    else None.

Definition handle_one_request : request -> handler -> handler :=
    BaseHTTPRequestHandler.handle_one_request end_headers do_
      SimpleHTTPRequestHandler.server_version.

Definition handle : list request -> handler -> handler :=
    BaseHTTPRequestHandler.handle end_headers do_
      SimpleHTTPRequestHandler.server_version.

  (** [__init__] of the handler: [directory] is [os.getcwd()], nothing
      is parsed or written yet. *)
Definition new : handler :=
    mk_handler (Os.getcwd cwd) "" None "" [] true [] [].

  (** What the server writes to a connection that sends [reqs] *)
Definition serve (reqs : list request) : list chunk :=
    wfile (handle reqs new).

  (** What it writes for one request *)
Definition respond (req : request) : list chunk :=
    wfile (handle_one_request req new).
End Methods.
End MyHTTPRequestHandler.

(** ** The process: its state, and statements that may raise *)

(** What reaches the listening socket: a connection with the requests its
    client sends, during which the handler may raise [fault] (a broken
    connection, or the interrupt); an [accept] that fails; the interrupt
    signal while the loop waits. *)
Inductive event :=
| Connect (reqs : list request) (fault : option exn)
| AcceptError
| Interrupt.

(** What the server does with connection number [i] *)
Inductive step :=
| Accept (i : nat)
| Begin (i : nat)
| End_ (i : nat)
| Close (i : nat).

Record state := mk_state {
  (** the file system *)
  fs : FS.node;
  (** the working directory of the process, as names from the root *)
  cwd : list string;
  (** the listening sockets of the machine: address, port, process *)
  listening : list (string * Z * nat);
  (** whether the system lets this process bind a port *)
  may_bind : Z -> bool;
  pid : nat;
  (** the address the socket of the server is bound to, if it is *)
  socket : option (string * Z);
  stdout : list string;
  stderr : list string;
  (** what is still to reach the socket *)
  incoming : list event;
  (** the connections accepted so far *)
  accepted : nat;
  (** what was written to each connection *)
  sent : list (nat * list chunk);
  steps : list step
}.

Definition set_cwd (s : state) (d : list string) : state :=
  mk_state (fs s) d (listening s) (may_bind s) (pid s) (socket s) (stdout s)
    (stderr s) (incoming s) (accepted s) (sent s) (steps s).
Definition set_listening (s : state) (l : list (string * Z * nat)) : state :=
  mk_state (fs s) (cwd s) l (may_bind s) (pid s) (socket s) (stdout s)
    (stderr s) (incoming s) (accepted s) (sent s) (steps s).
Definition set_socket (s : state) (a : option (string * Z)) : state :=
  mk_state (fs s) (cwd s) (listening s) (may_bind s) (pid s) a (stdout s)
    (stderr s) (incoming s) (accepted s) (sent s) (steps s).
Definition set_stdout (s : state) (o : list string) : state :=
  mk_state (fs s) (cwd s) (listening s) (may_bind s) (pid s) (socket s) o
    (stderr s) (incoming s) (accepted s) (sent s) (steps s).
Definition set_stderr (s : state) (o : list string) : state :=
  mk_state (fs s) (cwd s) (listening s) (may_bind s) (pid s) (socket s)
    (stdout s) o (incoming s) (accepted s) (sent s) (steps s).
Definition set_incoming (s : state) (evs : list event) : state :=
  mk_state (fs s) (cwd s) (listening s) (may_bind s) (pid s) (socket s)
    (stdout s) (stderr s) evs (accepted s) (sent s) (steps s).
Definition set_accepted (s : state) (n : nat) : state :=
  mk_state (fs s) (cwd s) (listening s) (may_bind s) (pid s) (socket s)
    (stdout s) (stderr s) (incoming s) n (sent s) (steps s).
Definition set_sent (s : state) (l : list (nat * list chunk)) : state :=
  mk_state (fs s) (cwd s) (listening s) (may_bind s) (pid s) (socket s)
    (stdout s) (stderr s) (incoming s) (accepted s) l (steps s).
Definition set_steps (s : state) (l : list step) : state :=
  mk_state (fs s) (cwd s) (listening s) (may_bind s) (pid s) (socket s)
    (stdout s) (stderr s) (incoming s) (accepted s) (sent s) l.

(** How a statement ends: normally with a value, with an exception, or
    not at all, the server waiting for what the events do not hold. *)
Inductive result (A : Type) :=
| Ok (a : A)
| Raise (e : exn)
| Waiting.
Arguments Ok {A} a.
Arguments Raise {A} e.
Arguments Waiting {A}.

Definition M (A : Type) : Type := state -> result A * state.

Definition ret {A : Type} (a : A) : M A := fun s => (Ok a, s).

Definition bind {A B : Type} (m : M A) (k : A -> M B) : M B :=
  fun s =>
    match m s with
    | (Ok a, s') => k a s'
    | (Raise e, s') => (Raise e, s')
    | (Waiting, s') => (Waiting, s')
    end.

Definition raise {A : Type} (e : exn) : M A := fun s => (Raise e, s).

Declare Scope py_scope.
Delimit Scope py_scope with py.
Notation "x <- m ;; k" := (bind m (fun x => k))
  (at level 61, m at next level, right associativity) : py_scope.
Notation "m ;; k" := (bind m (fun _ => k))
  (at level 61, right associativity) : py_scope.
Local Open Scope py_scope.

(** A call of [os] that returns or raises *)
Definition lift {A : Type} (r : exn + A) : M A :=
  match r with
  | inl e => raise e
  | inr a => ret a
  end.

(** [try: body finally: cleanup], as [with] uses it *)
Definition finally {A : Type} (body : M A) (cleanup : M unit) : M A :=
  fun s =>
    match body s with
    | (Ok a, s') => (a' <- cleanup ;; ret a) s'
    | (Raise e, s') => (cleanup ;; raise e) s'
    | (Waiting, s') => (Waiting, s')
    end.

(** [try: body except: handler; raise] *)
Definition except_reraise {A : Type} (body : M A) (handler : M unit) : M A :=
  fun s =>
    match body s with
    | (Raise e, s') => (handler ;; raise e) s'
    | r => r
    end.

(** [for x in l: body] *)
Fixpoint for_ {A : Type} (l : list A) (body : A -> M unit) : M unit :=
  match l with
  | [] => ret tt
  | x :: l' => body x ;; for_ l' body
  end.

(** [print(line)] *)
Definition print (line : string) : M unit :=
  fun s => (Ok tt, set_stdout s (list_append (stdout s) line)).

(** [print(line, file=sys.stderr)] *)
Definition eprint (line : string) : M unit :=
  fun s => (Ok tt, set_stderr s (list_append (stderr s) line)).

Definition os_chdir (path : string) : M unit :=
  fun s =>
    match Os.chdir (fs s) (cwd s) path with
    | inl e => (Raise e, s)
    | inr d => (Ok tt, set_cwd s d)
    end.

Definition os_listdir (path : string) : M (list string) :=
  fun s => lift (Os.listdir (fs s) (cwd s) path) s.

Definition os_getcwd : M string := fun s => (Ok (Os.getcwd (cwd s)), s).

Definition log_step (t : step) : M unit :=
  fun s => (Ok tt, set_steps s (list_append (steps s) t)).

(** ** [socketserver.TCPServer] *)

Module TCPServer.

Definition same_socket (a b : string * Z * nat) : bool :=
  (fst (fst a) =? fst (fst b)) && (snd (fst a) =? snd (fst b))%Z
  && (snd a =? snd b)%nat.

(** Whether a socket of the machine listens on [port] *)
Definition taken (s : state) (port : Z) : bool :=
  existsb (fun l => (snd (fst l) =? port)%Z) (listening s).

(** [socket.bind(address)]: refused by the system, or the port is taken by
    a socket of the machine, or the socket is now bound to it. *)
Definition socket_bind (address : string * Z) : M unit :=
  fun s =>
    if negb (may_bind s (snd address)) then (Raise EACCES_bind, s)
    else if taken s (snd address) then (Raise EADDRINUSE, s)
    else
      let s := set_listening s
                 (list_append (listening s)
                    (fst address, snd address, pid s)) in
      (Ok tt, set_socket s (Some address)).

(** [socket.socket(...)]: a socket that is not bound yet *)
Definition new_socket : M unit := fun s => (Ok tt, set_socket s None).

(** [socket.close()]: a bound socket leaves the table of the machine *)
Definition socket_close : M unit :=
  fun s =>
    match socket s with
    | Some address =>
        let s := set_listening s
                   (filter
                      (fun l =>
                         negb (same_socket l
                                 (fst address, snd address, pid s)))
                      (listening s)) in
        (Ok tt, set_socket s None)
    | None => (Ok tt, s)
    end.

Section Server.
Context {L : StdLib}.

Definition server_bind (server_address : string * Z) : M unit :=
    socket_bind server_address.

  (** [socket.listen(request_queue_size)] *)
Definition server_activate (server_address : string * Z) : M unit := ret tt.

Definition server_close (server_address : string * Z) : M unit :=
    socket_close.

  (** [TCPServer(server_address, RequestHandlerClass)]; the server object
      is known by its address. *)
Definition init (server_address : string * Z) : M (string * Z) :=
    new_socket ;;
    except_reraise
      (server_bind server_address ;; server_activate server_address)
      (server_close server_address) ;;
    ret server_address.

  (** [get_request]: [socket.accept()] gives the next connection its number *)
Definition get_request : M nat :=
    fun s =>
      let i := accepted s in
      (log_step (Accept i) ;; ret i) (set_accepted s (S i)).

  (** [shutdown_request] and [close_request] *)
Definition shutdown_request (i : nat) : M unit := log_step (Close i).

  (** [finish_request]: the handler object is made, which runs [handle].
      When the handler raises, what it had written is not recorded. *)
Definition finish_request (i : nat) (reqs : list request)
      (fault : option exn) : M unit :=
    log_step (Begin i) ;;
    match fault with
    | Some e => log_step (End_ i) ;; raise e
    | None =>
        (fun s =>
           (Ok tt,
            set_sent s
              (list_append (sent s)
                 (i, MyHTTPRequestHandler.serve (fs s) (cwd s) reqs)))) ;;
        log_step (End_ i)
    end.

Definition process_request (i : nat) (reqs : list request)
      (fault : option exn) : M unit :=
    finish_request i reqs fault ;;
    shutdown_request i.

  (** [handle_error]: the traceback goes to [stderr], between two rules *)
Definition handle_error (e : exn) : M unit :=
    eprint "----------------------------------------" ;;
    eprint "Exception occurred during processing of request" ;;
    eprint "Traceback (most recent call last):" ;;
    eprint (exn_line e) ;;
    eprint "----------------------------------------".

Definition _handle_request_noblock (reqs : list request)
      (fault : option exn) : M unit :=
    i <- get_request ;;
    fun s =>
      match process_request i reqs fault s with
      | (Raise e, s') =>
          if is_Exception e then (handle_error e ;; shutdown_request i) s'
          else (shutdown_request i ;; raise e) s'
      | r => r
      end.

  (** The loop of [serve_forever] on the events still to come.  Nothing
      sets the shutdown flag, so the loop goes on until an exception. *)
Fixpoint serve_loop (evs : list event) : M unit :=
    match evs with
    | [] => fun s => (Waiting, s)
    | ev :: evs' =>
        (fun s => (Ok tt, set_incoming s evs')) ;;
        match ev with
        | Interrupt => raise KeyboardInterrupt
        | AcceptError => serve_loop evs'
        | Connect reqs fault =>
            _handle_request_noblock reqs fault ;; serve_loop evs'
        end
    end.

Definition serve_forever (httpd : string * Z) : M unit :=
    fun s => serve_loop (incoming s) s.

  (** [with TCPServer(server_address, ...) as httpd: body] *)
Definition with_ (server_address : string * Z)
      (body : string * Z -> M unit) : M unit :=
    httpd <- init server_address ;;
    finally (body httpd) (server_close httpd).
End Server.
End TCPServer.

(** ** The script *)

Module Script.
Section Main.
Context {L : StdLib}.

Definition PORT : Z := 8080.

  (** The [for] loop of the script over [os.listdir('.')] *)
Definition list_files : M unit :=
    files <- os_listdir "." ;;
    for_ files (fun file =>
      if PyStr.startswith file "bcrdf-" then print ("   - " ++ file)
      else ret tt).

Definition main : M unit :=
    os_chdir "dist" ;;
    print ("🚀 Test server starting on http://localhost:" ++ PyStr.str_of_Z PORT) ;;
    d <- os_getcwd ;;
    print ("📁 Serving files from: " ++ d) ;;
    print "📋 Available files:" ;;
    list_files ;;
    print "✅ Server ready! Press Ctrl+C to stop" ;;
    TCPServer.with_ ("", PORT) (fun httpd => TCPServer.serve_forever httpd).

  (** How the process ends, if it does *)
Inductive outcome :=
  | Exited (status : Z)
  | Serving.

  (** The exit status the interpreter gives for an exception nobody
      caught: it prints the traceback and exits with 1; for
      [KeyboardInterrupt] it ends by the signal, which a shell reports as
      130. *)
Definition exit_status (e : exn) : Z :=
    match e with
    | KeyboardInterrupt => 130
    | _ => 1
    end.

  (** [python3 test-server.py] *)
Definition python (s : state) : outcome * state :=
    match main s with
    | (Ok _, s') => (Exited 0, s')
    | (Raise e, s') =>
        (Exited (exit_status e),
         set_stderr s'
           (stderr s' ++ ["Traceback (most recent call last):"; exn_line e])%list)
    | (Waiting, s') => (Serving, s')
    end.
End Main.
End Script.

(** ** The vocabulary of the statements *)

Module Base := BaseHTTPRequestHandler.
Module Simple := SimpleHTTPRequestHandler.
Module My := MyHTTPRequestHandler.

Section Vocabulary.
Context {L : StdLib}.

Definition bcrdf_lines (names : list string) : list string :=
  map (fun f => "   - " ++ f) (filter (fun f => PyStr.startswith f "bcrdf-") names).

(** the parts of the state the request loop leaves alone *)
Definition same_machine (s s' : state) : Prop :=
  fs s' = fs s /\ cwd s' = cwd s /\ listening s' = listening s
  /\ may_bind s' = may_bind s /\ pid s' = pid s /\ socket s' = socket s
  /\ stdout s' = stdout s.

Definition block (i : nat) : list step := [Accept i; Begin i; End_ i; Close i].

Definition blocks (a k : nat) : list step := concat (map block (seq a k)).

Definition startup_lines (d : list string) (names : list string) : list string :=
  List.app
    ["🚀 Test server starting on http://localhost:" ++ PyStr.str_of_Z Script.PORT;
     "📁 Serving files from: " ++ Os.getcwd d;
     "📋 Available files:"]
    (List.app (bcrdf_lines names) ["✅ Server ready! Press Ctrl+C to stop"]).

Definition started (s : state) (d names : list string) : state :=
  set_stdout (set_cwd s d) (stdout s ++ startup_lines d names)%list.

(** the state once the socket is bound *)
Definition bound (s : state) : state :=
  set_socket
    (set_listening s (listening s ++ [("", Script.PORT, pid s)])%list)
    (Some ("", Script.PORT)).

(** the state when [os.listdir] raises: the first three lines are out *)
Definition unlisted (s : state) (d : list string) : state :=
  set_stdout (set_cwd s d)
    (List.app (stdout s)
       ["🚀 Test server starting on http://localhost:" ++ PyStr.str_of_Z Script.PORT;
        "📁 Serving files from: " ++ Os.getcwd d;
        "📋 Available files:"]).

Definition traceback (e : exn) : list string :=
  ["Traceback (most recent call last):"; exn_line e].

Definition crashed (s : state) (e : exn) : state :=
  set_stderr s (stderr s ++ traceback e)%list.

(** the state after [server_close] on the way out of [with] *)
Definition closed (s1 s : state) : state :=
  set_socket (set_listening s1 (listening s)) None.

(** the connections accepted and not closed yet, after the steps [l] *)
Definition track (open : list nat) (t : step) : list nat :=
  match t with
  | Accept i => i :: open
  | Close i => remove Nat.eq_dec i open
  | _ => open
  end.

Definition in_flight (l : list step) : list nat := fold_left track l [].

Definition sequential (l : list step) : Prop :=
  forall pre post, l = (pre ++ post)%list ->
    (length (in_flight pre) <= 1)%nat
    /\ (forall i post', post = Accept i :: post' -> in_flight pre = []).

Definition cors_line : string := Base.header_line "Access-Control-Allow-Origin" "*".

Definition v09 (h : handler) : bool := request_version h =? "HTTP/0.9".

(** [lines] appended to the buffer of headers *)
Definition buffered (h : handler) (lines : list string) : handler :=
  set_headers_buffer h (headers_buffer h ++ lines)%list.

(** the buffer sent with [lines] after it, and emptied *)
Definition flushed (h : handler) (lines : list string) : handler :=
  set_headers_buffer
    (set_wfile h (wfile h ++ [Headers (headers_buffer h ++ lines)])%list) [].

Definition plain (keyword : string) : bool :=
  negb (PyStr.lower keyword =? "connection").

(** the status line and the two headers of [send_response] *)
Definition response_head (code : Z) (message : option string) : list string :=
  [ Base.status_line code
      (match message with
       | Some m => m
       | None => match HTTPStatus.responses code with
                 | Some (phrase, _) => phrase
                 | None => ""
                 end
       end);
    Base.header_line "Server" (Base.version_string Simple.server_version);
    Base.header_line "Date" (date_time_string None) ].

(** the page [send_error] writes, if the code has one *)
Definition error_body (code : Z) (message explain : string) : option string :=
  if (200 <=? code)%Z
     && negb ((code =? HTTPStatus.NO_CONTENT)%Z
              || (code =? HTTPStatus.RESET_CONTENT)%Z
              || (code =? HTTPStatus.NOT_MODIFIED)%Z)
  then Some (Base.error_message_format code (html_escape message)
               (html_escape explain))
  else None.

Definition error_message (code : Z) (message : option string) : string :=
  option_default (fst (option_default ("???", "???") (HTTPStatus.responses code)))
    message.

Definition error_explain (code : Z) (explain : option string) : string :=
  option_default (snd (option_default ("???", "???") (HTTPStatus.responses code)))
    explain.

Definition error_head (code : Z) (message : string) (body : option string)
  : list string :=
  (response_head code (Some message)
   ++ [Base.header_line "Connection" "close"]
   ++ match body with
      | Some b =>
          [ Base.header_line "Content-Type" Base.error_content_type;
            Base.header_line "Content-Length"
              (PyStr.str_of_Z (Z.of_nat (String.length b))) ]
      | None => []
      end)%list.

(** the body goes out unless the request is a [HEAD] or the body is empty *)
Definition write_error_body (body : option string) (h : handler) : handler :=
  match body with
  | Some b =>
      if negb (match command h with Some c => c =? "HEAD" | None => false end)
         && negb (b =? "")
      then wfile_write (Body b) h
      else h
  | None => h
  end.

(** The header block is sent with the header of the script last, or
    nothing at all for an HTTP/0.9 request. *)
Definition emit (h : handler) (lines : list string) : handler :=
  if v09 h then h else flushed h (lines ++ [cors_line; PyStr.CRLF])%list.

Fixpoint send_headers (fields : list (string * string)) (h : handler) : handler :=
  match fields with
  | [] => h
  | (k, v) :: fields' => send_headers fields' (Base.send_header k v h)
  end.

Definition header_lines_of (fields : list (string * string)) : list string :=
  map (fun kv => Base.header_line (fst kv) (snd kv)) fields.

Definition not_found (h : handler) : handler :=
  Base.send_error My.end_headers Simple.server_version HTTPStatus.NOT_FOUND
    (Some "File not found") None h.

(** the headers of a file served with status 200 *)
Definition file_head (path data : string) (mtime : Z) : list string :=
  (response_head HTTPStatus.OK None
   ++ header_lines_of
        [ ("Content-type", Simple.guess_type path);
          ("Content-Length", PyStr.str_of_Z (Z.of_nat (String.length data)));
          ("Last-Modified", date_time_string (Some mtime)) ])%list.

(** the headers of a listing *)
Definition listing_head (page : string) : list string :=
  List.app (response_head HTTPStatus.OK None)
    (header_lines_of
       [ ("Content-type", "text/html; charset=" ++ getfilesystemencoding);
         ("Content-Length", PyStr.str_of_Z (Z.of_nat (String.length page))) ]).

(** the headers of the redirection to the directory *)
Definition redirect_head (location : string) : list string :=
  (response_head HTTPStatus.MOVED_PERMANENTLY None
   ++ header_lines_of [ ("Location", location); ("Content-Length", "0") ])%list.

(** the target with a slash after its path *)
Definition with_slash (target : string) : string :=
  let '(scheme, netloc, url, query, fragment) := urlsplit target in
  urlunsplit (scheme, netloc, url ++ "/", query, fragment).

Definition url_path (target : string) : string :=
  let '(scheme, netloc, url, query, fragment) := urlsplit target in url.

(** What a response may be made of after its header block *)
Definition bodies (w : list chunk) : Prop := w = [] \/ exists b, w = [Body b].

(** Only the header block is out, if the request has a version for one *)
Definition headed (h : handler) : Prop :=
  if v09 h then wfile h = []
  else exists lines, wfile h = [Headers (lines ++ [cors_line; PyStr.CRLF])%list].

(** A response is out *)
Definition answered (h : handler) : Prop :=
  if v09 h then bodies (wfile h)
  else exists lines body,
         wfile h = Headers (lines ++ [cors_line; PyStr.CRLF])%list :: body
         /\ bodies body.

(** what [send_head] leaves: the head when there is something to copy,
    the whole response when there is not *)
Definition head_sent (r : option string * handler) : Prop :=
  match fst r with
  | Some _ => headed (snd r)
  | None => answered (snd r)
  end.

(** [h'] is [h] with nothing written and nothing buffered since *)
Definition clean (h h' : handler) : Prop :=
  wfile h' = [] /\ close_connection h' = true
  /\ headers_buffer h' = headers_buffer h /\ directory h' = directory h.

(** what [parse_request] leaves: nothing written when it accepts the
    request, nothing or an error response when it does not *)
Definition parse_sent (h : handler) (r : bool * handler) : Prop :=
  close_connection (snd r) = true
  /\ if fst r then clean h (snd r)
     else wfile (snd r) = [] \/ answered (snd r).

(** the page of the 404 responses *)
Definition not_found_page : string :=
  Base.error_message_format HTTPStatus.NOT_FOUND "File not found"
    "Nothing matches the given URI".






Definition trailing_slash (target : string) : bool :=
  PyStr.endswith (PyStr.rstrip (PyStr.before "#" (PyStr.before "?" target))) "/".


(** the page of the listing of [path] for the names of its entries *)
Definition listing_of (root : FS.node) (cwd : list string) (path : string)
    (h : handler) (names : list string) : string :=
  Simple.listing_page root cwd path
    (html_escape
       match unquote_surrogatepass (self_path h) with
       | Some decoded => decoded
       | None => unquote_replace path
       end)
    (Simple.sort_by_lower names).

(** The server accepts [req]: the request line is short enough and
    [parse_request] returns true, leaving the handler [h]. *)
Definition accepts (cwd : list string) (req : request) (h : handler) : Prop :=
  (Z.of_nat (String.length (raw_requestline req)) <= 65536)%Z
  /\ Base.parse_request My.end_headers Simple.server_version req (My.new cwd)
     = (true, h).

(** whether a header block of [w] has the header of the script *)
Definition carries_cors (w : list chunk) : bool :=
  existsb
    (fun c =>
       match c with
       | Headers lines => existsb (String.eqb cors_line) lines
       | Body _ => false
       end) w.

(** the status line of a response, if it begins with a header block *)
Definition status_of (w : list chunk) : option string :=
  match w with
  | Headers (line :: _) :: _ => Some line
  | _ => None
  end.

(** the body chunks of a response *)
Definition bodies_of (w : list chunk) : list string :=
  concat (map (fun c => match c with Body b => [b] | Headers _ => [] end) w).

(** *** The loop of the server over many connections *)

(** what the loop outlives: an [accept] that fails, a connection, and a
    connection whose handler raises an [Exception] *)
Definition survivable (ev : event) : bool :=
  match ev with
  | Interrupt => false
  | AcceptError => true
  | Connect _ None => true
  | Connect _ (Some e) => is_Exception e
  end.

(** the connections among the events *)
Fixpoint connections (evs : list event) : nat :=
  match evs with
  | [] => 0
  | Connect _ _ :: evs' => S (connections evs')
  | _ :: evs' => connections evs'
  end.

(** the lines [handle_error] prints for [e] *)
Definition error_report (e : exn) : list string :=
  [ "----------------------------------------";
    "Exception occurred during processing of request";
    "Traceback (most recent call last):";
    exn_line e;
    "----------------------------------------" ].

(** what the handlers that raise leave on [stderr] *)
Fixpoint reports (evs : list event) : list string :=
  match evs with
  | [] => []
  | Connect _ (Some e) :: evs' => (error_report e ++ reports evs')%list
  | _ :: evs' => reports evs'
  end.

(** the response to the first request of a connection, if it sends one *)
Definition first_response (root : FS.node) (cwd : list string)
    (reqs : list request) : list chunk :=
  match reqs with
  | [] => []
  | req :: _ => My.respond root cwd req
  end.

(** what is written to the connections of [evs], the first of them being
    connection number [i], by a server in the directory [cwd] *)
Fixpoint replies (root : FS.node) (cwd : list string) (i : nat)
    (evs : list event) : list (nat * list chunk) :=
  match evs with
  | [] => []
  | Connect reqs None :: evs' =>
      (i, first_response root cwd reqs) :: replies root cwd (S i) evs'
  | Connect _ (Some _) :: evs' => replies root cwd (S i) evs'
  | _ :: evs' => replies root cwd i evs'
  end.

(** *** Responses *)

(** the words of the request line, as [parse_request] splits it *)
Definition request_words (req : request) : list string :=
  PyStr.split_ws (PyStr.rstrip_by PyStr.is_crlf (raw_requestline req)).

(** the page of an error response *)
Definition error_page (code : Z) (message explain : string) : string :=
  Base.error_message_format code (html_escape message) (html_escape explain).

(** The response [send_error] writes for a request with a version for
    headers: the header block, and the page unless the request is a
    [HEAD]. *)
Definition error_reply (head : bool) (code : Z) (message explain : string)
  : list chunk :=
  Headers
    (error_head code message (Some (error_page code message explain))
     ++ [cors_line; PyStr.CRLF])%list
  :: (if head then [] else [Body (error_page code message explain)]).

(** [self.command == 'HEAD'] *)
Definition is_head (h : handler) : bool :=
  match command h with Some c => c =? "HEAD" | None => false end.

(** the header blocks of a response *)
Definition headers_only (w : list chunk) : list chunk :=
  filter (fun c => match c with Headers _ => true | Body _ => false end) w.

(** the [Content-Length] header for the body [b] *)
Definition length_line (b : string) : string :=
  Base.header_line "Content-Length"
    (PyStr.str_of_Z (Z.of_nat (String.length b))).

(** A response is nothing, a body alone, a header block alone, or a header
    block that gives the length of the body after it. *)
Definition sized (w : list chunk) : Prop :=
  w = []
  \/ (exists b, w = [Body b])
  \/ (exists lines, w = [Headers lines])
  \/ (exists lines b, w = [Headers lines; Body b] /\ In (length_line b) lines).

(** the codes whose error response has a page *)
Definition has_page (code : Z) : bool :=
  (200 <=? code)%Z
  && negb ((code =? HTTPStatus.NO_CONTENT)%Z
           || (code =? HTTPStatus.RESET_CONTENT)%Z
           || (code =? HTTPStatus.NOT_MODIFIED)%Z).

(** what [send_head] leaves for [do_GET] to go on with *)
Definition head_sized (r : option string * handler) : Prop :=
  match fst r with
  | Some data =>
      wfile (snd r) = []
      \/ exists lines,
           wfile (snd r) = [Headers lines] /\ In (length_line data) lines
  | None => sized (wfile (snd r))
  end.

(** the predicate of [parse_request]: nothing is written when it accepts,
    and a response with its length when it refuses *)
Definition parse_sized (r : bool * handler) : Prop :=
  if fst r then wfile (snd r) = [] else sized (wfile (snd r)).

(** *** The listing *)

(** [a] does not come after [b] in the order of the listing *)
Definition not_after (a b : string) : Prop :=
  (PyStr.lower b <? PyStr.lower a) = false.

(** the names of [l] whose lower-case form is [key], in their order *)
Definition with_key (key : string) (l : list string) : list string :=
  filter (fun x => PyStr.lower x =? key) l.

(** *** Pages *)

(** how often the character [c] is in [s] *)
Fixpoint occurrences (c : ascii) (s : string) : nat :=
  match s with
  | EmptyString => 0
  | String a s' => (if Ascii.eqb a c then 1 else 0) + occurrences c s'
  end.

End Vocabulary.

(** ** A library instance and a machine to run the script on *)

Module Sample.

Definition hex_val (c : ascii) : option nat :=
  let n := nat_of_ascii c in
  if ((48 <=? n) && (n <=? 57))%nat then Some (n - 48)
  else if ((65 <=? n) && (n <=? 70))%nat then Some (n - 55)
  else if ((97 <=? n) && (n <=? 102))%nat then Some (n - 87)
  else None.

(** [%xx] escapes replaced by the byte they name *)
Fixpoint unquote_bytes (s : string) : string :=
  match s with
  | EmptyString => EmptyString
  | String c rest =>
      if Ascii.eqb c "%" then
        match rest with
        | String a (String b rest') =>
            match hex_val a, hex_val b with
            | Some x, Some y =>
                String (ascii_of_nat (16 * x + y)) (unquote_bytes rest')
            | _, _ => String c (unquote_bytes rest)
            end
        | _ => String c (unquote_bytes rest)
        end
      else String c (unquote_bytes rest)
  end.

(** Whether the bytes are UTF-8, [pending] bytes of a character still to
    come; overlong forms and surrogates are not looked for. *)
Fixpoint utf8 (pending : nat) (s : string) : bool :=
  match s with
  | EmptyString => (pending =? 0)%nat
  | String c s' =>
      let n := nat_of_ascii c in
      match pending with
      | O =>
          if (n <? 128)%nat then utf8 0 s'
          else if ((194 <=? n) && (n <=? 223))%nat then utf8 1 s'
          else if ((224 <=? n) && (n <=? 239))%nat then utf8 2 s'
          else if ((240 <=? n) && (n <=? 244))%nat then utf8 3 s'
          else false
      | S pending' =>
          if ((128 <=? n) && (n <=? 191))%nat then utf8 pending' s' else false
      end
  end.

(** The replacement character U+FFFD for each byte from 128 on: what
    [errors='replace'] makes of bytes that are not UTF-8, for the examples. *)
Fixpoint scrub (s : string) : string :=
  match s with
  | EmptyString => EmptyString
  | String c s' =>
      if (nat_of_ascii c <? 128)%nat then String c (scrub s')
      else String "239" (String "191" (String "189" (scrub s')))
  end.

Fixpoint digits_val (s : string) (acc : Z) : option Z :=
  match s with
  | EmptyString => Some acc
  | String c s' =>
      let n := nat_of_ascii c in
      if ((48 <=? n) && (n <=? 57))%nat
      then digits_val s' (10 * acc + Z.of_nat (n - 48))
      else None
  end.

(** [int(s)] for a string of decimal digits *)
Definition int_of_digits (s : string) : option Z :=
  if s =? "" then None else digits_val s 0.

(** [urlsplit] of a request target that is a path, a query and a fragment *)
Definition urlsplit_path (url : string)
  : string * string * string * string * string :=
  let no_fragment := PyStr.before "#" url in
  ("", "", PyStr.before "?" no_fragment, PyStr.after "?" no_fragment,
   PyStr.after "#" url).

Definition urlunsplit_path (parts : string * string * string * string * string)
  : string :=
  let '(scheme, netloc, url, query, fragment) := parts in
  url ++ (if query =? "" then "" else "?" ++ query)
      ++ (if fragment =? "" then "" else "#" ++ fragment).

(** [mimetypes.guess_type] by the extension, for a few types *)
Definition guess_by_extension (path : string) : option string :=
  FS.assoc (PyStr.lower (snd (posixpath.splitext path)))
    [ (".html", "text/html"); (".txt", "text/plain");
      (".json", "application/json"); (".bin", "application/octet-stream") ].

Definition two (n : Z) : string :=
  (if (n <? 10)%Z then "0" else "") ++ PyStr.str_of_Z n.

(** [formatdate(t, usegmt=True)] for a time of the first day of 1970 *)
Definition formatdate (t : Z) : string :=
  "Thu, 01 Jan 1970 " ++ two (t / 3600) ++ ":" ++ two ((t / 60) mod 60) ++ ":"
    ++ two (t mod 60) ++ " GMT".

(** The clock of the examples: 100 seconds after the epoch *)
Definition now : Z := 100.

(** [parsedate_to_datetime] on the two dates the examples send *)
Definition parsedate (s : string) : option (Z * option Z) :=
  if s =? formatdate 0 then Some (0%Z, Some 0%Z)
  else if s =? formatdate now then Some (now, Some 0%Z)
  else None.

#[export] Instance lib : StdLib := {|
  sys_version := "Python/3.11.2";
  date_time_string := fun t => formatdate (option_default now t);
  py_int := int_of_digits;
  py_repr := fun s => "'" ++ s ++ "'";
  unquote_surrogatepass :=
    fun s => if utf8 0 (unquote_bytes s) then Some (unquote_bytes s) else None;
  unquote_replace :=
    fun s => if utf8 0 (unquote_bytes s) then unquote_bytes s
             else scrub (unquote_bytes s);
  quote := fun s => s;
  urlsplit := urlsplit_path;
  urlunsplit := urlunsplit_path;
  mimetypes_guess_type := guess_by_extension;
  parsedate_to_datetime := parsedate;
  getfilesystemencoding := "utf-8"
|}.

(** The serving root of the examples *)
Definition dist : FS.node :=
  FS.Dir true
    [ ("bcrdf-v1.bin", FS.File "BINARY" 0 true);
      ("notes.txt", FS.File "hello" 0 true);
      ("locked.txt", FS.File "secret" 0 false);
      ("sub", FS.Dir true [ ("bcrdf-v2.bin", FS.File "V2" 0 true) ]);
      ("site", FS.Dir true [ ("index.html", FS.File "<p>hi</p>" 0 true) ]) ].

Definition root : FS.node :=
  FS.Dir true
    [ ("etc", FS.Dir true [ ("passwd", FS.File "root:x:0:0" 0 true) ]);
      ("srv", FS.Dir true [ ("dist", dist) ]) ].

(** A machine where nothing listens, the process 1 started in [/srv] *)
Definition machine (root : FS.node) (evs : list event) : state :=
  mk_state root ["srv"] [] (fun _ => true) 1 None [] [] evs 0 [] [].

Definition get (target : string) (fields : list (string * string)) : request :=
  {| raw_requestline := "GET " ++ target ++ " HTTP/1.1" ++ PyStr.CRLF;
     header_lines := HeadersOk fields |}.

(** the working directory of the server of the examples *)
Definition served : list string := ["srv"; "dist"].


(** a request line of two words, as HTTP/0.9 has them *)
Definition old_get (target : string) : request :=
  {| raw_requestline := "GET " ++ target ++ PyStr.CRLF;
     header_lines := HeadersOk [] |}.

(** a request line of one word *)
Definition one_word : request :=
  {| raw_requestline := "GET" ++ PyStr.CRLF; header_lines := HeadersOk [] |}.

Definition get_file : request := get "/bcrdf-v1.bin" [].
Definition get_missing : request := get "/missing.bin" [].
Definition get_cached : request :=
  get "/notes.txt" [("If-Modified-Since", formatdate 0)].
Definition get_locked : request := get "/locked.txt" [].
Definition get_sub : request := get "/sub" [].
Definition get_sub_slash : request := get "/sub/" [].
Definition get_site : request := get "/site/" [].
Definition get_climb : request := get "/../../etc/passwd" [].
Definition old_get_notes : request := old_get "/notes.txt".

(** the handler after [parse_request] on [req] *)
Definition parsed (req : request) : handler :=
  snd (Base.parse_request My.end_headers Simple.server_version req
         (My.new served)).

(** the path the handler resolves for [req] *)
Definition resolved (req : request) : string :=
  Simple.translate_path (parsed req) (self_path (parsed req)).

(** what the server of the examples writes for [req] *)
Definition answer (req : request) : list chunk := My.respond root served req.

(** a machine on which another process listens on port 8080 *)
Definition busy (evs : list event) : state :=
  set_listening (machine root evs) [("", 8080%Z, 7)].

(** a machine without [dist] *)
Definition bare : state := machine (FS.Dir true [ ("srv", FS.Dir true []) ]) [].

(** a request with the method and the target given *)
Definition request_of (method target : string)
    (fields : list (string * string)) : request :=
  {| raw_requestline := method ++ " " ++ target ++ " HTTP/1.1" ++ PyStr.CRLF;
     header_lines := HeadersOk fields |}.

Definition get_notes : request := request_of "GET" "/notes.txt" [].
Definition head_notes : request := request_of "HEAD" "/notes.txt" [].
Definition post_notes : request := request_of "POST" "/notes.txt" [].
Definition get_two_slashes : request := request_of "GET" "//other.example/sub" [].
Definition get_vault : request := request_of "GET" "/vault/" [].
Definition get_site_cached : request :=
  request_of "GET" "/site/" [("If-Modified-Since", formatdate 0)].
(** a target whose query has an escape that is not UTF-8 *)
Definition get_sub_query : request := request_of "GET" "/sub/?%ff" [].

(** a line of white space only *)
Definition blank_line : request :=
  {| raw_requestline := "  " ++ PyStr.CRLF; header_lines := HeadersOk [] |}.

(** request lines with a version the handler does not take *)
Definition get_ftp : request :=
  {| raw_requestline := "GET / FTP/1.0" ++ PyStr.CRLF;
     header_lines := HeadersOk [] |}.
Definition get_http2 : request :=
  {| raw_requestline := "GET / HTTP/2.0" ++ PyStr.CRLF;
     header_lines := HeadersOk [] |}.

(** a request with a header line that is too long *)
Definition long_header : request :=
  {| raw_requestline := "GET /notes.txt HTTP/1.1" ++ PyStr.CRLF;
     header_lines :=
       LineTooLong "got more than 65536 bytes when reading header line" |}.

Fixpoint filler (n : nat) : string :=
  match n with
  | O => ""
  | S n' => String "a" (filler n')
  end.

(** a request line of more than 65536 bytes *)
Definition long_line : request :=
  {| raw_requestline :=
       "GET /" ++ filler (Z.to_nat 65536) ++ " HTTP/1.1" ++ PyStr.CRLF;
     header_lines := HeadersOk [] |}.

(** a serving root with a directory the process may not list *)
Definition vault : FS.node :=
  FS.Dir true
    [ ("srv",
       FS.Dir true
         [ ("dist",
            FS.Dir true
              [ ("vault", FS.Dir false [ ("key.pem", FS.File "KEY" 0 true) ]) ])
         ]) ].

(** a machine whose [dist] may not be listed, and one whose [dist] is a file *)
Definition locked_dist : state :=
  machine
    (FS.Dir true
       [ ("srv",
          FS.Dir true
            [ ("dist", FS.Dir false [ ("bcrdf-v1.bin", FS.File "BINARY" 0 true) ])
            ]) ])
    [].
Definition file_dist : state :=
  machine
    (FS.Dir true
       [ ("srv", FS.Dir true [ ("dist", FS.File "not a directory" 0 true) ]) ])
    [].

(** the client has gone away while the handler writes *)
Definition broken_pipe : exn := OSError "BrokenPipeError" 32 "Broken pipe" None.

(** five events: two requests on one connection, a handler that raises, an
    [accept] that fails, a connection without a request, a last request *)
Definition mixed : list event :=
  [ Connect [get_file; get_missing] None;
    Connect [get_missing] (Some broken_pipe);
    AcceptError;
    Connect [] None;
    Connect [get_sub] None ].

(** the interrupt inside the second handler *)
Definition interrupted : list event :=
  [ Connect [get_file] None;
    Connect [get_sub] (Some KeyboardInterrupt);
    Connect [get_missing] None ].

(** the names of the serving root of the examples *)
Definition dist_names : list string :=
  ["bcrdf-v1.bin"; "notes.txt"; "locked.txt"; "sub"; "site"].

End Sample.

(** * The script: start-up, the socket, the interrupt, one connection at a time *)

Lemma set_stdout_same (s : state) : set_stdout s (stdout s) = s.
Proof. destruct s; reflexivity. Qed.

Lemma for_print_bcrdf (names : list string) (s : state) :
  for_ names
    (fun file => if PyStr.startswith file "bcrdf-" then print ("   - " ++ file)
                 else ret tt) s
  = (Ok tt, set_stdout s (stdout s ++ bcrdf_lines names)%list).
Proof.
  revert s; induction names as [|f names IH]; intro s.
  - cbn. rewrite app_nil_r, set_stdout_same. reflexivity.
  - cbn [for_]. unfold bind at 1. unfold bcrdf_lines. cbn [filter].
    destruct (PyStr.startswith f "bcrdf-").
    + unfold print at 1. rewrite IH. destruct s; cbn. unfold list_append.
      rewrite <- app_assoc. reflexivity.
    + unfold ret at 1. apply IH.
Qed.

Lemma list_files_prints (s : state) (names : list string) :
  Os.listdir (fs s) (cwd s) "." = inr names ->
  Script.list_files s
  = (Ok tt, set_stdout s (stdout s ++ bcrdf_lines names)%list).
Proof.
  intro H. unfold Script.list_files, bind, os_listdir. rewrite H. cbn [lift ret].
  apply for_print_bcrdf.
Qed.


Section ServerFacts.

Context {L : StdLib}.

Lemma same_machine_refl s : same_machine s s.
Proof. repeat split. Qed.

Lemma same_machine_trans s1 s2 s3 :
  same_machine s1 s2 -> same_machine s2 s3 -> same_machine s1 s3.
Proof.
  unfold same_machine. intros (A1 & A2 & A3 & A4 & A5 & A6 & A7)
    (B1 & B2 & B3 & B4 & B5 & B6 & B7).
  repeat split; congruence.
Qed.

Lemma handle_request_noblock_block reqs fault s :
  exists s',
    (TCPServer._handle_request_noblock reqs fault s = (Ok tt, s')
     \/ (TCPServer._handle_request_noblock reqs fault s
           = (Raise KeyboardInterrupt, s')
         /\ fault = Some KeyboardInterrupt))
    /\ same_machine s s'
    /\ accepted s' = S (accepted s)
    /\ steps s' = (steps s ++ block (accepted s))%list.
Proof.
  unfold block, list_append.
  destruct fault as [[k n m f|n m|]|].
  all: eexists; split;
    [ try (left; reflexivity); right; split; reflexivity | ].
  all: cbn; unfold list_append; cbn; rewrite <- ?app_assoc; cbn;
    repeat split.
Qed.

Lemma blocks_S a k : (block a ++ blocks (S a) k)%list = blocks a (S k).
Proof. reflexivity. Qed.

Lemma serve_loop_cons ev evs s :
  TCPServer.serve_loop (ev :: evs) s
  = match ev with
    | Interrupt => (Raise KeyboardInterrupt, set_incoming s evs)
    | AcceptError => TCPServer.serve_loop evs (set_incoming s evs)
    | Connect reqs fault =>
        match TCPServer._handle_request_noblock reqs fault
                (set_incoming s evs) with
        | (Ok _, s') => TCPServer.serve_loop evs s'
        | (Raise e, s') => (Raise e, s')
        | (Waiting, s') => (Waiting, s')
        end
    end.
Proof. destruct ev; reflexivity. Qed.

Lemma serve_loop_runs evs : forall s,
  exists s' k,
    (TCPServer.serve_loop evs s = (Waiting, s')
     \/ TCPServer.serve_loop evs s = (Raise KeyboardInterrupt, s'))
    /\ same_machine s s'
    /\ steps s' = (steps s ++ blocks (accepted s) k)%list.
Proof.
  induction evs as [|ev evs IH]; intro s.
  - exists s, 0%nat. cbn. rewrite app_nil_r.
    split; [left; reflexivity|]. split; [apply same_machine_refl|reflexivity].
  - rewrite serve_loop_cons.
    remember (set_incoming s evs) as s0 eqn:E0.
    assert (M0 : same_machine s s0) by (subst s0; repeat split).
    assert (T0 : steps s0 = steps s) by (subst s0; reflexivity).
    assert (A0 : accepted s0 = accepted s) by (subst s0; reflexivity).
    clear E0.
    destruct ev as [reqs fault| |].
    + destruct (handle_request_noblock_block reqs fault s0)
        as (s1 & R & M1 & A1 & T1).
      destruct R as [R|[R _]]; rewrite R.
      * destruct (IH s1) as (s2 & k & R2 & M2 & T2).
        exists s2, (S k).
        split; [exact R2|]. split.
        { eapply same_machine_trans; [exact M0|].
          eapply same_machine_trans; eassumption. }
        rewrite T2, T1, A1, T0, A0.
        rewrite <- app_assoc. rewrite blocks_S. reflexivity.
      * exists s1, 1%nat.
        split; [right; reflexivity|]. split.
        { eapply same_machine_trans; eassumption. }
        rewrite T1, T0, A0. cbn. rewrite ?app_nil_r. reflexivity.
    + destruct (IH s0) as (s2 & k & R2 & M2 & T2).
      exists s2, k. split; [exact R2|]. split.
      { eapply same_machine_trans; eassumption. }
      rewrite T2, T0, A0. reflexivity.
    + exists s0, 0%nat. cbn. rewrite app_nil_r.
      split; [right; reflexivity|]. split; [exact M0|exact T0].
Qed.

Lemma serve_loop_interrupted evs : forall s,
  In Interrupt evs ->
  exists s', TCPServer.serve_loop evs s = (Raise KeyboardInterrupt, s').
Proof.
  induction evs as [|ev evs IH]; intros s HIn; [destruct HIn|].
  rewrite serve_loop_cons.
  generalize (set_incoming s evs); intro s0.
  destruct ev as [reqs fault| |].
  - destruct HIn as [HIn|HIn]; [discriminate|].
    destruct (handle_request_noblock_block reqs fault s0)
      as (s1 & R & _).
    destruct R as [R|[R _]]; rewrite R.
    + apply IH; exact HIn.
    + eexists; reflexivity.
  - destruct HIn as [HIn|HIn]; [discriminate|]. apply IH; exact HIn.
  - eexists; reflexivity.
Qed.

End ServerFacts.

Section ScriptFacts.

Context {L : StdLib}.

Lemma main_started s d names :
  Os.chdir (fs s) (cwd s) "dist" = inr d ->
  Os.listdir (fs s) d "." = inr names ->
  Script.main s
  = TCPServer.with_ ("", Script.PORT) TCPServer.serve_forever (started s d names).
Proof.
  intros Hcd Hls. unfold Script.main.
  unfold bind at 1. unfold os_chdir. rewrite Hcd.
  unfold bind at 1. unfold print at 1.
  unfold bind at 1. unfold os_getcwd.
  unfold bind at 1. unfold print at 1.
  unfold bind at 1. unfold print at 1.
  unfold bind at 1.
  match goal with |- context [Script.list_files ?s0] =>
    rewrite (list_files_prints s0 names Hls)
  end.
  unfold bind at 1. unfold print at 1.
  f_equal. unfold started, startup_lines, list_append. destruct s; cbn.
  rewrite <- !app_assoc. reflexivity.
Qed.

Lemma filter_own (l : list (string * Z * nat)) (a : string) (p : Z) (n : nat) :
  existsb (fun x => (snd (fst x) =? p)%Z) l = false ->
  filter (fun x => negb (TCPServer.same_socket x (a, p, n)))
    (l ++ [(a, p, n)])%list = l.
Proof.
  induction l as [|x l IH]; cbn; intro H.
  - unfold TCPServer.same_socket; cbn.
    rewrite String.eqb_refl, Z.eqb_refl, Nat.eqb_refl. reflexivity.
  - apply orb_false_iff in H. destruct H as [Hx Hl].
    unfold TCPServer.same_socket at 1. cbn. rewrite Hx.
    rewrite andb_false_r. cbn. rewrite IH by exact Hl. reflexivity.
Qed.

Lemma with_refused (body : string * Z -> M unit) s :
  may_bind s Script.PORT = false ->
  TCPServer.with_ ("", Script.PORT) body s = (Raise EACCES_bind, set_socket s None).
Proof.
  intro H. unfold TCPServer.with_, TCPServer.init, bind, TCPServer.new_socket,
    except_reraise, TCPServer.server_bind, TCPServer.socket_bind.
  cbn. rewrite H. reflexivity.
Qed.

Lemma with_taken (body : string * Z -> M unit) s :
  may_bind s Script.PORT = true ->
  TCPServer.taken s Script.PORT = true ->
  TCPServer.with_ ("", Script.PORT) body s = (Raise EADDRINUSE, set_socket s None).
Proof.
  intros H1 H2. unfold TCPServer.with_, TCPServer.init, bind,
    TCPServer.new_socket, except_reraise, TCPServer.server_bind,
    TCPServer.socket_bind.
  cbn. rewrite H1. cbn. unfold TCPServer.taken in *. cbn. rewrite H2. reflexivity.
Qed.

Lemma with_bound (body : string * Z -> M unit) s :
  may_bind s Script.PORT = true ->
  TCPServer.taken s Script.PORT = false ->
  TCPServer.with_ ("", Script.PORT) body s
  = finally (body ("", Script.PORT)) (TCPServer.server_close ("", Script.PORT))
      (bound s).
Proof.
  intros H1 H2. unfold TCPServer.with_, TCPServer.init, bind,
    TCPServer.new_socket, except_reraise, TCPServer.server_bind,
    TCPServer.socket_bind.
  cbn. rewrite H1. cbn. unfold TCPServer.taken in *. cbn. rewrite H2.
  reflexivity.
Qed.

End ScriptFacts.

Section Runs.

Context {L : StdLib}.

Lemma chdir_missing root cwd :
  FS.lookup root cwd "dist" = None ->
  Os.chdir root cwd "dist" = inl (ENOENT "dist").
Proof.
  unfold FS.lookup, Os.chdir. cbn.
  destruct (FS.is_dir (FS.walk root cwd)); [|reflexivity].
  destruct (FS.walk root (cwd ++ ["dist"])) as [[? ? ?|? ?]|]; try discriminate.
  reflexivity.
Qed.

Lemma main_chdir_fails s e :
  Os.chdir (fs s) (cwd s) "dist" = inl e -> Script.main s = (Raise e, s).
Proof.
  intro H. unfold Script.main, bind, os_chdir. rewrite H. reflexivity.
Qed.

Lemma main_listdir_fails s d e :
  Os.chdir (fs s) (cwd s) "dist" = inr d ->
  Os.listdir (fs s) d "." = inl e ->
  Script.main s = (Raise e, unlisted s d).
Proof.
  intros Hcd Hls. unfold Script.main.
  unfold bind at 1. unfold os_chdir. rewrite Hcd.
  unfold bind at 1. unfold print at 1.
  unfold bind at 1. unfold os_getcwd.
  unfold bind at 1. unfold print at 1.
  unfold bind at 1. unfold print at 1.
  unfold bind at 1. unfold Script.list_files, bind, os_listdir. cbn.
  rewrite Hls. cbn. f_equal. unfold unlisted, list_append. destruct s; cbn.
  rewrite <- !app_assoc. reflexivity.
Qed.

Lemma exit_status_nonzero e : Script.exit_status e <> 0%Z.
Proof. destruct e; discriminate. Qed.

Lemma python_raise s e s' :
  Script.main s = (Raise e, s') ->
  Script.python s = (Script.Exited (Script.exit_status e), crashed s' e).
Proof. intro H. unfold Script.python. rewrite H. reflexivity. Qed.

Lemma python_refused s d names :
  Os.chdir (fs s) (cwd s) "dist" = inr d ->
  Os.listdir (fs s) d "." = inr names ->
  may_bind s Script.PORT = false ->
  Script.python s
  = (Script.Exited 1, crashed (set_socket (started s d names) None) EACCES_bind).
Proof.
  intros Hcd Hls Hb. apply (python_raise s EACCES_bind).
  rewrite (main_started s d names Hcd Hls). apply with_refused. exact Hb.
Qed.

Lemma python_taken s d names :
  Os.chdir (fs s) (cwd s) "dist" = inr d ->
  Os.listdir (fs s) d "." = inr names ->
  may_bind s Script.PORT = true ->
  TCPServer.taken s Script.PORT = true ->
  Script.python s
  = (Script.Exited 1, crashed (set_socket (started s d names) None) EADDRINUSE).
Proof.
  intros Hcd Hls Hb Ht. apply (python_raise s EADDRINUSE).
  rewrite (main_started s d names Hcd Hls). apply with_taken; assumption.
Qed.

Lemma python_bound s d names :
  Os.chdir (fs s) (cwd s) "dist" = inr d ->
  Os.listdir (fs s) d "." = inr names ->
  may_bind s Script.PORT = true ->
  TCPServer.taken s Script.PORT = false ->
  exists s1 k,
    same_machine (bound (started s d names)) s1
    /\ steps s1 = (steps s ++ blocks (accepted s) k)%list
    /\ ((Script.python s = (Script.Serving, s1) /\ ~ In Interrupt (incoming s))
        \/ Script.python s
           = (Script.Exited 130, crashed (closed s1 s) KeyboardInterrupt)).
Proof.
  intros Hcd Hls Hb Ht.
  pose proof (main_started s d names Hcd Hls) as Hm.
  rewrite with_bound in Hm by assumption.
  set (b := bound (started s d names)) in *.
  destruct (serve_loop_runs (incoming b) b) as (s1 & k & R & M1 & T1).
  exists s1, k. split; [exact M1|]. split; [exact T1|].
  unfold finally, TCPServer.serve_forever in Hm.
  destruct R as [R|R]; rewrite R in Hm.
  - left. split.
    + unfold Script.python. rewrite Hm. reflexivity.
    + intro HIn. destruct (serve_loop_interrupted (incoming b) b HIn) as (s2 & R2).
      rewrite R in R2. discriminate.
  - right. apply (python_raise s KeyboardInterrupt). rewrite Hm.
    unfold bind, TCPServer.server_close, TCPServer.socket_close.
    destruct M1 as (_ & _ & Hl & _ & Hp & Hs & _).
    rewrite Hs, Hl, Hp. cbn.
    rewrite filter_own by exact Ht. reflexivity.
Qed.

End Runs.

Lemma in_flight_block i pre :
  in_flight (block i ++ pre) = in_flight pre.
Proof.
  unfold in_flight. rewrite fold_left_app. cbn.
  destruct (Nat.eq_dec i i) as [_|N]; [reflexivity|contradiction].
Qed.

Lemma blocks_sequential k : forall a, sequential (blocks a k).
Proof.
  induction k as [|k IH]; intros a pre post E.
  - destruct pre; [|discriminate]. cbn in E. subst post.
    split; [cbn; lia|]. intros; reflexivity.
  - rewrite <- blocks_S in E. unfold block in E. cbn [List.app] in E.
    symmetry in E.
    destruct pre as [|t1 pre].
    { split; [cbn; lia|]. intros; reflexivity. }
    destruct pre as [|t2 pre].
    { cbn in E. injection E as -> E. split; [cbn; lia|].
      intros i post' ->. discriminate. }
    destruct pre as [|t3 pre].
    { cbn in E. injection E as -> -> E. split; [cbn; lia|].
      intros i post' ->. discriminate. }
    destruct pre as [|t4 pre].
    { cbn in E. injection E as -> -> -> E. split; [cbn; lia|].
      intros i post' ->. discriminate. }
    cbn in E. injection E as -> -> -> -> E.
    change (Accept a :: Begin a :: End_ a :: Close a :: pre)
      with (block a ++ pre)%list.
    rewrite in_flight_block. apply (IH (S a)). symmetry; exact E.
Qed.

Section ScriptClaims.

Context {L : StdLib}.

Lemma python_steps (s : state) :
  exists k, steps (snd (Script.python s))
            = (steps s ++ blocks (accepted s) k)%list.
Proof.
  destruct (Os.chdir (fs s) (cwd s) "dist") as [e|d] eqn:Hcd.
  { exists 0%nat. rewrite (python_raise s e s (main_chdir_fails s e Hcd)).
    cbn. rewrite app_nil_r. reflexivity. }
  destruct (Os.listdir (fs s) d ".") as [e|names] eqn:Hls.
  { exists 0%nat.
    rewrite (python_raise s e _ (main_listdir_fails s d e Hcd Hls)).
    cbn. rewrite app_nil_r. reflexivity. }
  destruct (may_bind s Script.PORT) eqn:Hb.
  2:{ exists 0%nat. rewrite (python_refused s d names Hcd Hls Hb).
      cbn. rewrite app_nil_r. reflexivity. }
  destruct (TCPServer.taken s Script.PORT) eqn:Ht.
  { exists 0%nat. rewrite (python_taken s d names Hcd Hls Hb Ht).
    cbn. rewrite app_nil_r. reflexivity. }
  destruct (python_bound s d names Hcd Hls Hb Ht) as (s1 & k & _ & T & [[R _]|R]);
    exists k; rewrite R; cbn; exact T.
Qed.

(** Claim C10.  Whatever the process is started on, the steps of its
    server are those of whole connections one after the other: each is
    accepted, handled from beginning to end and closed before the next is
    accepted, so never are two connections in flight. *)
Theorem connections_are_served_one_at_a_time (s : state) :
  exists k,
    steps (snd (Script.python s)) = (steps s ++ blocks (accepted s) k)%list
    /\ sequential (blocks (accepted s) k).
Proof.
  destruct (python_steps s) as (k & E). exists k.
  split; [exact E|apply blocks_sequential].
Qed.

(** Claim C3.  When [dist] does not exist in the directory the process
    is started in, [os.chdir] raises and nobody catches it: the process
    exits with a status other than 0 and the [FileNotFoundError] line on
    the standard error, it has bound no socket, taken no step of serving,
    and a port 8080 that was free is still free. *)
Theorem missing_dist_is_fatal (s : state) :
  FS.lookup (fs s) (cwd s) "dist" = None ->
  exists status s',
    Script.python s = (Script.Exited status, s')
    /\ status <> 0%Z
    /\ In "FileNotFoundError: [Errno 2] No such file or directory: 'dist'"
         (stderr s')
    /\ listening s' = listening s
    /\ socket s' = socket s
    /\ steps s' = steps s
    /\ (TCPServer.taken s Script.PORT = false ->
        TCPServer.taken s' Script.PORT = false).
Proof.
  intro H. apply chdir_missing in H.
  exists 1%Z, (crashed s (ENOENT "dist")).
  split; [apply (python_raise s (ENOENT "dist")); apply main_chdir_fails; exact H|].
  split; [discriminate|].
  split; [cbn; apply in_or_app; right; right; left; reflexivity|].
  repeat split. intro Ht; exact Ht.
Qed.

(** Claim C8.  The port is 8080 and the address is the empty string,
    which is every interface.  When the start-up reaches the server: if
    the system lets the process bind and no socket of the machine has the
    port, the process serves with its socket in the table of the machine
    under that address and port; if the system refuses or the port is
    taken, the process exits with a status other than 0 and the table of
    the machine, the file system and what was served are as before, so an
    instance that holds the port goes on undisturbed. *)
Theorem binds_port_8080_on_all_interfaces (s : state) (d names : list string) :
  Os.chdir (fs s) (cwd s) "dist" = inr d ->
  Os.listdir (fs s) d "." = inr names ->
  Script.PORT = 8080%Z
  /\ (may_bind s Script.PORT = true -> TCPServer.taken s Script.PORT = false ->
      incoming s = [] ->
      exists s',
        Script.python s = (Script.Serving, s')
        /\ listening s' = (listening s ++ [("", Script.PORT, pid s)])%list
        /\ socket s' = Some ("", Script.PORT))
  /\ (may_bind s Script.PORT = false \/ TCPServer.taken s Script.PORT = true ->
      exists status s',
        Script.python s = (Script.Exited status, s')
        /\ status <> 0%Z
        /\ listening s' = listening s
        /\ fs s' = fs s
        /\ steps s' = steps s
        /\ sent s' = sent s).
Proof.
  intros Hcd Hls. split; [reflexivity|]. split.
  - intros Hb Ht Hin.
    exists (bound (started s d names)). split; [|split; reflexivity].
    unfold Script.python.
    rewrite (main_started s d names Hcd Hls), with_bound by assumption.
    unfold finally, TCPServer.serve_forever.
    replace (incoming (bound (started s d names))) with (@nil event)
      by (symmetry; exact Hin).
    reflexivity.
  - intros H.
    destruct (may_bind s Script.PORT) eqn:Hb.
    + destruct H as [H|Ht]; [discriminate|].
      eexists 1%Z, _. split; [apply (python_taken s d names Hcd Hls Hb Ht)|].
      split; [discriminate|]. repeat split.
    + eexists 1%Z, _. split; [apply (python_refused s d names Hcd Hls Hb)|].
      split; [discriminate|]. repeat split.
Qed.

(** Claim C2, as the code has it.  When the interrupt reaches a server
    that has started, [KeyboardInterrupt] leaves [serve_forever], the
    [with] statement closes the socket, which leaves the table of the
    machine, and the exception ends the process: the traceback is on the
    standard error and the status is 130, not 0. *)
Theorem interrupt_closes_listener_and_kills_process (s : state)
    (d names : list string) :
  Os.chdir (fs s) (cwd s) "dist" = inr d ->
  Os.listdir (fs s) d "." = inr names ->
  may_bind s Script.PORT = true ->
  TCPServer.taken s Script.PORT = false ->
  In Interrupt (incoming s) ->
  exists s',
    Script.python s = (Script.Exited 130, s')
    /\ listening s' = listening s
    /\ socket s' = None
    /\ In "KeyboardInterrupt" (stderr s').
Proof.
  intros Hcd Hls Hb Ht Hin.
  destruct (python_bound s d names Hcd Hls Hb Ht)
    as (s1 & k & M & T & [[_ N]|R]); [contradiction|].
  eexists. split; [exact R|]. split; [reflexivity|]. split; [reflexivity|].
  cbn. apply in_or_app. right. right. left. reflexivity.
Qed.

Lemma main_never_returns (s : state) :
  forall a s', Script.main s <> (Ok a, s').
Proof.
  intros a s'.
  destruct (Os.chdir (fs s) (cwd s) "dist") as [e|d] eqn:Hcd.
  { rewrite (main_chdir_fails s e Hcd). discriminate. }
  destruct (Os.listdir (fs s) d ".") as [e|names] eqn:Hls.
  { rewrite (main_listdir_fails s d e Hcd Hls). discriminate. }
  rewrite (main_started s d names Hcd Hls).
  destruct (may_bind (started s d names) Script.PORT) eqn:Hb.
  2:{ rewrite with_refused by exact Hb. discriminate. }
  destruct (TCPServer.taken (started s d names) Script.PORT) eqn:Ht.
  { rewrite with_taken by assumption. discriminate. }
  rewrite with_bound by assumption.
  unfold finally, TCPServer.serve_forever.
  destruct (serve_loop_runs (incoming (bound (started s d names)))
              (bound (started s d names))) as (s1 & k & [R|R] & _);
    rewrite R; [discriminate|].
  unfold bind. destruct (TCPServer.server_close _ s1) as [[u| |] s2];
    discriminate.
Qed.

Lemma python_never_exits_0 (s : state) :
  fst (Script.python s) <> Script.Exited 0.
Proof.
  unfold Script.python.
  destruct (Script.main s) as [[a|e|] s'] eqn:E.
  - exfalso. exact (main_never_returns s a s' E).
  - cbn. intro H. injection H as H. exact (exit_status_nonzero e H).
  - discriminate.
Qed.

End ScriptClaims.

(** * The handler: what is written for a request *)

Section HandlerFacts.

Context {L : StdLib}.

Lemma buffered_buffered h l1 l2 :
  buffered (buffered h l1) l2 = buffered h (l1 ++ l2)%list.
Proof. destruct h; unfold buffered; cbn. rewrite app_assoc. reflexivity. Qed.

Lemma flushed_buffered h l1 l2 :
  flushed (buffered h l1) l2 = flushed h (l1 ++ l2)%list.
Proof. destruct h; unfold flushed, buffered; cbn. rewrite app_assoc. reflexivity. Qed.

Lemma send_response_only_new code message h :
  v09 h = false ->
  Base.send_response_only code (Some message) h
  = buffered h [Base.status_line code message].
Proof.
  unfold v09, Base.send_response_only. intros ->. reflexivity.
Qed.

Lemma send_response_only_old code message h :
  v09 h = true -> Base.send_response_only code message h = h.
Proof. unfold v09, Base.send_response_only. intros ->. reflexivity. Qed.

Lemma send_header_new keyword value h :
  v09 h = false -> plain keyword = true ->
  Base.send_header keyword value h = buffered h [Base.header_line keyword value].
Proof.
  unfold v09, plain, Base.send_header. intros -> Hk.
  apply negb_true_iff in Hk. rewrite Hk. reflexivity.
Qed.

Lemma send_header_old keyword value h :
  v09 h = true -> plain keyword = true ->
  Base.send_header keyword value h = h.
Proof.
  unfold v09, plain, Base.send_header. intros -> Hk.
  apply negb_true_iff in Hk. rewrite Hk. reflexivity.
Qed.

Lemma end_headers_new h :
  v09 h = false ->
  My.end_headers h = flushed h [cors_line; PyStr.CRLF].
Proof.
  intro Hv. unfold My.end_headers.
  rewrite send_header_new by (assumption || reflexivity).
  unfold Base.end_headers, Base.flush_headers, wfile_write, list_append, flushed, buffered.
  unfold v09 in Hv. destruct h; cbn in *. rewrite Hv. cbn.
  rewrite <- app_assoc. reflexivity.
Qed.

Lemma end_headers_old h : v09 h = true -> My.end_headers h = h.
Proof.
  intro Hv. unfold My.end_headers.
  rewrite send_header_old by (assumption || reflexivity).
  unfold Base.end_headers. unfold v09 in Hv. rewrite Hv. reflexivity.
Qed.

Lemma v09_buffered h l : v09 (buffered h l) = v09 h.
Proof. reflexivity. Qed.

Lemma send_response_new code message h :
  v09 h = false ->
  Base.send_response Simple.server_version code message h
  = buffered h (response_head code message).
Proof.
  intro Hv. unfold Base.send_response.
  assert (E : Base.send_response_only code message h
              = buffered h [Base.status_line code
                  (match message with
                   | Some m => m
                   | None => match HTTPStatus.responses code with
                             | Some (phrase, _) => phrase
                             | None => ""
                             end
                   end)]).
  { unfold v09 in Hv. unfold Base.send_response_only. rewrite Hv. reflexivity. }
  rewrite E.
  rewrite (send_header_new "Server") by (exact Hv || reflexivity).
  rewrite (send_header_new "Date") by (exact Hv || reflexivity).
  rewrite !buffered_buffered. reflexivity.
Qed.

Lemma send_response_old code message h :
  v09 h = true -> Base.send_response Simple.server_version code message h = h.
Proof.
  intro Hv. unfold Base.send_response.
  rewrite send_response_only_old by assumption.
  rewrite (send_header_old "Server") by (exact Hv || reflexivity).
  rewrite (send_header_old "Date") by (exact Hv || reflexivity). reflexivity.
Qed.

Lemma send_error_eq code message explain h :
  Base.send_error My.end_headers Simple.server_version code message explain h
  = let m := error_message code message in
    let body := error_body code m (error_explain code explain) in
    let h := Base.send_response Simple.server_version code (Some m) h in
    let h := Base.send_header "Connection" "close" h in
    let h :=
      match body with
      | Some b =>
          Base.send_header "Content-Length"
            (PyStr.str_of_Z (Z.of_nat (String.length b)))
            (Base.send_header "Content-Type" Base.error_content_type h)
      | None => h
      end in
    write_error_body body (My.end_headers h).
Proof.
  unfold Base.send_error, error_message, error_explain, error_body, write_error_body.
  destruct (option_default ("???", "???") (HTTPStatus.responses code))
    as [shortmsg longmsg]. cbn [fst snd].
  reflexivity.
Qed.

Lemma send_error_new code message explain h :
  v09 h = false ->
  Base.send_error My.end_headers Simple.server_version code message explain h
  = let m := error_message code message in
    let body := error_body code m (error_explain code explain) in
    write_error_body body
      (flushed (set_close_connection h true)
         (error_head code m body ++ [cors_line; PyStr.CRLF])%list).
Proof.
  intro Hv. rewrite send_error_eq. cbv zeta.
  rewrite send_response_new by assumption.
  set (m := error_message code message).
  set (body := error_body code m (error_explain code explain)).
  assert (E1 : Base.send_header "Connection" "close"
                 (buffered h (response_head code (Some m)))
               = set_close_connection
                   (buffered h (response_head code (Some m)
                                ++ [Base.header_line "Connection" "close"])%list)
                   true).
  { unfold Base.send_header. unfold v09 in Hv. cbn. rewrite Hv. cbn.
    destruct h; unfold buffered, list_append; cbn.
    rewrite <- app_assoc. reflexivity. }
  rewrite E1. unfold error_head.
  destruct body as [b|].
  - rewrite (send_header_new "Content-Type") by (exact Hv || reflexivity).
    rewrite (send_header_new "Content-Length") by (exact Hv || reflexivity).
    rewrite end_headers_new by exact Hv.
    f_equal. destruct h; unfold flushed, buffered; cbn.
    rewrite <- !app_assoc. reflexivity.
  - rewrite end_headers_new by exact Hv.
    f_equal. destruct h; unfold flushed, buffered; cbn.
    rewrite <- !app_assoc. reflexivity.
Qed.

Lemma send_error_old code message explain h :
  v09 h = true ->
  Base.send_error My.end_headers Simple.server_version code message explain h
  = write_error_body
      (error_body code (error_message code message) (error_explain code explain))
      (set_close_connection h true).
Proof.
  intro Hv. rewrite send_error_eq. cbv zeta.
  rewrite send_response_old by assumption.
  assert (E1 : Base.send_header "Connection" "close" h = set_close_connection h true).
  { unfold Base.send_header. unfold v09 in Hv. rewrite Hv. reflexivity. }
  rewrite E1.
  destruct (error_body _ _ _) as [b|].
  - rewrite (send_header_old "Content-Type") by (exact Hv || reflexivity).
    rewrite (send_header_old "Content-Length") by (exact Hv || reflexivity).
    rewrite end_headers_old by exact Hv. reflexivity.
  - rewrite end_headers_old by exact Hv. reflexivity.
Qed.

Lemma send_headers_new fields : forall h,
  v09 h = false -> forallb (fun kv => plain (fst kv)) fields = true ->
  send_headers fields h = buffered h (header_lines_of fields).
Proof.
  induction fields as [|[k v] fields IH]; intros h Hv Hp.
  - destruct h; unfold buffered; cbn. rewrite app_nil_r. reflexivity.
  - cbn in Hp. apply andb_true_iff in Hp. destruct Hp as [Hk Hp].
    cbn [send_headers]. rewrite send_header_new by assumption.
    rewrite IH by assumption. rewrite buffered_buffered. reflexivity.
Qed.

Lemma send_headers_old fields : forall h,
  v09 h = true -> forallb (fun kv => plain (fst kv)) fields = true ->
  send_headers fields h = h.
Proof.
  induction fields as [|[k v] fields IH]; intros h Hv Hp; [reflexivity|].
  cbn in Hp. apply andb_true_iff in Hp. destruct Hp as [Hk Hp].
  cbn [send_headers]. rewrite send_header_old by assumption. apply IH; assumption.
Qed.

Lemma head_emit code message fields h :
  forallb (fun kv => plain (fst kv)) fields = true ->
  My.end_headers
    (send_headers fields (Base.send_response Simple.server_version code message h))
  = emit h (response_head code message ++ header_lines_of fields)%list.
Proof.
  intro Hp. unfold emit. destruct (v09 h) eqn:Hv.
  - rewrite send_response_old, send_headers_old, end_headers_old by assumption.
    reflexivity.
  - rewrite send_response_new by assumption.
    rewrite send_headers_new by assumption.
    rewrite end_headers_new by exact Hv.
    rewrite buffered_buffered, flushed_buffered. rewrite <- app_assoc.
    reflexivity.
Qed.

Lemma send_error_emit code message explain h :
  Base.send_error My.end_headers Simple.server_version code message explain h
  = let m := error_message code message in
    let body := error_body code m (error_explain code explain) in
    write_error_body body
      (emit (set_close_connection h true) (error_head code m body)).
Proof.
  cbv zeta. unfold emit.
  change (v09 (set_close_connection h true)) with (v09 h).
  destruct (v09 h) eqn:Hv.
  - apply send_error_old; exact Hv.
  - apply send_error_new; exact Hv.
Qed.

Section Served.

Variable root : FS.node.

Variable cwd : list string.

Lemma send_file_head_eq path h :
  Simple.send_file_head My.end_headers root cwd path h
  = if PyStr.endswith path "/" then (None, not_found h)
    else
      match Os.open_rb root cwd path with
      | inl _ => (None, not_found h)
      | inr (data, mtime) =>
          if Simple.not_modified (headers h) mtime
          then (None, emit h (response_head HTTPStatus.NOT_MODIFIED None))
          else (Some data, emit h (file_head path data mtime))
      end.
Proof.
  unfold Simple.send_file_head, not_found.
  destruct (PyStr.endswith path "/"); [reflexivity|].
  destruct (Os.open_rb root cwd path) as [e|[data mtime]]; [reflexivity|].
  destruct (Simple.not_modified (headers h) mtime).
  - f_equal.
    rewrite <- (app_nil_r (response_head HTTPStatus.NOT_MODIFIED None)).
    exact (head_emit HTTPStatus.NOT_MODIFIED None [] h eq_refl).
  - f_equal.
    exact (head_emit HTTPStatus.OK None
             [ ("Content-type", Simple.guess_type path);
               ("Content-Length",
                PyStr.str_of_Z (Z.of_nat (String.length data)));
               ("Last-Modified", date_time_string (Some mtime)) ] h eq_refl).
Qed.

Lemma list_directory_eq path h :
  Simple.list_directory My.end_headers root cwd path h
  = match Os.listdir root cwd path with
    | inl _ =>
        (None,
         Base.send_error My.end_headers Simple.server_version HTTPStatus.NOT_FOUND
           (Some "No permission to list directory") None h)
    | inr names =>
        (Some (listing_of root cwd path h names),
         emit h (listing_head (listing_of root cwd path h names)))
    end.
Proof.
  unfold Simple.list_directory.
  destruct (Os.listdir root cwd path) as [e|names]; [reflexivity|].
  cbv zeta. f_equal.
  exact (head_emit HTTPStatus.OK None
           [ ("Content-type", "text/html; charset=" ++ getfilesystemencoding);
             ("Content-Length",
              PyStr.str_of_Z (Z.of_nat (String.length (listing_of root cwd path h names)))) ]
           h eq_refl).
Qed.

Lemma send_head_eq h :
  Simple.send_head My.end_headers root cwd h
  = let path := Simple.translate_path h (self_path h) in
    if Os.path_isdir root cwd path then
      if negb (PyStr.endswith (url_path (self_path h)) "/") then
        (None, emit h (redirect_head (with_slash (self_path h))))
      else
        match Simple.find_index root cwd path with
        | Some index => Simple.send_file_head My.end_headers root cwd index h
        | None => Simple.list_directory My.end_headers root cwd path h
        end
    else Simple.send_file_head My.end_headers root cwd path h.
Proof.
  unfold Simple.send_head, url_path, with_slash. cbv zeta.
  destruct (Os.path_isdir root cwd (Simple.translate_path h (self_path h)));
    [|reflexivity].
  destruct (urlsplit (self_path h)) as [[[[scheme netloc] url] query] fragment].
  destruct (negb (PyStr.endswith url "/")); [|reflexivity].
  f_equal.
  exact (head_emit HTTPStatus.MOVED_PERMANENTLY None
           [ ("Location", urlunsplit (scheme, netloc, url ++ "/", query, fragment));
             ("Content-Length", "0") ] h eq_refl).
Qed.

End Served.

Lemma emit_headed h lines : wfile h = [] -> headed (emit h lines).
Proof.
  intro Hw. unfold headed, emit. destruct (v09 h) eqn:Hv.
  - rewrite Hv. exact Hw.
  - change (v09 (flushed h (lines ++ [cors_line; PyStr.CRLF])%list)) with (v09 h).
    rewrite Hv. exists (headers_buffer h ++ lines)%list.
    unfold flushed. cbn. rewrite Hw. cbn. rewrite <- app_assoc. reflexivity.
Qed.

Lemma headed_answered h : headed h -> answered h.
Proof.
  unfold headed, answered. destruct (v09 h).
  - intros ->. left; reflexivity.
  - intros (lines & E). exists lines, []. split; [exact E|left; reflexivity].
Qed.

Lemma headed_body_answered h b : headed h -> answered (wfile_write (Body b) h).
Proof.
  unfold headed, answered.
  change (v09 (wfile_write (Body b) h)) with (v09 h).
  destruct (v09 h).
  - intros E. cbn. rewrite E. right. exists b. reflexivity.
  - intros (lines & E). exists lines, [Body b]. cbn. rewrite E.
    split; [reflexivity|right; exists b; reflexivity].
Qed.

Lemma write_error_body_answered body h :
  headed h -> answered (write_error_body body h).
Proof.
  intro H. unfold write_error_body. destruct body as [b|].
  - destruct (_ && _).
    + apply headed_body_answered; exact H.
    + apply headed_answered; exact H.
  - apply headed_answered; exact H.
Qed.

Lemma send_error_answered code message explain h :
  wfile h = [] ->
  answered (Base.send_error My.end_headers Simple.server_version code message explain h).
Proof.
  intro Hw. rewrite send_error_emit. cbv zeta.
  apply write_error_body_answered. apply emit_headed. exact Hw.
Qed.

Lemma emit_closes h lines : close_connection (emit h lines) = close_connection h.
Proof. unfold emit. destruct (v09 h); reflexivity. Qed.

Lemma write_error_body_closes body h :
  close_connection (write_error_body body h) = close_connection h.
Proof.
  unfold write_error_body. destruct body as [b|]; [|reflexivity].
  destruct (_ && _); reflexivity.
Qed.

Lemma send_error_closes code message explain h :
  close_connection
    (Base.send_error My.end_headers Simple.server_version code message explain h) = true.
Proof.
  rewrite send_error_emit. cbv zeta.
  rewrite write_error_body_closes, emit_closes. reflexivity.
Qed.

Section ServedShape.

Variable root : FS.node.

Variable cwd : list string.

Lemma send_file_head_sent path h :
  wfile h = [] -> head_sent (Simple.send_file_head My.end_headers root cwd path h).
Proof.
  intro Hw. rewrite send_file_head_eq. unfold head_sent, not_found.
  destruct (PyStr.endswith path "/"); cbn [fst snd].
  { apply send_error_answered; exact Hw. }
  destruct (Os.open_rb root cwd path) as [e|[data mtime]]; cbn [fst snd].
  { apply send_error_answered; exact Hw. }
  destruct (Simple.not_modified (headers h) mtime); cbn [fst snd].
  - apply headed_answered, emit_headed; exact Hw.
  - apply emit_headed; exact Hw.
Qed.

Lemma list_directory_sent path h :
  wfile h = [] -> head_sent (Simple.list_directory My.end_headers root cwd path h).
Proof.
  intro Hw. rewrite list_directory_eq. unfold head_sent.
  destruct (Os.listdir root cwd path) as [e|names]; cbn [fst snd].
  - apply send_error_answered; exact Hw.
  - apply emit_headed; exact Hw.
Qed.

Lemma send_head_sent h :
  wfile h = [] -> head_sent (Simple.send_head My.end_headers root cwd h).
Proof.
  intro Hw. rewrite send_head_eq. cbv zeta.
  destruct (Os.path_isdir root cwd _).
  - destruct (negb _).
    + unfold head_sent; cbn [fst snd].
      apply headed_answered, emit_headed; exact Hw.
    + destruct (Simple.find_index root cwd _).
      * apply send_file_head_sent; exact Hw.
      * apply list_directory_sent; exact Hw.
  - apply send_file_head_sent; exact Hw.
Qed.

Lemma do_GET_answered h : wfile h = [] -> answered (My.do_GET root cwd h).
Proof.
  intro Hw. unfold My.do_GET, Simple.do_GET.
  pose proof (send_head_sent h Hw) as H. unfold head_sent in H.
  destruct (Simple.send_head My.end_headers root cwd h) as [[data|] h'];
    cbn [fst snd] in H; [|exact H].
  unfold Simple.copyfile. destruct (data =? "").
  - apply headed_answered; exact H.
  - apply headed_body_answered; exact H.
Qed.

Lemma do_HEAD_answered h : wfile h = [] -> answered (My.do_HEAD root cwd h).
Proof.
  intro Hw. unfold My.do_HEAD, Simple.do_HEAD.
  pose proof (send_head_sent h Hw) as H. unfold head_sent in H.
  destruct (Simple.send_head My.end_headers root cwd h) as [[data|] h'];
    cbn [fst snd] in H; [apply headed_answered|]; exact H.
Qed.

Lemma send_file_head_closes path h :
  close_connection h = true ->
  close_connection (snd (Simple.send_file_head My.end_headers root cwd path h)) = true.
Proof.
  intro Hc. rewrite send_file_head_eq. unfold not_found.
  destruct (PyStr.endswith path "/"); cbn [snd]; [apply send_error_closes|].
  destruct (Os.open_rb root cwd path) as [e|[data mtime]]; cbn [snd];
    [apply send_error_closes|].
  destruct (Simple.not_modified (headers h) mtime); cbn [snd];
    rewrite emit_closes; exact Hc.
Qed.

Lemma send_head_closes h :
  close_connection h = true ->
  close_connection (snd (Simple.send_head My.end_headers root cwd h)) = true.
Proof.
  intro Hc. rewrite send_head_eq. cbv zeta.
  destruct (Os.path_isdir root cwd _).
  - destruct (negb _); [cbn [snd]; rewrite emit_closes; exact Hc|].
    destruct (Simple.find_index root cwd _);
      [apply send_file_head_closes; exact Hc|].
    rewrite list_directory_eq.
    destruct (Os.listdir root cwd _); cbn [snd];
      [apply send_error_closes|rewrite emit_closes; exact Hc].
  - apply send_file_head_closes; exact Hc.
Qed.

Lemma do_GET_closes h :
  close_connection h = true -> close_connection (My.do_GET root cwd h) = true.
Proof.
  intro Hc. unfold My.do_GET, Simple.do_GET.
  pose proof (send_head_closes h Hc) as H.
  destruct (Simple.send_head My.end_headers root cwd h) as [[data|] h'];
    cbn [snd] in H; [|exact H].
  unfold Simple.copyfile. destruct (data =? ""); exact H.
Qed.

Lemma do_HEAD_closes h :
  close_connection h = true -> close_connection (My.do_HEAD root cwd h) = true.
Proof.
  intro Hc. unfold My.do_HEAD, Simple.do_HEAD.
  pose proof (send_head_closes h Hc) as H.
  destruct (Simple.send_head My.end_headers root cwd h) as [f h']. exact H.
Qed.

End ServedShape.

Section Parsed.

Variable root : FS.node.

Variable cwd : list string.

Lemma old_protocol : ("HTTP/1.1" <=? Base.protocol_version) = false.
Proof. reflexivity. Qed.

Lemma clean_trans h1 h2 h3 : clean h1 h2 -> clean h2 h3 -> clean h1 h3.
Proof.
  unfold clean. intros (A1 & A2 & A3 & A4) (B1 & B2 & B3 & B4).
  repeat split; congruence.
Qed.

Lemma parse_request_headers_sent fields h :
  wfile h = [] -> close_connection h = true ->
  parse_sent h
    (Base.parse_request_headers My.end_headers Simple.server_version fields h).
Proof.
  intros Hw Hc. unfold Base.parse_request_headers.
  destruct fields as [fields|err|err].
  - cbv zeta. rewrite old_protocol. rewrite !andb_false_r. cbn [andb].
    unfold parse_sent, clean. cbn [fst snd].
    destruct (PyStr.lower _ =? "close"); cbn;
      (split; [first [reflexivity | exact Hc]|
       split; [exact Hw | split; [first [reflexivity | exact Hc]|split; reflexivity]]]).
  - unfold parse_sent. cbn [fst snd]. split; [apply send_error_closes|]. right.
    apply send_error_answered; exact Hw.
  - unfold parse_sent. cbn [fst snd]. split; [apply send_error_closes|]. right.
    apply send_error_answered; exact Hw.
Qed.

Lemma parse_request_version_sent words h :
  wfile h = [] -> close_connection h = true ->
  match Base.parse_request_version My.end_headers Simple.server_version words h with
  | inl h' => answered h' /\ close_connection h' = true
  | inr h' => clean h h'
  end.
Proof.
  intros Hw Hc. unfold Base.parse_request_version.
  destruct (3 <=? length words)%nat; [|repeat split; assumption].
  cbv zeta. destruct (Base.parse_version (last words "")) as [[base vn]|].
  - rewrite old_protocol, andb_false_r.
    destruct (Base.tuple_ge vn (2, 0)%Z).
    + split; [apply send_error_answered; exact Hw|apply send_error_closes].
    + cbn. repeat split; assumption.
  - split; [apply send_error_answered; exact Hw|apply send_error_closes].
Qed.

Lemma parse_request_sent req h :
  wfile h = [] ->
  parse_sent h (Base.parse_request My.end_headers Simple.server_version req h).
Proof.
  intro Hw. unfold Base.parse_request. cbv zeta.
  set (h1 := set_close_connection _ true).
  assert (C1 : clean h h1) by (repeat split; exact Hw).
  clearbody h1.
  set (words := PyStr.split_ws _).
  destruct (length words =? 0)%nat.
  { split; [apply C1|left; apply C1]. }
  pose proof (parse_request_version_sent words h1 (proj1 C1) (proj1 (proj2 C1)))
    as Hv.
  destruct (Base.parse_request_version My.end_headers Simple.server_version words h1)
    as [h2|h2].
  { split; [apply Hv|right; apply Hv]. }
  pose proof (clean_trans _ _ _ C1 Hv) as C2. clear Hv C1.
  destruct (negb _).
  { split; [apply send_error_closes|]. right.
    apply send_error_answered; apply C2. }
  set (h3 := if (length words =? 2)%nat then set_close_connection h2 true else h2).
  assert (C3 : clean h h3).
  { unfold h3; destruct (_ =? _)%nat; [|exact C2].
    destruct C2 as (A1 & A2 & A3 & A4). repeat split; assumption. }
  clearbody h3. clear C2.
  destruct (_ && _).
  { split; [apply send_error_closes|]. right.
    apply send_error_answered; apply C3. }
  match goal with
  | |- parse_sent h (Base.parse_request_headers _ _ _ ?h4) =>
      assert (C4 : clean h h4)
        by (destruct C3 as (A1 & A2 & A3 & A4);
            destruct (PyStr.startswith _ "//"); repeat split; assumption);
      pose proof (parse_request_headers_sent (header_lines req) h4
                    (proj1 C4) (proj1 (proj2 C4))) as Hp;
      generalize dependent h4
  end.
  intros h4 C4 Hp. unfold parse_sent in *.
  destruct (Base.parse_request_headers _ _ _ h4) as [ok h5]. cbn [fst snd] in *.
  destruct Hp as [Hc5 Hp]. split; [exact Hc5|].
  destruct ok; [|exact Hp]. eapply clean_trans; eassumption.
Qed.

Lemma handle_one_request_sent req h :
  wfile h = [] ->
  close_connection (My.handle_one_request root cwd req h) = true
  /\ (wfile (My.handle_one_request root cwd req h) = []
      \/ answered (My.handle_one_request root cwd req h)).
Proof.
  intro Hw. unfold My.handle_one_request, Base.handle_one_request.
  destruct (65536 <? _)%Z.
  { split; [apply send_error_closes|]. right.
    apply send_error_answered. exact Hw. }
  destruct (raw_requestline req =? ""); [split; [reflexivity|left; exact Hw]|].
  pose proof (parse_request_sent req h Hw) as Hp. unfold parse_sent in Hp.
  destruct (Base.parse_request My.end_headers Simple.server_version req h) as [ok h1].
  cbn [fst snd] in Hp. destruct Hp as [Hc1 Hp]. destruct ok; cbn [negb].
  2:{ split; assumption. }
  destruct Hp as [Hw1 _]. unfold My.do_.
  destruct (_ =? "GET").
  { split; [apply do_GET_closes; exact Hc1|right; apply do_GET_answered; exact Hw1]. }
  destruct (_ =? "HEAD").
  { split; [apply do_HEAD_closes; exact Hc1|right; apply do_HEAD_answered; exact Hw1]. }
  split; [apply send_error_closes|right; apply send_error_answered; exact Hw1].
Qed.

(** one request is served on a connection: the server speaks HTTP/1.0 *)
Lemma serve_one req reqs :
  My.serve root cwd (req :: reqs) = My.respond root cwd req.
Proof.
  unfold My.serve, My.respond, My.handle, Base.handle.
  change (set_close_connection (My.new cwd) true) with (My.new cwd).
  cbn [Base.handle_requests].
  change (Base.handle_one_request My.end_headers (My.do_ root cwd) Simple.server_version)
    with (My.handle_one_request root cwd).
  rewrite (proj1 (handle_one_request_sent req (My.new cwd) eq_refl)).
  reflexivity.
Qed.

Lemma serve_none : My.serve root cwd [] = [].
Proof. reflexivity. Qed.

Lemma parse_request_empty_line req h :
  raw_requestline req = "" ->
  fst (Base.parse_request My.end_headers Simple.server_version req h) = false.
Proof. intro E. unfold Base.parse_request. rewrite E. reflexivity. Qed.

Lemma accepts_clean req h : accepts cwd req h -> clean (My.new cwd) h.
Proof.
  intros [_ Hp].
  pose proof (parse_request_sent req (My.new cwd) eq_refl) as H.
  rewrite Hp in H. apply H.
Qed.

Lemma accepts_handle req h :
  accepts cwd req h ->
  My.handle_one_request root cwd req (My.new cwd)
  = match My.do_ root cwd (option_default "" (command h)) with
    | Some method => method h
    | None =>
        Base.send_error My.end_headers Simple.server_version HTTPStatus.NOT_IMPLEMENTED
          (Some ("Unsupported method (" ++ py_repr (option_default "" (command h))
                 ++ ")"))
          None h
    end.
Proof.
  intros [Hlen Hp]. unfold My.handle_one_request, Base.handle_one_request.
  apply Z.ltb_ge in Hlen. rewrite Hlen.
  destruct (raw_requestline req =? "") eqn:E.
  { apply String.eqb_eq in E.
    pose proof (parse_request_empty_line req (My.new cwd) E) as F.
    rewrite Hp in F. discriminate. }
  rewrite Hp. reflexivity.
Qed.

Lemma accepts_GET req h :
  accepts cwd req h -> command h = Some "GET" ->
  My.respond root cwd req = wfile (My.do_GET root cwd h).
Proof.
  intros Ha Hc. unfold My.respond. rewrite (accepts_handle req h Ha).
  rewrite Hc. reflexivity.
Qed.

Lemma emit_clean h0 h lines :
  clean h0 h -> headers_buffer h0 = [] -> v09 h = false ->
  wfile (emit h lines) = [Headers (lines ++ [cors_line; PyStr.CRLF])%list].
Proof.
  intros (Hw & _ & Hb & _) H0 Hv. unfold emit. rewrite Hv.
  unfold flushed. cbn. rewrite Hw, Hb, H0. reflexivity.
Qed.

Lemma v09_false h : request_version h <> "HTTP/0.9" -> v09 h = false.
Proof. intro H. apply String.eqb_neq. exact H. Qed.

End Parsed.

End HandlerFacts.

(** ** Paths that end in a slash name directories *)
Lemma split_endswith sep s :
  PyStr.endswith s sep = true ->
  exists w ws, PyStr.split sep s = (w :: ws ++ [""])%list.
Proof.
  induction s as [|a s IH]; [discriminate|].
  destruct s as [|b s].
  - cbn. intro H. rewrite H. exists "", []. reflexivity.
  - intro H. change (PyStr.endswith (String b s) sep = true) in H.
    destruct (IH H) as (w & ws & E).
    change (PyStr.split sep (String a (String b s)))
      with (if Ascii.eqb a sep then "" :: PyStr.split sep (String b s)
            else match PyStr.split sep (String b s) with
                 | [] => [String a ""]
                 | w :: ws => String a w :: ws
                 end).
    rewrite E. destruct (Ascii.eqb a sep).
    + exists "", (w :: ws). reflexivity.
    + exists (String a w), ws. reflexivity.
Qed.

Lemma resolve_from_slash root ws : forall cur q,
  FS.resolve_from root cur (ws ++ [""])%list = Some q ->
  FS.is_dir (FS.walk root q) = true.
Proof.
  induction ws as [|w ws IH]; intros cur q H; cbn in H.
  - destruct (FS.is_dir (FS.walk root cur)) eqn:D; [|discriminate].
    injection H as <-. exact D.
  - destruct (FS.is_dir (FS.walk root cur)); [|discriminate].
    destruct ((w =? "") || (w =? ".")); [exact (IH _ _ H)|].
    destruct (w =? ".."); exact (IH _ _ H).
Qed.

Lemma lookup_slash_is_dir root cwd path n :
  PyStr.endswith path "/" = true ->
  FS.lookup root cwd path = Some n -> FS.is_dir (Some n) = true.
Proof.
  intros He Hl. unfold FS.lookup in Hl.
  destruct (path =? ""); [discriminate|].
  destruct (split_endswith "/" path He) as (w & ws & E).
  rewrite E in Hl.
  destruct (FS.resolve_from root _ (w :: ws ++ [""])) as [q|] eqn:R;
    [|discriminate].
  rewrite <- Hl.
  exact (resolve_from_slash root (w :: ws) _ q R).
Qed.

Lemma lookup_file_no_slash root cwd path data mtime readable :
  FS.lookup root cwd path = Some (FS.File data mtime readable) ->
  PyStr.endswith path "/" = false.
Proof.
  intro Hl. destruct (PyStr.endswith path "/") eqn:He; [|reflexivity].
  pose proof (lookup_slash_is_dir root cwd path _ He Hl) as D. discriminate.
Qed.

Section HandlerClaims.

Context {L : StdLib}.

Variable root : FS.node.

Variable cwd : list string.






(** Claim C1, as the code has it.  For every request that is handled
    with a version other than HTTP/0.9, whatever the file system holds:
    either nothing is written, or the response begins with a header block
    whose last header line is [Access-Control-Allow-Origin: *], followed
    by the blank line and at most the body. *)
Theorem header_block_ends_with_cors (req : request) :
  request_version (My.handle_one_request root cwd req (My.new cwd))
    <> "HTTP/0.9" ->
  My.respond root cwd req = []
  \/ exists lines body,
       My.respond root cwd req
       = Headers (lines ++ [cors_line; PyStr.CRLF])%list :: body
       /\ bodies body.
Proof.
  intro Hv. apply v09_false in Hv.
  destruct (proj2 (handle_one_request_sent root cwd req (My.new cwd) eq_refl))
    as [E|A]; [left; exact E|right].
  unfold answered in A. rewrite Hv in A. exact A.
Qed.

(** A request handled as HTTP/0.9 gets no header block at all. *)
Lemma no_header_block_for_http09 (req : request) :
  request_version (My.handle_one_request root cwd req (My.new cwd))
    = "HTTP/0.9" ->
  bodies (My.respond root cwd req).
Proof.
  intro Hv.
  destruct (proj2 (handle_one_request_sent root cwd req (My.new cwd) eq_refl))
    as [E|A].
  - left; exact E.
  - unfold answered, v09 in A. rewrite Hv in A. exact A.
Qed.

End HandlerClaims.

(** * Paths: where [translate_path] leads *)











Lemma endswith_app_char a c d :
  PyStr.endswith (a ++ String c "") d = Ascii.eqb c d.
Proof.
  induction a as [|x a IH]; [reflexivity|].
  cbn [append]. destruct (a ++ String c "") as [|y r] eqn:E.
  - destruct a; discriminate.
  - cbn [PyStr.endswith]. rewrite <- IH. reflexivity.
Qed.














Section Translate.

Context {L : StdLib}.



End Translate.









Section PathClaim.

Context {L : StdLib}.


End PathClaim.

(** * The statements on the machine of the examples *)

From Stdlib Require Import Permutation Sorted.

(** * More on the script: the banner, the errors of start-up, many connections *)

Section MoreRuns.

Context {L : StdLib}.

Lemma handle_request_noblock_served reqs s :
  exists s',
    TCPServer._handle_request_noblock reqs None s = (Ok tt, s')
    /\ same_machine s s'
    /\ accepted s' = S (accepted s)
    /\ steps s' = (steps s ++ block (accepted s))%list
    /\ sent s' = (sent s ++ [(accepted s, My.serve (fs s) (cwd s) reqs)])%list
    /\ stderr s' = stderr s
    /\ incoming s' = incoming s.
Proof.
  eexists. split; [reflexivity|].
  cbn; unfold block, list_append; cbn; rewrite <- ?app_assoc; cbn.
  repeat split.
Qed.

Lemma handle_request_noblock_reported reqs e s :
  is_Exception e = true ->
  exists s',
    TCPServer._handle_request_noblock reqs (Some e) s = (Ok tt, s')
    /\ same_machine s s'
    /\ accepted s' = S (accepted s)
    /\ steps s' = (steps s ++ block (accepted s))%list
    /\ sent s' = sent s
    /\ stderr s' = (stderr s ++ error_report e)%list
    /\ incoming s' = incoming s.
Proof.
  intro E.
  destruct e as [k n m f|n m|]; [| |discriminate].
  all: eexists; split; [reflexivity|].
  all: cbn; unfold block, error_report, list_append; cbn;
    rewrite <- ?app_assoc; cbn; repeat split.
Qed.

Lemma handle_request_noblock_interrupted reqs s :
  exists s',
    TCPServer._handle_request_noblock reqs (Some KeyboardInterrupt) s
    = (Raise KeyboardInterrupt, s')
    /\ same_machine s s'
    /\ accepted s' = S (accepted s)
    /\ steps s' = (steps s ++ block (accepted s))%list
    /\ sent s' = sent s
    /\ stderr s' = stderr s
    /\ incoming s' = incoming s.
Proof.
  eexists. split; [reflexivity|].
  cbn; unfold block, list_append; cbn; rewrite <- ?app_assoc; cbn.
  repeat split.
Qed.

Lemma blocks_add a j k :
  (blocks a j ++ blocks (a + j) k)%list = blocks a (j + k).
Proof.
  unfold blocks. rewrite seq_app, map_app, concat_app. reflexivity.
Qed.

(** The loop on events it outlives: every connection is accepted, served
    or reported, and closed, and the loop goes on with what follows. *)
Lemma serve_loop_prefix pre evs : forall s,
  forallb survivable pre = true ->
  exists s',
    TCPServer.serve_loop (pre ++ evs) s = TCPServer.serve_loop evs s'
    /\ same_machine s s'
    /\ accepted s' = (accepted s + connections pre)%nat
    /\ steps s' = (steps s ++ blocks (accepted s) (connections pre))%list
    /\ sent s' = (sent s ++ replies (fs s) (cwd s) (accepted s) pre)%list
    /\ stderr s' = (stderr s ++ reports pre)%list
    /\ incoming s' = match pre with [] => incoming s | _ => evs end.
Proof.
  induction pre as [|ev pre IH]; intros s Hs.
  - exists s. cbn. rewrite ?app_nil_r, Nat.add_0_r.
    repeat split.
  - cbn [forallb] in Hs. apply andb_true_iff in Hs. destruct Hs as [Hev Hs].
    cbn [app]. rewrite serve_loop_cons.
    remember (set_incoming s (pre ++ evs)) as s0 eqn:E0.
    assert (M0 : same_machine s s0) by (subst s0; repeat split).
    assert (T0 : steps s0 = steps s) by (subst s0; reflexivity).
    assert (A0 : accepted s0 = accepted s) by (subst s0; reflexivity).
    assert (S0 : sent s0 = sent s) by (subst s0; reflexivity).
    assert (R0 : stderr s0 = stderr s) by (subst s0; reflexivity).
    assert (I0 : incoming s0 = (pre ++ evs)%list) by (subst s0; reflexivity).
    clear E0.
    assert (F0 : fs s0 = fs s) by apply M0.
    assert (C0 : cwd s0 = cwd s) by apply M0.
    destruct ev as [reqs [e|]| |]; [| | |discriminate].
    + destruct (handle_request_noblock_reported reqs e s0 Hev)
        as (s1 & R & M1 & A1 & T1 & S1 & R1 & I1).
      rewrite R.
      destruct (IH s1 Hs) as (s2 & R2 & M2 & A2 & T2 & S2 & E2 & I2).
      exists s2. split; [exact R2|]. split.
      { eapply same_machine_trans; [exact M0|].
        eapply same_machine_trans; eassumption. }
      assert (F1 : fs s1 = fs s) by (rewrite <- F0; apply M1).
      assert (C1 : cwd s1 = cwd s) by (rewrite <- C0; apply M1).
      rewrite A2, T2, S2, E2, I2, A1, T1, S1, R1, I1, F1, C1, A0, T0, S0, R0, I0.
      cbn [connections replies reports].
      rewrite <- !app_assoc.
      change (block (accepted s)) with (blocks (accepted s) 1).
      rewrite <- (Nat.add_1_r (accepted s)), blocks_add.
      rewrite <- Nat.add_assoc. cbn.
      repeat split. destruct pre; reflexivity.
    + destruct (handle_request_noblock_served reqs s0)
        as (s1 & R & M1 & A1 & T1 & S1 & R1 & I1).
      rewrite R.
      destruct (IH s1 Hs) as (s2 & R2 & M2 & A2 & T2 & S2 & E2 & I2).
      exists s2. split; [exact R2|]. split.
      { eapply same_machine_trans; [exact M0|].
        eapply same_machine_trans; eassumption. }
      assert (F1 : fs s1 = fs s) by (rewrite <- F0; apply M1).
      assert (C1 : cwd s1 = cwd s) by (rewrite <- C0; apply M1).
      rewrite A2, T2, S2, E2, I2, A1, T1, S1, R1, I1, F1, C1, A0, T0, S0, R0, I0,
        F0, C0.
      cbn [connections replies reports].
      rewrite <- !app_assoc.
      change (block (accepted s)) with (blocks (accepted s) 1).
      rewrite <- (Nat.add_1_r (accepted s)), blocks_add.
      rewrite <- Nat.add_assoc. cbn [Nat.add app].
      assert (V : My.serve (fs s) (cwd s) reqs = first_response (fs s) (cwd s) reqs).
      { destruct reqs as [|req reqs]; [apply serve_none|apply serve_one]. }
      rewrite V.
      repeat split. destruct pre; reflexivity.
    + destruct (IH s0 Hs) as (s2 & R2 & M2 & A2 & T2 & S2 & E2 & I2).
      exists s2. split; [exact R2|]. split.
      { eapply same_machine_trans; eassumption. }
      rewrite A2, T2, S2, E2, I2, A0, T0, S0, R0, I0, F0, C0.
      cbn [connections replies reports].
      repeat split. destruct pre; reflexivity.
Qed.

(** The state in which the loop of the server starts *)
Lemma main_serving s d names :
  Os.chdir (fs s) (cwd s) "dist" = inr d ->
  Os.listdir (fs s) d "." = inr names ->
  may_bind s Script.PORT = true ->
  TCPServer.taken s Script.PORT = false ->
  Script.main s
  = finally (TCPServer.serve_loop (incoming s))
      (TCPServer.server_close ("", Script.PORT)) (bound (started s d names)).
Proof.
  intros Hcd Hls Hb Ht.
  rewrite (main_started s d names Hcd Hls).
  rewrite with_bound by assumption. reflexivity.
Qed.

(** The run of the script on events the loop outlives *)
Lemma python_survives s d names :
  Os.chdir (fs s) (cwd s) "dist" = inr d ->
  Os.listdir (fs s) d "." = inr names ->
  may_bind s Script.PORT = true ->
  TCPServer.taken s Script.PORT = false ->
  forallb survivable (incoming s) = true ->
  exists s',
    Script.python s = (Script.Serving, s')
    /\ same_machine (bound (started s d names)) s'
    /\ accepted s' = (accepted s + connections (incoming s))%nat
    /\ steps s' = (steps s ++ blocks (accepted s) (connections (incoming s)))%list
    /\ sent s' = (sent s ++ replies (fs s) d (accepted s) (incoming s))%list
    /\ stderr s' = (stderr s ++ reports (incoming s))%list
    /\ incoming s' = [].
Proof.
  intros Hcd Hls Hb Ht Hs.
  pose proof (main_serving s d names Hcd Hls Hb Ht) as Hm.
  destruct (serve_loop_prefix (incoming s) [] (bound (started s d names)))
    as (s1 & R & M1 & A1 & T1 & S1 & E1 & I1); [exact Hs|].
  rewrite app_nil_r in R.
  exists s1. split.
  { unfold Script.python. rewrite Hm. unfold finally. rewrite R. reflexivity. }
  split; [exact M1|].
  rewrite A1, T1, S1, E1, I1. cbn.
  repeat split. destruct (incoming s); reflexivity.
Qed.

Lemma listdir_exit_status root cwd path e :
  Os.listdir root cwd path = inl e -> Script.exit_status e = 1%Z.
Proof.
  unfold Os.listdir.
  destruct (FS.lookup root cwd path) as [[data mtime r|[|] es]|]; intro H;
    try discriminate; injection H as <-; reflexivity.
Qed.

Lemma chdir_exit_status root cwd path e :
  Os.chdir root cwd path = inl e -> Script.exit_status e = 1%Z.
Proof.
  unfold Os.chdir.
  destruct (path =? ""); [intro H; injection H as <-; reflexivity|].
  destruct (FS.resolve_from _ _ _) as [p|];
    [|intro H; injection H as <-; reflexivity].
  destruct (FS.walk root p) as [[data mtime r|l es]|]; intro H;
    try discriminate; injection H as <-; reflexivity.
Qed.

Lemma chdir_file root cwd data mtime r :
  FS.lookup root cwd "dist" = Some (FS.File data mtime r) ->
  Os.chdir root cwd "dist" = inl (ENOTDIR "dist").
Proof.
  unfold FS.lookup, Os.chdir. cbn.
  destruct (FS.is_dir (FS.walk root cwd)); [|discriminate].
  intro H. rewrite H. reflexivity.
Qed.

(** The run of the script when the interrupt arrives inside a handler *)
Lemma python_interrupted_in_handler s d names pre reqs rest :
  Os.chdir (fs s) (cwd s) "dist" = inr d ->
  Os.listdir (fs s) d "." = inr names ->
  may_bind s Script.PORT = true ->
  TCPServer.taken s Script.PORT = false ->
  incoming s = (pre ++ Connect reqs (Some KeyboardInterrupt) :: rest)%list ->
  forallb survivable pre = true ->
  exists s1,
    Script.python s
    = (Script.Exited 130, crashed (closed s1 s) KeyboardInterrupt)
    /\ same_machine (bound (started s d names)) s1
    /\ accepted s1 = S (accepted s + connections pre)
    /\ steps s1
       = (steps s ++ blocks (accepted s) (S (connections pre)))%list
    /\ sent s1 = (sent s ++ replies (fs s) d (accepted s) pre)%list
    /\ stderr s1 = (stderr s ++ reports pre)%list
    /\ incoming s1 = rest.
Proof.
  intros Hcd Hls Hb Ht Hin Hs.
  pose proof (main_serving s d names Hcd Hls Hb Ht) as Hm.
  rewrite Hin in Hm.
  destruct (serve_loop_prefix pre (Connect reqs (Some KeyboardInterrupt) :: rest)
              (bound (started s d names)) Hs)
    as (s1 & R & M1 & A1 & T1 & S1 & E1 & I1).
  rewrite serve_loop_cons in R.
  destruct (handle_request_noblock_interrupted reqs (set_incoming s1 rest))
    as (s2 & R2 & M2 & A2 & T2 & S2 & E2 & I2).
  rewrite R2 in R.
  assert (M : same_machine (bound (started s d names)) s2).
  { eapply same_machine_trans; [exact M1|].
    eapply same_machine_trans; [|exact M2]. repeat split. }
  exists s2. split.
  { apply (python_raise s KeyboardInterrupt). rewrite Hm.
    unfold finally. rewrite R.
    unfold bind, TCPServer.server_close, TCPServer.socket_close.
    destruct M as (_ & _ & Hl & _ & Hp & Hk & _).
    rewrite Hk, Hl, Hp. cbn.
    rewrite filter_own by exact Ht. reflexivity. }
  split; [exact M|].
  rewrite A2, T2, S2, E2, I2. cbn.
  rewrite A1, T1, S1, E1. cbn.
  rewrite <- !app_assoc.
  change (block (accepted s + connections pre))
    with (blocks (accepted s + connections pre) 1).
  rewrite blocks_add, Nat.add_1_r.
  repeat split.
Qed.

End MoreRuns.

Lemma reports_in evs reqs e :
  In (Connect reqs (Some e)) evs -> In (exn_line e) (reports evs).
Proof.
  induction evs as [|ev evs IH]; [intros []|].
  intros [->|Hin].
  - cbn. right. right. right. left. reflexivity.
  - destruct ev as [r [x|]| |]; cbn [reports]; try exact (IH Hin).
    apply in_or_app. right. exact (IH Hin).
Qed.

Section MoreScript.

Context {L : StdLib}.


(** When [dist] can be entered and not listed, the script ends with status
    1 after the first three lines of the banner: the line of the error of
    [os.listdir] is on standard error, no socket is bound and no connection
    is accepted. *)
Theorem unlistable_dist_is_fatal (s : state) (d : list string) (e : exn) :
  Os.chdir (fs s) (cwd s) "dist" = inr d ->
  Os.listdir (fs s) d "." = inl e ->
  exists s',
    Script.python s = (Script.Exited 1, s')
    /\ stdout s'
       = List.app (stdout s)
           [ "🚀 Test server starting on http://localhost:8080";
             "📁 Serving files from: " ++ Os.getcwd d;
             "📋 Available files:" ]
    /\ In (exn_line e) (stderr s')
    /\ listening s' = listening s
    /\ socket s' = socket s
    /\ steps s' = steps s.
Proof.
  intros Hcd Hls.
  pose proof (python_raise s e _ (main_listdir_fails s d e Hcd Hls)) as R.
  rewrite (listdir_exit_status _ _ _ _ Hls) in R.
  eexists. split; [exact R|]. split; [reflexivity|].
  split; [|repeat split].
  cbn. apply in_or_app. right. right. left. reflexivity.
Qed.

(** When [dist] is a regular file, [os.chdir] raises [NotADirectoryError]:
    the script ends with status 1 and the line of the error on standard
    error, and has printed nothing, bound nothing, accepted nothing and
    not changed directory. *)
Theorem dist_that_is_a_file_is_fatal (s : state) (data : string) (mtime : Z)
    (readable : bool) :
  FS.lookup (fs s) (cwd s) "dist" = Some (FS.File data mtime readable) ->
  exists s',
    Script.python s = (Script.Exited 1, s')
    /\ In "NotADirectoryError: [Errno 20] Not a directory: 'dist'" (stderr s')
    /\ stdout s' = stdout s
    /\ cwd s' = cwd s
    /\ listening s' = listening s
    /\ socket s' = socket s
    /\ steps s' = steps s.
Proof.
  intro H.
  pose proof (python_raise s _ _
                (main_chdir_fails s _ (chdir_file _ _ _ _ _ H))) as R.
  eexists. split; [exact R|]. split; [|repeat split].
  cbn. apply in_or_app. right. right. left. reflexivity.
Qed.

(** The script never ends of itself: a run goes on serving, or ends with
    status 1 (an exception) or 130 (the interrupt), never with status 0. *)
Theorem script_ends_only_by_an_exception (s : state) :
  fst (Script.python s) = Script.Serving
  \/ fst (Script.python s) = Script.Exited 1
  \/ fst (Script.python s) = Script.Exited 130.
Proof.
  unfold Script.python.
  destruct (Script.main s) as [[a|e|] s'] eqn:E.
  - exfalso. exact (main_never_returns s a s' E).
  - right. destruct e; cbn; auto.
  - left. reflexivity.
Qed.

(** An exception in a handler does not stop the server.  On events without
    the interrupt, the server goes on serving with its socket bound: every
    connection is accepted and closed in turn, also after an [accept] that
    failed and after a handler that raised, and the line of each exception
    a handler raised is on standard error. *)
Theorem server_outlives_handler_exceptions (s : state) (d names : list string) :
  Os.chdir (fs s) (cwd s) "dist" = inr d ->
  Os.listdir (fs s) d "." = inr names ->
  may_bind s Script.PORT = true ->
  TCPServer.taken s Script.PORT = false ->
  forallb survivable (incoming s) = true ->
  exists s',
    Script.python s = (Script.Serving, s')
    /\ socket s' = Some ("", Script.PORT)
    /\ accepted s' = (accepted s + connections (incoming s))%nat
    /\ steps s'
       = (steps s ++ blocks (accepted s) (connections (incoming s)))%list
    /\ incoming s' = []
    /\ forall reqs e,
         In (Connect reqs (Some e)) (incoming s) -> In (exn_line e) (stderr s').
Proof.
  intros Hcd Hls Hb Ht Hs.
  destruct (python_survives s d names Hcd Hls Hb Ht Hs)
    as (s' & R & M & A & T & _ & E & I).
  exists s'. split; [exact R|].
  split; [destruct M as (_ & _ & _ & _ & _ & Hk & _); exact Hk|].
  split; [exact A|]. split; [exact T|]. split; [exact I|].
  intros reqs e Hin. rewrite E. apply in_or_app. right.
  exact (reports_in _ _ _ Hin).
Qed.

(** Each connection gets the response to its first request, and only that.
    On events without the interrupt, what the run has written to the
    connections is, for each connection whose handler did not raise, the
    response of the handler to the first request it sent, computed on the
    file system in the directory [dist]; nothing for a connection that sent
    no request, and no record for one whose handler raised. *)
Theorem each_connection_gets_its_first_response (s : state)
    (d names : list string) :
  Os.chdir (fs s) (cwd s) "dist" = inr d ->
  Os.listdir (fs s) d "." = inr names ->
  may_bind s Script.PORT = true ->
  TCPServer.taken s Script.PORT = false ->
  forallb survivable (incoming s) = true ->
  sent (snd (Script.python s))
  = (sent s ++ replies (fs s) d (accepted s) (incoming s))%list.
Proof.
  intros Hcd Hls Hb Ht Hs.
  destruct (python_survives s d names Hcd Hls Hb Ht Hs)
    as (s' & R & _ & _ & _ & S' & _).
  rewrite R. exact S'.
Qed.

(** The interrupt inside a handler.  When [KeyboardInterrupt] is raised
    while a connection is handled, that connection is still closed, the
    listening socket is closed, what arrives later is never accepted, and
    the script ends with status 130. *)
Theorem interrupt_inside_a_handler_closes_the_connection (s : state)
    (d names : list string) (pre : list event) (reqs : list request)
    (rest : list event) :
  Os.chdir (fs s) (cwd s) "dist" = inr d ->
  Os.listdir (fs s) d "." = inr names ->
  may_bind s Script.PORT = true ->
  TCPServer.taken s Script.PORT = false ->
  incoming s = (pre ++ Connect reqs (Some KeyboardInterrupt) :: rest)%list ->
  forallb survivable pre = true ->
  exists s',
    Script.python s = (Script.Exited 130, s')
    /\ steps s' = (steps s ++ blocks (accepted s) (S (connections pre)))%list
    /\ accepted s' = S (accepted s + connections pre)
    /\ incoming s' = rest
    /\ socket s' = None
    /\ listening s' = listening s.
Proof.
  intros Hcd Hls Hb Ht Hin Hs.
  destruct (python_interrupted_in_handler s d names pre reqs rest
              Hcd Hls Hb Ht Hin Hs)
    as (s1 & R & _ & A & T & _ & _ & I).
  eexists. split; [exact R|]. cbn.
  repeat split; assumption.
Qed.

End MoreScript.

(** * More on the handler: errors, [HEAD], redirections, lengths *)

Section MoreHandler.

Context {L : StdLib}.

Lemma error_page_not_empty code message explain :
  (error_page code message explain =? "") = false.
Proof. reflexivity. Qed.

Lemma error_body_page code message explain :
  has_page code = true ->
  error_body code message explain = Some (error_page code message explain).
Proof. unfold has_page, error_body. intros ->. reflexivity. Qed.

Lemma emit_wfile h lines :
  wfile h = [] ->
  wfile (emit h lines)
  = if v09 h then []
    else [Headers (headers_buffer h ++ lines ++ [cors_line; PyStr.CRLF])%list].
Proof.
  intro Hw. unfold emit. destruct (v09 h); [exact Hw|].
  unfold flushed. cbn. rewrite Hw. reflexivity.
Qed.

Lemma emit_command h lines : command (emit h lines) = command h.
Proof. unfold emit. destruct (v09 h); reflexivity. Qed.

(** What [send_error] writes, from a handler that has written nothing *)
Lemma send_error_wfile code message explain h :
  wfile h = [] -> has_page code = true ->
  wfile (Base.send_error My.end_headers Simple.server_version code message
           explain h)
  = let m := error_message code message in
    let e := error_explain code explain in
    ((if v09 h then []
      else [Headers (headers_buffer h ++ error_head code m (Some (error_page code m e))
                     ++ [cors_line; PyStr.CRLF])%list])
     ++ (if is_head h then [] else [Body (error_page code m e)]))%list.
Proof.
  intros Hw Hp. rewrite send_error_emit. cbv zeta.
  rewrite (error_body_page _ _ _ Hp). unfold write_error_body.
  rewrite emit_command. change (command (set_close_connection h true)) with (command h).
  fold (is_head h). rewrite error_page_not_empty. cbn [negb andb].
  rewrite andb_true_r.
  destruct (is_head h); cbn [negb].
  - rewrite emit_wfile by exact Hw. rewrite app_nil_r. reflexivity.
  - unfold wfile_write, list_append. cbn [wfile set_wfile].
    rewrite emit_wfile by exact Hw. reflexivity.
Qed.

(** The same for a request with a version, from a fresh handler *)
Lemma send_error_reply code message explain h0 h :
  clean h0 h -> headers_buffer h0 = [] -> v09 h = false ->
  has_page code = true ->
  wfile (Base.send_error My.end_headers Simple.server_version code message
           explain h)
  = error_reply (is_head h) code (error_message code message)
      (error_explain code explain).
Proof.
  intros (Hw & _ & Hb & _) H0 Hv Hp.
  rewrite (send_error_wfile _ _ _ _ Hw Hp). cbv zeta.
  rewrite Hv, Hb, H0. reflexivity.
Qed.

(** The same for a request without a version: the page alone *)
Lemma send_error_bare code message explain h :
  wfile h = [] -> v09 h = true -> is_head h = false ->
  has_page code = true ->
  wfile (Base.send_error My.end_headers Simple.server_version code message
           explain h)
  = [Body (error_page code (error_message code message)
             (error_explain code explain))].
Proof.
  intros Hw Hv Hh Hp.
  rewrite (send_error_wfile _ _ _ _ Hw Hp). cbv zeta.
  rewrite Hv, Hh. reflexivity.
Qed.

End MoreHandler.

Section MoreResponses.

Context {L : StdLib}.

Variable root : FS.node.

Variable cwd : list string.

Lemma accepts_fresh req h :
  accepts cwd req h -> request_version h <> "HTTP/0.9" ->
  forall lines,
    wfile (emit h lines) = [Headers (lines ++ [cors_line; PyStr.CRLF])%list].
Proof.
  intros Ha Hv lines.
  exact (emit_clean (My.new cwd) h lines (accepts_clean cwd req h Ha) eq_refl
           (v09_false h Hv)).
Qed.

Lemma accepts_error req h code message explain :
  accepts cwd req h -> request_version h <> "HTTP/0.9" ->
  has_page code = true ->
  wfile (Base.send_error My.end_headers Simple.server_version code message
           explain h)
  = error_reply (is_head h) code (error_message code message)
      (error_explain code explain).
Proof.
  intros Ha Hv Hp.
  exact (send_error_reply code message explain (My.new cwd) h
           (accepts_clean cwd req h Ha) eq_refl (v09_false h Hv) Hp).
Qed.

(** A method other than [GET] and [HEAD] is refused.  For a request the
    server accepts with a version other than HTTP/0.9 and another method,
    the response is status 501 with the header of the script, and the page
    that names the method; the file system is not consulted. *)
Theorem unsupported_method_gets_501 (req : request) (h : handler) (c : string) :
  accepts cwd req h ->
  command h = Some c ->
  c <> "GET" -> c <> "HEAD" ->
  request_version h <> "HTTP/0.9" ->
  My.respond root cwd req
  = error_reply false HTTPStatus.NOT_IMPLEMENTED
      ("Unsupported method (" ++ py_repr c ++ ")")
      "Server does not support this operation".
Proof.
  intros Ha Hc Hg Hh Hv.
  unfold My.respond. rewrite (accepts_handle root cwd req h Ha).
  rewrite Hc. cbn [option_default]. unfold My.do_.
  apply String.eqb_neq in Hg, Hh. rewrite Hg, Hh.
  rewrite (accepts_error req h HTTPStatus.NOT_IMPLEMENTED _ _ Ha Hv eq_refl).
  unfold is_head. rewrite Hc, Hh. reflexivity.
Qed.

(** The client's copy is fresh.  For a request the server accepts as a
    [GET] with a version other than HTTP/0.9, when the path names a file
    the process may read and the [If-Modified-Since] of the request is not
    before the modification time of the file, the response is status 304
    with the [Server] and [Date] headers and the header of the script, and
    no body. *)
Theorem unchanged_file_gets_304 (req : request) (h : handler)
    (data : string) (mtime : Z) :
  accepts cwd req h ->
  command h = Some "GET" ->
  request_version h <> "HTTP/0.9" ->
  FS.lookup root cwd (Simple.translate_path h (self_path h))
    = Some (FS.File data mtime true) ->
  Simple.not_modified (headers h) mtime = true ->
  My.respond root cwd req
  = [ Headers (response_head HTTPStatus.NOT_MODIFIED None
               ++ [cors_line; PyStr.CRLF])%list ].
Proof.
  intros Ha Hc Hv Hl Hm.
  rewrite (accepts_GET root cwd req h Ha Hc).
  unfold My.do_GET, Simple.do_GET. rewrite send_head_eq. cbv zeta.
  unfold Os.path_isdir. rewrite Hl. cbn [FS.is_dir].
  rewrite send_file_head_eq.
  rewrite (lookup_file_no_slash root cwd _ _ _ _ Hl).
  unfold Os.open_rb. rewrite Hl, Hm.
  exact (accepts_fresh req h Ha Hv _).
Qed.

(** A directory without the slash.  For a request the server accepts as a
    [GET] with a version other than HTTP/0.9, when the path names a
    directory and the path of the target does not end in a slash, the
    response is status 301 with [Location] the target with the slash after
    its path, [Content-Length: 0] and the header of the script, and no
    body; whether the directory may be listed plays no part. *)
Theorem directory_without_slash_is_redirected (req : request) (h : handler)
    (listable : bool) (entries : list (string * FS.node)) :
  accepts cwd req h ->
  command h = Some "GET" ->
  request_version h <> "HTTP/0.9" ->
  FS.lookup root cwd (Simple.translate_path h (self_path h))
    = Some (FS.Dir listable entries) ->
  PyStr.endswith (url_path (self_path h)) "/" = false ->
  My.respond root cwd req
  = [ Headers (redirect_head (with_slash (self_path h))
               ++ [cors_line; PyStr.CRLF])%list ].
Proof.
  intros Ha Hc Hv Hl Hs.
  rewrite (accepts_GET root cwd req h Ha Hc).
  unfold My.do_GET, Simple.do_GET. rewrite send_head_eq. cbv zeta.
  unfold Os.path_isdir. rewrite Hl. cbn [FS.is_dir]. rewrite Hs. cbn [negb].
  exact (accepts_fresh req h Ha Hv _).
Qed.


(** A path that names nothing, for [GET] and [HEAD] and any version.  For
    a request the server accepts as a [GET] or a [HEAD], when the path
    names nothing, what is written is the header block of the error 404,
    if the request has a version for headers, and the error page, if the
    request is not a [HEAD]. *)
Lemma missing_path_reply (req : request) (h : handler) :
  accepts cwd req h ->
  command h = Some "GET" \/ command h = Some "HEAD" ->
  FS.lookup root cwd (Simple.translate_path h (self_path h)) = None ->
  My.respond root cwd req
  = ((if v09 h then []
      else [ Headers (error_head HTTPStatus.NOT_FOUND "File not found"
                        (Some not_found_page)
                      ++ [cors_line; PyStr.CRLF])%list ])
     ++ (if is_head h then [] else [Body not_found_page]))%list.
Proof.
  intros Ha Hc Hl.
  assert (E : My.respond root cwd req = wfile (not_found h)).
  { unfold My.respond. rewrite (accepts_handle root cwd req h Ha).
    assert (S' : snd (Simple.send_head My.end_headers root cwd h) = not_found h
                 /\ fst (Simple.send_head My.end_headers root cwd h) = None).
    { rewrite send_head_eq. cbv zeta. unfold Os.path_isdir. rewrite Hl.
      cbn [FS.is_dir]. rewrite send_file_head_eq.
      destruct (PyStr.endswith _ "/"); [split; reflexivity|].
      unfold Os.open_rb. rewrite Hl. split; reflexivity. }
    destruct S' as [S1 S2].
    destruct Hc as [Hc|Hc]; rewrite Hc; cbn [option_default].
    - change (My.do_ root cwd "GET") with (Some (My.do_GET root cwd)).
      cbv iota. unfold My.do_GET, Simple.do_GET.
      destruct (Simple.send_head My.end_headers root cwd h) as [f h'].
      cbn [fst snd] in S1, S2. subst. reflexivity.
    - change (My.do_ root cwd "HEAD") with (Some (My.do_HEAD root cwd)).
      cbv iota. unfold My.do_HEAD, Simple.do_HEAD.
      destruct (Simple.send_head My.end_headers root cwd h) as [f h'].
      cbn [fst snd] in S1. subst. reflexivity. }
  rewrite E. unfold not_found.
  destruct (accepts_clean cwd req h Ha) as (Hw & _ & Hb & _).
  rewrite (send_error_wfile HTTPStatus.NOT_FOUND _ _ h Hw eq_refl). cbv zeta.
  rewrite Hb. reflexivity.
Qed.

(** A file the process may not read is answered like a missing one.  For a
    request the server accepts as a [GET] with a version other than
    HTTP/0.9, when the path names a regular file that [open] refuses, the
    response is status 404 [File not found] with the error page: the
    client cannot tell the file from one that is not there. *)
Theorem unreadable_file_gets_404 (req : request) (h : handler)
    (data : string) (mtime : Z) :
  accepts cwd req h ->
  command h = Some "GET" ->
  request_version h <> "HTTP/0.9" ->
  FS.lookup root cwd (Simple.translate_path h (self_path h))
    = Some (FS.File data mtime false) ->
  My.respond root cwd req
  = error_reply false HTTPStatus.NOT_FOUND "File not found"
      "Nothing matches the given URI".
Proof.
  intros Ha Hc Hv Hl.
  rewrite (accepts_GET root cwd req h Ha Hc).
  unfold My.do_GET, Simple.do_GET. rewrite send_head_eq. cbv zeta.
  unfold Os.path_isdir. rewrite Hl. cbn [FS.is_dir].
  rewrite send_file_head_eq.
  rewrite (lookup_file_no_slash root cwd _ _ _ _ Hl).
  unfold Os.open_rb. rewrite Hl. unfold not_found.
  rewrite (accepts_error req h HTTPStatus.NOT_FOUND _ _ Ha Hv eq_refl).
  unfold is_head. rewrite Hc. reflexivity.
Qed.

(** A directory the process may not list.  For a request the server
    accepts as a [GET] with a version other than HTTP/0.9, when the path
    of the target ends in a slash and names a directory without an index
    file that [os.listdir] refuses, the response is status 404
    [No permission to list directory] with the error page. *)
Theorem unlistable_directory_gets_404 (req : request) (h : handler)
    (entries : list (string * FS.node)) :
  accepts cwd req h ->
  command h = Some "GET" ->
  request_version h <> "HTTP/0.9" ->
  FS.lookup root cwd (Simple.translate_path h (self_path h))
    = Some (FS.Dir false entries) ->
  PyStr.endswith (url_path (self_path h)) "/" = true ->
  Simple.find_index root cwd (Simple.translate_path h (self_path h)) = None ->
  My.respond root cwd req
  = error_reply false HTTPStatus.NOT_FOUND "No permission to list directory"
      "Nothing matches the given URI".
Proof.
  intros Ha Hc Hv Hl Hs Hi.
  rewrite (accepts_GET root cwd req h Ha Hc).
  unfold My.do_GET, Simple.do_GET. rewrite send_head_eq. cbv zeta.
  unfold Os.path_isdir. rewrite Hl. cbn [FS.is_dir]. rewrite Hs, Hi. cbn [negb].
  rewrite list_directory_eq. unfold Os.listdir. rewrite Hl.
  rewrite (accepts_error req h HTTPStatus.NOT_FOUND _ _ Ha Hv eq_refl).
  unfold is_head. rewrite Hc. reflexivity.
Qed.

(** One request for each connection.  The server speaks HTTP/1.0: whatever
    the first request of a connection is, and whatever it asks about the
    connection, the handler leaves [close_connection] set after it; what
    is written to the connection is the response to the first request, and
    the requests after it are not read. *)
Theorem connection_is_closed_after_one_request (req : request)
    (reqs : list request) :
  close_connection (My.handle root cwd (req :: reqs) (My.new cwd)) = true
  /\ My.serve root cwd (req :: reqs) = My.respond root cwd req.
Proof.
  split; [|apply serve_one].
  unfold My.handle, Base.handle.
  change (set_close_connection (My.new cwd) true) with (My.new cwd).
  cbn [Base.handle_requests].
  change (Base.handle_one_request My.end_headers (My.do_ root cwd)
            Simple.server_version)
    with (My.handle_one_request root cwd).
  pose proof (proj1 (handle_one_request_sent root cwd req (My.new cwd) eq_refl))
    as E.
  rewrite E. exact E.
Qed.

(** A request line that is too long.  When the request line has more than
    65536 bytes, nothing of it is parsed: the response is status 414
    [Request-URI Too Long] with the header of the script and the error
    page. *)
Theorem too_long_request_line_gets_414 (req : request) :
  (65536 < Z.of_nat (String.length (raw_requestline req)))%Z ->
  My.respond root cwd req
  = error_reply false HTTPStatus.REQUEST_URI_TOO_LONG "Request-URI Too Long"
      "URI is too long".
Proof.
  intro Hlen. apply Z.ltb_lt in Hlen.
  unfold My.respond, My.handle_one_request, Base.handle_one_request.
  rewrite Hlen.
  cbv zeta.
  match goal with
  | |- wfile (Base.send_error _ _ ?c ?m ?e ?h) = _ =>
      rewrite (send_error_reply c m e (My.new cwd) h)
  end; [reflexivity|repeat split|reflexivity..].
Qed.

(** A request line without a word.  When the client sends nothing, or a
    line of white space only, the handler writes nothing at all and the
    connection is closed. *)
Theorem blank_request_line_gets_no_response (req : request) :
  (Z.of_nat (String.length (raw_requestline req)) <= 65536)%Z ->
  request_words req = [] ->
  My.respond root cwd req = []
  /\ close_connection (My.handle_one_request root cwd req (My.new cwd)) = true.
Proof.
  intros Hlen Hw. apply Z.ltb_ge in Hlen.
  unfold My.respond, My.handle_one_request, Base.handle_one_request.
  rewrite Hlen.
  destruct (raw_requestline req =? ""); [split; reflexivity|].
  unfold Base.parse_request. cbv zeta.
  unfold request_words in Hw. rewrite Hw. cbn. split; reflexivity.
Qed.


(** The handler in which [parse_request] reads the request line *)
Lemma parse_request_words req h :
  Base.parse_request My.end_headers Simple.server_version req h
  = let h := set_close_connection
               (set_request_version (set_command h None) "HTTP/0.9") true in
    let words := request_words req in
    if (length words =? 0)%nat then (false, h)
    else
      match Base.parse_request_version My.end_headers Simple.server_version
              words h with
      | inl h => (false, h)
      | inr h =>
          if negb ((2 <=? length words)%nat && (length words <=? 3)%nat) then
            (false,
             Base.send_error My.end_headers Simple.server_version
               HTTPStatus.BAD_REQUEST
               (Some ("Bad request syntax ("
                      ++ py_repr (PyStr.rstrip_by PyStr.is_crlf (raw_requestline req))
                      ++ ")"))
               None h)
          else
            let command := nth 0 words "" in
            let path := nth 1 words "" in
            let h := if (length words =? 2)%nat
                     then set_close_connection h true else h in
            if (length words =? 2)%nat && negb (command =? "GET") then
              (false,
               Base.send_error My.end_headers Simple.server_version
                 HTTPStatus.BAD_REQUEST
                 (Some ("Bad HTTP/0.9 request type (" ++ py_repr command ++ ")"))
                 None h)
            else
              let h := set_command h (Some command) in
              let h := set_path h path in
              let h :=
                if PyStr.startswith path "//"
                then set_path h
                       ("/" ++ PyStr.lstrip_by (fun c => Ascii.eqb c "/") path)
                else h in
              Base.parse_request_headers My.end_headers Simple.server_version
                (header_lines req) h
      end.
Proof. reflexivity. Qed.

(** What is handled of a request line that has a word *)
Lemma handle_one_request_words req :
  (Z.of_nat (String.length (raw_requestline req)) <= 65536)%Z ->
  request_words req <> [] ->
  My.handle_one_request root cwd req (My.new cwd)
  = let (ok, h) := Base.parse_request My.end_headers Simple.server_version req
                     (My.new cwd) in
    if negb ok then h
    else
      match My.do_ root cwd (option_default "" (command h)) with
      | None =>
          Base.send_error My.end_headers Simple.server_version
            HTTPStatus.NOT_IMPLEMENTED
            (Some ("Unsupported method ("
                   ++ py_repr (option_default "" (command h)) ++ ")"))
            None h
      | Some method => method h
      end.
Proof.
  intros Hlen Hw. apply Z.ltb_ge in Hlen.
  unfold My.handle_one_request, Base.handle_one_request. rewrite Hlen.
  destruct (raw_requestline req =? "") eqn:E; [|reflexivity].
  apply String.eqb_eq in E. exfalso. apply Hw.
  unfold request_words. rewrite E. reflexivity.
Qed.

Lemma words_not_nil req n :
  (S n <= length (request_words req))%nat -> request_words req <> [].
Proof. intros H E. rewrite E in H. cbn in H. lia. Qed.

(** A version that cannot be read.  When the request line has three words
    or more and the last is not [HTTP/] followed by two numbers with a dot
    between them, the request is refused before its version is recorded:
    what is written is the page of the error 400 alone, without status
    line and without any header. *)
Theorem unreadable_version_gets_a_bare_page (req : request) :
  (Z.of_nat (String.length (raw_requestline req)) <= 65536)%Z ->
  (3 <= length (request_words req))%nat ->
  Base.parse_version (last (request_words req) "") = None ->
  My.respond root cwd req
  = [ Body
        (error_page HTTPStatus.BAD_REQUEST
           ("Bad request version (" ++ py_repr (last (request_words req) "")
            ++ ")")
           "Bad request syntax or unsupported method") ].
Proof.
  intros Hlen H3 Hpv.
  unfold My.respond.
  rewrite (handle_one_request_words req Hlen (words_not_nil req 2 H3)).
  rewrite parse_request_words. cbv zeta.
  destruct (length (request_words req) =? 0)%nat eqn:E0.
  { apply Nat.eqb_eq in E0. lia. }
  unfold Base.parse_request_version.
  apply Nat.leb_le in H3. rewrite H3. cbv zeta. rewrite Hpv. cbn [negb].
  apply send_error_bare; reflexivity.
Qed.

(** A version from 2.0 on.  When the request line has three words or more
    and the last is a version of HTTP from 2.0 on, the request is refused
    before its version is recorded: what is written is the page of the
    error 505 alone, without status line and without any header. *)
Theorem version_2_gets_a_bare_page (req : request) (number : string)
    (version : Z * Z) :
  (Z.of_nat (String.length (raw_requestline req)) <= 65536)%Z ->
  (3 <= length (request_words req))%nat ->
  Base.parse_version (last (request_words req) "") = Some (number, version) ->
  Base.tuple_ge version (2, 0)%Z = true ->
  My.respond root cwd req
  = [ Body
        (error_page HTTPStatus.HTTP_VERSION_NOT_SUPPORTED
           ("Invalid HTTP version (" ++ number ++ ")")
           "Cannot fulfill request") ].
Proof.
  intros Hlen H3 Hpv Hge.
  unfold My.respond.
  rewrite (handle_one_request_words req Hlen (words_not_nil req 2 H3)).
  rewrite parse_request_words. cbv zeta.
  destruct (length (request_words req) =? 0)%nat eqn:E0.
  { apply Nat.eqb_eq in E0. lia. }
  unfold Base.parse_request_version.
  apply Nat.leb_le in H3. rewrite H3. cbv zeta. rewrite Hpv.
  rewrite old_protocol, andb_false_r, Hge. cbn [negb].
  apply send_error_bare; reflexivity.
Qed.

(** A request line of one word is refused before any version is recorded:
    what is written is the page of the error 400 alone. *)
Theorem one_word_request_gets_a_bare_page (req : request) (word : string) :
  (Z.of_nat (String.length (raw_requestline req)) <= 65536)%Z ->
  request_words req = [word] ->
  My.respond root cwd req
  = [ Body
        (error_page HTTPStatus.BAD_REQUEST
           ("Bad request syntax ("
            ++ py_repr (PyStr.rstrip_by PyStr.is_crlf (raw_requestline req))
            ++ ")")
           "Bad request syntax or unsupported method") ].
Proof.
  intros Hlen Hw.
  unfold My.respond.
  rewrite (handle_one_request_words req Hlen); [|rewrite Hw; discriminate].
  rewrite parse_request_words. cbv zeta. rewrite Hw.
  unfold Base.parse_request_version.
  cbn [length Nat.eqb Nat.leb negb andb].
  apply send_error_bare; reflexivity.
Qed.


(** [parse_request] on a request line of three words with a version below
    2.0 goes on to the header fields *)
Lemma parse_request_three req h c p v number version :
  request_words req = [c; p; v] ->
  Base.parse_version v = Some (number, version) ->
  Base.tuple_ge version (2, 0)%Z = false ->
  Base.parse_request My.end_headers Simple.server_version req h
  = let h := set_close_connection
               (set_request_version (set_command h None) "HTTP/0.9") true in
    let h := set_path (set_command (set_request_version h v) (Some c)) p in
    let h :=
      if PyStr.startswith p "//"
      then set_path h ("/" ++ PyStr.lstrip_by (fun c => Ascii.eqb c "/") p)
      else h in
    Base.parse_request_headers My.end_headers Simple.server_version
      (header_lines req) h.
Proof.
  intros Hw Hpv Hge. rewrite parse_request_words. cbv zeta. rewrite Hw.
  unfold Base.parse_request_version.
  cbn [length Nat.eqb Nat.leb negb andb last nth]. cbv zeta.
  rewrite Hpv, old_protocol, andb_false_r, Hge. reflexivity.
Qed.

(** Header fields that cannot be read.  For a request line of a method, a
    target and a version below 2.0 other than HTTP/0.9, when a header line
    is too long or there are too many headers, the response is status 431
    with the header of the script; the page, which has the text of the
    error, is left out for a [HEAD]. *)
Theorem unreadable_headers_get_431 (req : request) (c p v number : string)
    (version : Z * Z) :
  (Z.of_nat (String.length (raw_requestline req)) <= 65536)%Z ->
  request_words req = [c; p; v] ->
  Base.parse_version v = Some (number, version) ->
  Base.tuple_ge version (2, 0)%Z = false ->
  v <> "HTTP/0.9" ->
  (forall err, header_lines req = LineTooLong err ->
     My.respond root cwd req
     = error_reply (c =? "HEAD") HTTPStatus.REQUEST_HEADER_FIELDS_TOO_LARGE
         "Line too long" err)
  /\ (forall err, header_lines req = TooManyHeaders err ->
        My.respond root cwd req
        = error_reply (c =? "HEAD") HTTPStatus.REQUEST_HEADER_FIELDS_TOO_LARGE
            "Too many headers" err).
Proof.
  intros Hlen Hw Hpv Hge Hv.
  assert (Hne : request_words req <> []) by (rewrite Hw; discriminate).
  split; intros err He; unfold My.respond;
    rewrite (handle_one_request_words req Hlen Hne);
    rewrite (parse_request_three req _ c p v number version Hw Hpv Hge);
    cbv zeta; rewrite He; unfold Base.parse_request_headers; cbn [negb].
  all: match goal with
       | |- wfile (Base.send_error _ _ ?code ?m ?e ?h) = _ =>
           rewrite (send_error_reply code m e (My.new cwd) h)
       end.
  all: try reflexivity.
  all: try (destruct (PyStr.startswith p "//"); repeat split).
  all: try (destruct (PyStr.startswith p "//"); reflexivity).
  all: apply String.eqb_neq in Hv;
    destruct (PyStr.startswith p "//"); exact Hv.
Qed.







(** *** [HEAD] and [GET] *)

Lemma headers_only_app a b :
  headers_only (a ++ b) = (headers_only a ++ headers_only b)%list.
Proof. apply filter_app. Qed.

Lemma emit_set_command h c lines :
  emit (set_command h c) lines = set_command (emit h lines) c.
Proof.
  unfold emit, v09. cbn [request_version set_command].
  destruct (request_version h =? "HTTP/0.9"); reflexivity.
Qed.

Lemma write_error_body_headers body h :
  headers_only (wfile (write_error_body body h)) = headers_only (wfile h).
Proof.
  unfold write_error_body. destruct body as [b|]; [|reflexivity].
  destruct (_ && _); [|reflexivity].
  unfold wfile_write, list_append. cbn [wfile set_wfile].
  rewrite headers_only_app. cbn. apply app_nil_r.
Qed.

Lemma send_error_set_command code message explain h c :
  headers_only
    (wfile (Base.send_error My.end_headers Simple.server_version code message
              explain (set_command h c)))
  = headers_only
      (wfile (Base.send_error My.end_headers Simple.server_version code message
                explain h)).
Proof.
  rewrite !send_error_emit. cbv zeta. rewrite !write_error_body_headers.
  change (set_close_connection (set_command h c) true)
    with (set_command (set_close_connection h true) c).
  rewrite emit_set_command. reflexivity.
Qed.

Lemma send_file_head_set_command path h c :
  fst (Simple.send_file_head My.end_headers root cwd path (set_command h c))
  = fst (Simple.send_file_head My.end_headers root cwd path h)
  /\ headers_only
       (wfile (snd (Simple.send_file_head My.end_headers root cwd path
                      (set_command h c))))
     = headers_only
         (wfile (snd (Simple.send_file_head My.end_headers root cwd path h))).
Proof.
  rewrite !send_file_head_eq. unfold not_found.
  change (headers (set_command h c)) with (headers h).
  destruct (PyStr.endswith path "/").
  { cbn [fst snd]. split; [reflexivity|apply send_error_set_command]. }
  destruct (Os.open_rb root cwd path) as [e|[data mtime]].
  { cbn [fst snd]. split; [reflexivity|apply send_error_set_command]. }
  destruct (Simple.not_modified (headers h) mtime); cbn [fst snd];
    rewrite emit_set_command; split; reflexivity.
Qed.

Lemma list_directory_set_command path h c :
  fst (Simple.list_directory My.end_headers root cwd path (set_command h c))
  = fst (Simple.list_directory My.end_headers root cwd path h)
  /\ headers_only
       (wfile (snd (Simple.list_directory My.end_headers root cwd path
                      (set_command h c))))
     = headers_only
         (wfile (snd (Simple.list_directory My.end_headers root cwd path h))).
Proof.
  rewrite !list_directory_eq.
  destruct (Os.listdir root cwd path) as [e|names].
  { cbn [fst snd]. split; [reflexivity|apply send_error_set_command]. }
  cbn [fst snd].
  change (listing_of root cwd path (set_command h c) names)
    with (listing_of root cwd path h names).
  rewrite emit_set_command. split; reflexivity.
Qed.

Lemma send_head_set_command h c :
  fst (Simple.send_head My.end_headers root cwd (set_command h c))
  = fst (Simple.send_head My.end_headers root cwd h)
  /\ headers_only
       (wfile (snd (Simple.send_head My.end_headers root cwd (set_command h c))))
     = headers_only (wfile (snd (Simple.send_head My.end_headers root cwd h))).
Proof.
  rewrite !send_head_eq. cbv zeta.
  change (self_path (set_command h c)) with (self_path h).
  change (Simple.translate_path (set_command h c) (self_path h))
    with (Simple.translate_path h (self_path h)).
  destruct (Os.path_isdir root cwd _); [|apply send_file_head_set_command].
  destruct (negb _).
  { cbn [fst snd]. rewrite emit_set_command. split; reflexivity. }
  destruct (Simple.find_index root cwd _) as [index|].
  - apply send_file_head_set_command.
  - apply list_directory_set_command.
Qed.

Lemma emit_headers_only h lines :
  wfile h = [] -> headers_only (wfile (emit h lines)) = wfile (emit h lines).
Proof.
  intro Hw. rewrite (emit_wfile h lines Hw). destruct (v09 h); reflexivity.
Qed.

Lemma send_error_of_head code message explain h :
  is_head h = true -> wfile h = [] ->
  headers_only
    (wfile (Base.send_error My.end_headers Simple.server_version code message
              explain h))
  = wfile (Base.send_error My.end_headers Simple.server_version code message
             explain h).
Proof.
  intros Hh Hw. rewrite send_error_emit. cbv zeta.
  assert (E : forall body X, command X = command h ->
                write_error_body body X = X).
  { intros body X HX. unfold write_error_body. destruct body as [b|]; [|reflexivity].
    rewrite HX. fold (is_head h). rewrite Hh. reflexivity. }
  rewrite E by (rewrite emit_command; reflexivity).
  apply emit_headers_only. exact Hw.
Qed.

Lemma send_head_of_head h :
  is_head h = true -> wfile h = [] ->
  headers_only (wfile (snd (Simple.send_head My.end_headers root cwd h)))
  = wfile (snd (Simple.send_head My.end_headers root cwd h)).
Proof.
  intros Hh Hw. rewrite send_head_eq. cbv zeta.
  assert (F : forall path,
            headers_only
              (wfile (snd (Simple.send_file_head My.end_headers root cwd path h)))
            = wfile (snd (Simple.send_file_head My.end_headers root cwd path h))).
  { intro path. rewrite send_file_head_eq. unfold not_found.
    destruct (PyStr.endswith path "/");
      [apply send_error_of_head; assumption|].
    destruct (Os.open_rb root cwd path) as [e|[data mtime]];
      [apply send_error_of_head; assumption|].
    destruct (Simple.not_modified (headers h) mtime); cbn [snd];
      apply emit_headers_only; exact Hw. }
  destruct (Os.path_isdir root cwd _); [|apply F].
  destruct (negb _); [cbn [snd]; apply emit_headers_only; exact Hw|].
  destruct (Simple.find_index root cwd _) as [index|]; [apply F|].
  rewrite list_directory_eq.
  destruct (Os.listdir root cwd _) as [e|names]; cbn [snd].
  - apply send_error_of_head; assumption.
  - apply emit_headers_only; exact Hw.
Qed.

Lemma do_GET_headers h :
  headers_only (wfile (My.do_GET root cwd h))
  = headers_only (wfile (snd (Simple.send_head My.end_headers root cwd h))).
Proof.
  unfold My.do_GET, Simple.do_GET.
  destruct (Simple.send_head My.end_headers root cwd h) as [[data|] h'];
    [|reflexivity].
  cbn [snd]. unfold Simple.copyfile. destruct (data =? ""); [reflexivity|].
  unfold wfile_write, list_append. cbn [wfile set_wfile].
  rewrite headers_only_app. cbn. apply app_nil_r.
Qed.

(** The response to a [HEAD] is that to the [GET] without the body.  For
    two requests the server accepts that differ in the method only, one
    [HEAD] and one [GET], what is written for the [HEAD] is the header
    block written for the [GET]: the same status line and headers, the
    length of the body the [GET] has among them, and no body, for a file,
    a listing, a redirection and an error alike. *)
Theorem head_response_is_the_get_response_without_body
    (req_head req_get : request) (h : handler) :
  accepts cwd req_head (set_command h (Some "HEAD")) ->
  accepts cwd req_get (set_command h (Some "GET")) ->
  My.respond root cwd req_head = headers_only (My.respond root cwd req_get).
Proof.
  intros Hh Hg. unfold My.respond.
  rewrite (accepts_handle root cwd req_head _ Hh).
  rewrite (accepts_handle root cwd req_get _ Hg).
  cbn [command set_command option_default].
  change (My.do_ root cwd "HEAD") with (Some (My.do_HEAD root cwd)).
  change (My.do_ root cwd "GET") with (Some (My.do_GET root cwd)).
  cbv iota. rewrite do_GET_headers.
  rewrite (proj2 (send_head_set_command h (Some "GET"))).
  rewrite <- (proj2 (send_head_set_command h (Some "HEAD"))).
  rewrite send_head_of_head;
    [|reflexivity|apply (accepts_clean cwd req_head _ Hh)].
  unfold My.do_HEAD, Simple.do_HEAD.
  destruct (Simple.send_head _ _ _ _); reflexivity.
Qed.


(** *** The length of the body *)

(** the header block alone is out, with the length of [data] in it *)
Lemma sized_head_body (w : list chunk) (data : string) :
  (w = [] \/ exists lines, w = [Headers lines] /\ In (length_line data) lines) ->
  sized (w ++ [Body data])%list.
Proof.
  intros [->|(lines & -> & Hin)].
  - right; left. exists data. reflexivity.
  - right; right; right. exists lines, data. split; [reflexivity|exact Hin].
Qed.

Lemma sized_head (w : list chunk) :
  (w = [] \/ exists lines, w = [Headers lines]) -> sized w.
Proof.
  intros [->|(lines & ->)]; [left; reflexivity|].
  right; right; left. exists lines. reflexivity.
Qed.

Lemma emit_head h lines :
  wfile h = [] ->
  wfile (emit h lines) = []
  \/ exists block,
       wfile (emit h lines) = [Headers block]
       /\ forall line, In line lines -> In line block.
Proof.
  intro Hw. rewrite (emit_wfile h lines Hw). destruct (v09 h).
  - left; reflexivity.
  - right. eexists. split; [reflexivity|]. intros line Hin.
    apply in_or_app. right. apply in_or_app. left. exact Hin.
Qed.

Lemma emit_sized h lines : wfile h = [] -> sized (wfile (emit h lines)).
Proof.
  intro Hw. apply sized_head.
  destruct (emit_head h lines Hw) as [E|(block & E & _)];
    [left; exact E|right; exists block; exact E].
Qed.

Lemma send_error_sized code message explain h :
  wfile h = [] ->
  sized (wfile (Base.send_error My.end_headers Simple.server_version code
                  message explain h)).
Proof.
  intro Hw. rewrite send_error_emit. cbv zeta.
  assert (Hw' : wfile (set_close_connection h true) = []) by exact Hw.
  destruct (error_body code (error_message code message)
              (error_explain code explain)) as [b|].
  2:{ cbn [write_error_body]. apply emit_sized. exact Hw'. }
  unfold write_error_body. destruct (_ && _); [|apply emit_sized; exact Hw'].
  unfold wfile_write, list_append. cbn [wfile set_wfile].
  apply sized_head_body.
  destruct (emit_head (set_close_connection h true)
              (error_head code (error_message code message) (Some b)) Hw')
    as [E|(block & E & Hin)]; [left; exact E|right].
  exists block. split; [exact E|]. apply Hin.
  unfold error_head. apply in_or_app. right. apply in_or_app. right.
  right. left. reflexivity.
Qed.

Lemma send_file_head_sized path h :
  wfile h = [] ->
  head_sized (Simple.send_file_head My.end_headers root cwd path h).
Proof.
  intro Hw. rewrite send_file_head_eq. unfold not_found, head_sized.
  destruct (PyStr.endswith path "/");
    [cbn [fst snd]; apply send_error_sized; exact Hw|].
  destruct (Os.open_rb root cwd path) as [e|[data mtime]];
    [cbn [fst snd]; apply send_error_sized; exact Hw|].
  destruct (Simple.not_modified (headers h) mtime); cbn [fst snd].
  - apply emit_sized; exact Hw.
  - destruct (emit_head h (file_head path data mtime) Hw)
      as [E|(block & E & Hin)]; [left; exact E|right].
    exists block. split; [exact E|]. apply Hin.
    unfold file_head. apply in_or_app. right. right. left. reflexivity.
Qed.

Lemma list_directory_sized path h :
  wfile h = [] ->
  head_sized (Simple.list_directory My.end_headers root cwd path h).
Proof.
  intro Hw. rewrite list_directory_eq. unfold head_sized.
  destruct (Os.listdir root cwd path) as [e|names]; cbn [fst snd].
  - apply send_error_sized; exact Hw.
  - destruct (emit_head h (listing_head (listing_of root cwd path h names)) Hw)
      as [E|(block & E & Hin)]; [left; exact E|right].
    exists block. split; [exact E|]. apply Hin.
    unfold listing_head. apply in_or_app. right. right. left. reflexivity.
Qed.

Lemma send_head_sized h :
  wfile h = [] -> head_sized (Simple.send_head My.end_headers root cwd h).
Proof.
  intro Hw. rewrite send_head_eq. cbv zeta.
  destruct (Os.path_isdir root cwd _); [|apply send_file_head_sized; exact Hw].
  destruct (negb _).
  { unfold head_sized. cbn [fst snd]. apply emit_sized; exact Hw. }
  destruct (Simple.find_index root cwd _) as [index|].
  - apply send_file_head_sized; exact Hw.
  - apply list_directory_sized; exact Hw.
Qed.

Lemma do_GET_sized h : wfile h = [] -> sized (wfile (My.do_GET root cwd h)).
Proof.
  intro Hw. pose proof (send_head_sized h Hw) as H.
  unfold My.do_GET, Simple.do_GET, head_sized in *.
  destruct (Simple.send_head My.end_headers root cwd h) as [[data|] h'];
    cbn [fst snd] in H; [|exact H].
  unfold Simple.copyfile. destruct (data =? "").
  - apply sized_head. destruct H as [E|(lines & E & _)];
      [left; exact E|right; exists lines; exact E].
  - unfold wfile_write, list_append. cbn [wfile set_wfile].
    apply sized_head_body. exact H.
Qed.

Lemma do_HEAD_sized h : wfile h = [] -> sized (wfile (My.do_HEAD root cwd h)).
Proof.
  intro Hw. pose proof (send_head_sized h Hw) as H.
  unfold My.do_HEAD, Simple.do_HEAD, head_sized in *.
  destruct (Simple.send_head My.end_headers root cwd h) as [[data|] h'];
    cbn [fst snd] in H; [|exact H].
  apply sized_head. destruct H as [E|(lines & E & _)];
    [left; exact E|right; exists lines; exact E].
Qed.

Lemma parse_request_sized req h :
  wfile h = [] ->
  parse_sized (Base.parse_request My.end_headers Simple.server_version req h).
Proof.
  intro Hw. rewrite parse_request_words. cbv zeta.
  set (h1 := set_close_connection _ true).
  assert (W1 : wfile h1 = []) by exact Hw. clearbody h1.
  destruct (length (request_words req) =? 0)%nat.
  { left. exact W1. }
  unfold Base.parse_request_version.
  assert (V : match
                (if (3 <=? length (request_words req))%nat
                 then
                   match Base.parse_version (last (request_words req) "") with
                   | Some (base_version_number, version_number) =>
                       if Base.tuple_ge version_number (2, 0)%Z
                       then
                         inl (Base.send_error My.end_headers Simple.server_version
                                HTTPStatus.HTTP_VERSION_NOT_SUPPORTED
                                (Some ("Invalid HTTP version ("
                                       ++ base_version_number ++ ")")) None
                                (if Base.tuple_ge version_number (1, 1)%Z
                                    && ("HTTP/1.1" <=? Base.protocol_version)
                                 then set_close_connection h1 false else h1))
                       else
                         inr (set_request_version
                                (if Base.tuple_ge version_number (1, 1)%Z
                                    && ("HTTP/1.1" <=? Base.protocol_version)
                                 then set_close_connection h1 false else h1)
                                (last (request_words req) ""))
                   | None =>
                       inl (Base.send_error My.end_headers Simple.server_version
                              HTTPStatus.BAD_REQUEST
                              (Some ("Bad request version ("
                                     ++ py_repr (last (request_words req) "")
                                     ++ ")")) None h1)
                   end
                 else inr h1)
              with
              | inl h2 => sized (wfile h2)
              | inr h2 => wfile h2 = []
              end).
  { destruct (3 <=? _)%nat; [|exact W1].
    destruct (Base.parse_version _) as [[number version]|];
      [|apply send_error_sized; exact W1].
    rewrite old_protocol, andb_false_r.
    destruct (Base.tuple_ge version (2, 0)%Z);
      [apply send_error_sized; exact W1|exact W1]. }
  cbv zeta.
  match type of V with
  | match ?x with _ => _ end => destruct x as [h2|h2]
  end.
  { exact V. }
  destruct (negb _).
  { apply send_error_sized; exact V. }
  set (h3 := if (length (request_words req) =? 2)%nat
             then set_close_connection h2 true else h2).
  assert (W3 : wfile h3 = [])
    by (unfold h3; destruct (_ =? 2)%nat; exact V).
  clearbody h3.
  destruct (_ && negb _).
  { apply send_error_sized; exact W3. }
  match goal with
  | |- parse_sized (Base.parse_request_headers _ _ _ ?h4) =>
      assert (W4 : wfile h4 = [])
        by (destruct (PyStr.startswith _ "//"); exact W3);
      generalize dependent h4
  end.
  intros h4 W4. unfold Base.parse_request_headers.
  destruct (header_lines req) as [fields|err|err].
  - cbv zeta. rewrite old_protocol, !andb_false_r. cbn [andb].
    unfold parse_sized. cbn [fst snd].
    destruct (PyStr.lower _ =? "close"); exact W4.
  - apply send_error_sized; exact W4.
  - apply send_error_sized; exact W4.
Qed.

Lemma handle_one_request_sized req h :
  wfile h = [] -> sized (wfile (My.handle_one_request root cwd req h)).
Proof.
  intro Hw. unfold My.handle_one_request, Base.handle_one_request.
  destruct (65536 <? _)%Z; [apply send_error_sized; exact Hw|].
  destruct (raw_requestline req =? ""); [left; exact Hw|].
  pose proof (parse_request_sized req h Hw) as Hp. unfold parse_sized in Hp.
  destruct (Base.parse_request My.end_headers Simple.server_version req h)
    as [ok h1].
  cbn [fst snd] in Hp. destruct ok; cbn [negb]; [|exact Hp].
  unfold My.do_.
  destruct (_ =? "GET"); [apply do_GET_sized; exact Hp|].
  destruct (_ =? "HEAD"); [apply do_HEAD_sized; exact Hp|].
  apply send_error_sized; exact Hp.
Qed.

(** The length in the header block is the length of the body.  Whatever
    the request is, what the handler writes for it is nothing, a body
    alone, a header block alone, or a header block followed by one body;
    and then the header block has the line [Content-Length] with the
    number of bytes of that body. *)
Theorem content_length_is_the_length_of_the_body (req : request) :
  My.respond root cwd req = []
  \/ (exists b, My.respond root cwd req = [Body b])
  \/ (exists lines, My.respond root cwd req = [Headers lines])
  \/ (exists lines b,
        My.respond root cwd req = [Headers lines; Body b]
        /\ In (Base.header_line "Content-Length"
                 (PyStr.str_of_Z (Z.of_nat (String.length b)))) lines).
Proof. exact (handle_one_request_sized req (My.new cwd) eq_refl). Qed.

End MoreResponses.

(** * More on paths and pages: the query, the order of a listing, escapes *)

Lemma before_app_sep sep a b :
  PyStr.before sep (a ++ String sep b) = PyStr.before sep a.
Proof.
  induction a as [|c a IH]; cbn.
  - rewrite Ascii.eqb_refl. reflexivity.
  - destruct (Ascii.eqb c sep); [reflexivity|]. rewrite IH. reflexivity.
Qed.

Lemma before_fragment a b :
  PyStr.before "#" (PyStr.before "?" (a ++ String "#" b))
  = PyStr.before "#" (PyStr.before "?" a).
Proof.
  induction a as [|c a IH]; [reflexivity|].
  cbn [append PyStr.before].
  destruct (Ascii.eqb c "?"); [reflexivity|].
  cbn [PyStr.before]. destruct (Ascii.eqb c "#"); [reflexivity|].
  rewrite IH. reflexivity.
Qed.

Section MorePaths.

Context {L : StdLib}.

(** The query and the fragment of a target play no part in the path.
    Whatever follows a [?] or a [#] appended to a target, [translate_path]
    gives the path it gives for the target alone. *)
Theorem query_and_fragment_are_ignored (h : handler)
    (target query fragment : string) :
  Simple.translate_path h (target ++ "?" ++ query)
  = Simple.translate_path h target
  /\ Simple.translate_path h (target ++ "#" ++ fragment)
     = Simple.translate_path h target.
Proof.
  unfold Simple.translate_path. cbv zeta. split.
  - change (target ++ "?" ++ query) with (target ++ String "?" query).
    rewrite before_app_sep. reflexivity.
  - change (target ++ "#" ++ fragment) with (target ++ String "#" fragment).
    rewrite before_fragment. reflexivity.
Qed.

(** The type of a file is never empty: where the extension is not in the
    map of the handler and [mimetypes] has no guess or an empty one, the
    type is [application/octet-stream]. *)
Theorem content_type_is_never_empty (path : string) :
  (Simple.guess_type path =? "") = false.
Proof.
  unfold Simple.guess_type. cbv zeta.
  assert (A : forall ext t,
            FS.assoc ext Simple.extensions_map = Some t -> (t =? "") = false).
  { intros ext t. unfold Simple.extensions_map. cbn [FS.assoc].
    repeat (destruct (ext =? _);
            [intro H; injection H as <-; reflexivity|]).
    discriminate. }
  destruct (FS.assoc (snd (posixpath.splitext path)) Simple.extensions_map)
    as [t|] eqn:E1; [exact (A _ _ E1)|].
  destruct (FS.assoc (PyStr.lower _) Simple.extensions_map)
    as [t|] eqn:E2; [exact (A _ _ E2)|].
  destruct (mimetypes_guess_type path) as [guess|]; [|reflexivity].
  destruct (guess =? "") eqn:E3; [reflexivity|exact E3].
Qed.

End MorePaths.

Lemma contains_app c a b :
  PyStr.contains c (a ++ b) = PyStr.contains c a || PyStr.contains c b.
Proof.
  induction a as [|x a IH]; [reflexivity|].
  cbn. rewrite IH. apply orb_assoc.
Qed.

Lemma replace_removes c r s :
  PyStr.contains c r = false -> PyStr.contains c (PyStr.replace c r s) = false.
Proof.
  intro Hr. induction s as [|a s IH]; [reflexivity|].
  cbn [PyStr.replace]. destruct (Ascii.eqb a c) eqn:E.
  - rewrite contains_app, Hr, IH. reflexivity.
  - cbn [PyStr.contains]. rewrite E, IH. reflexivity.
Qed.

Lemma replace_keeps_out c d r s :
  PyStr.contains c r = false -> PyStr.contains c s = false ->
  PyStr.contains c (PyStr.replace d r s) = false.
Proof.
  intro Hr. induction s as [|a s IH]; [reflexivity|].
  cbn [PyStr.contains PyStr.replace]. intro H.
  apply orb_false_iff in H. destruct H as [Ha Hs].
  destruct (Ascii.eqb a d).
  - rewrite contains_app, Hr, (IH Hs). reflexivity.
  - cbn [PyStr.contains]. rewrite Ha, (IH Hs). reflexivity.
Qed.

Lemma html_escape_no_angle_bracket (s : string) :
  PyStr.contains "<" (html_escape s) = false
  /\ PyStr.contains ">" (html_escape s) = false.
Proof.
  unfold html_escape. split.
  - apply replace_keeps_out; [reflexivity|].
    apply replace_removes. reflexivity.
  - apply replace_removes. reflexivity.
Qed.

Lemma occurrences_app c a b :
  occurrences c (a ++ b) = (occurrences c a + occurrences c b)%nat.
Proof.
  induction a as [|x a IH]; [reflexivity|].
  cbn. rewrite IH. apply Nat.add_assoc.
Qed.

Lemma occurrences_none c s :
  PyStr.contains c s = false -> occurrences c s = 0%nat.
Proof.
  induction s as [|a s IH]; [reflexivity|].
  cbn. intro H. apply orb_false_iff in H. destruct H as [Ha Hs].
  rewrite Ha, (IH Hs). reflexivity.
Qed.

Lemma occurrences_error_message_format c code message explain :
  occurrences c (Base.error_message_format code message explain)
  = (occurrences c (Base.error_message_format code "" "")
     + occurrences c message + occurrences c explain)%nat.
Proof.
  unfold Base.error_message_format. rewrite !occurrences_app.
  change (occurrences c "") with 0%nat. lia.
Qed.

Lemma occurrences_error_page c code message explain :
  c = "<"%char \/ c = ">"%char ->
  occurrences c (error_page code message explain)
  = occurrences c (error_page code "" "").
Proof.
  intro Hc. unfold error_page.
  change (html_escape "") with "".
  rewrite (occurrences_error_message_format c code (html_escape message)).
  assert (Z0 : forall s, occurrences c (html_escape s) = 0%nat).
  { intro s0. apply occurrences_none.
    destruct Hc as [->| ->]; apply html_escape_no_angle_bracket. }
  rewrite !Z0. lia.
Qed.

Section MorePages.

Context {L : StdLib}.

(** An error page has only the markup of its own.  Whatever the code, the
    message and the explanation of an error are, and whatever text of the
    request they carry, a page that [send_error] writes has as many [<]
    and as many [>] as the page of that code with an empty message and
    explanation: the message and the explanation go through [html.escape]
    and bring no tag into the page. *)
Theorem error_page_has_only_its_own_markup (code : Z)
    (message explain : option string) (h : handler) (page : string) :
  wfile h = [] ->
  In (Body page)
    (wfile (Base.send_error My.end_headers Simple.server_version code message
              explain h)) ->
  occurrences "<" page = occurrences "<" (error_page code "" "")
  /\ occurrences ">" page = occurrences ">" (error_page code "" "").
Proof.
  intros Hw Hin. rewrite send_error_emit in Hin. cbv zeta in Hin.
  assert (Hw' : wfile (set_close_connection h true) = []) by exact Hw.
  assert (Hh : forall lines b,
            ~ In (Body b) (wfile (emit (set_close_connection h true) lines))).
  { intros lines b. rewrite (emit_wfile _ lines Hw').
    destruct (v09 _); cbn; [intros []|intros [H|[]]; discriminate]. }
  assert (P : page
              = error_page code (error_message code message)
                  (error_explain code explain)).
  { unfold error_body in Hin. fold (has_page code) in Hin.
    destruct (has_page code); unfold write_error_body in Hin.
    - destruct (_ && _); [|exfalso; exact (Hh _ _ Hin)].
      unfold wfile_write, list_append in Hin. cbn [wfile set_wfile] in Hin.
      apply in_app_or in Hin. destruct Hin as [Hin|[Hin|[]]].
      + exfalso; exact (Hh _ _ Hin).
      + injection Hin as <-. reflexivity.
    - exfalso; exact (Hh _ _ Hin). }
  rewrite P. split; apply occurrences_error_page; [left|right]; reflexivity.
Qed.

End MorePages.

(** *** The order of a listing *)

Lemma ascii_compare_refl a : Ascii.compare a a = Eq.
Proof. unfold Ascii.compare. apply N.compare_refl. Qed.

Lemma compare_lt_trans a : forall b c,
  String.compare a b = Lt -> String.compare b c = Lt -> String.compare a c = Lt.
Proof.
  induction a as [|x a IH]; intros [|y b] [|z c]; cbn; try discriminate;
    try reflexivity.
  destruct (Ascii.compare x y) eqn:Exy; try discriminate;
    destruct (Ascii.compare y z) eqn:Eyz; try discriminate; intros H1 H2.
  - apply Ascii.compare_eq_iff in Exy, Eyz. subst.
    rewrite ascii_compare_refl. exact (IH b c H1 H2).
  - apply Ascii.compare_eq_iff in Exy. subst. rewrite Eyz. reflexivity.
  - apply Ascii.compare_eq_iff in Eyz. subst. rewrite Exy. reflexivity.
  - unfold Ascii.compare in *. apply N.compare_lt_iff in Exy, Eyz.
    rewrite (proj2 (N.compare_lt_iff _ _) (N.lt_trans _ _ _ Exy Eyz)).
    reflexivity.
Qed.

Lemma ltb_trans a b c :
  (a <? b) = true -> (b <? c) = true -> (a <? c) = true.
Proof.
  unfold String.ltb.
  destruct (String.compare a b) eqn:E1; try discriminate.
  destruct (String.compare b c) eqn:E2; try discriminate.
  rewrite (compare_lt_trans a b c E1 E2). reflexivity.
Qed.

Lemma ltb_asym a b : (a <? b) = true -> (b <? a) = false.
Proof.
  unfold String.ltb. rewrite (String.compare_antisym b a).
  destruct (String.compare a b); try discriminate. reflexivity.
Qed.

Lemma ltb_irrefl a : (a <? a) = false.
Proof.
  destruct (a <? a) eqn:E; [|reflexivity].
  rewrite (ltb_asym a a E) in E. discriminate.
Qed.

Lemma insert_by_lower_perm x l :
  Permutation (x :: l) (Simple.insert_by_lower x l).
Proof.
  induction l as [|y l IH]; cbn; [apply Permutation_refl|].
  destruct (PyStr.lower x <? PyStr.lower y); [apply Permutation_refl|].
  eapply Permutation_trans; [apply perm_swap|].
  apply perm_skip. exact IH.
Qed.

Lemma insert_by_lower_sorted x l :
  StronglySorted not_after l ->
  StronglySorted not_after (Simple.insert_by_lower x l).
Proof.
  induction 1 as [|y l Hs IH Hy]; cbn.
  - constructor; constructor.
  - destruct (PyStr.lower x <? PyStr.lower y) eqn:E.
    + constructor; [constructor; assumption|].
      constructor; [exact (ltb_asym _ _ E)|].
      rewrite Forall_forall in *. intros z Hz. unfold not_after.
      destruct (PyStr.lower z <? PyStr.lower x) eqn:Ez; [|reflexivity].
      pose proof (ltb_trans _ _ _ Ez E) as T.
      rewrite (Hy z Hz) in T. discriminate.
    + constructor; [exact IH|].
      rewrite Forall_forall in *. intros z Hz.
      apply (Permutation_in _ (Permutation_sym (insert_by_lower_perm x l))) in Hz.
      destruct Hz as [<-|Hz]; [exact E|exact (Hy z Hz)].
Qed.

Lemma with_key_none key l :
  (forall z, In z l -> PyStr.lower z <> key) -> with_key key l = [].
Proof.
  induction l as [|z l IH]; intro H; [reflexivity|].
  unfold with_key. cbn [filter].
  rewrite (proj2 (String.eqb_neq _ _) (H z (or_introl eq_refl))).
  apply IH. intros w Hw. apply H. right. exact Hw.
Qed.

Lemma with_key_cons key a l :
  with_key key (a :: l)
  = ((if PyStr.lower a =? key then [a] else []) ++ with_key key l)%list.
Proof.
  unfold with_key. cbn [filter]. destruct (PyStr.lower a =? key); reflexivity.
Qed.

Lemma insert_by_lower_with_key key x l :
  StronglySorted not_after l ->
  with_key key (Simple.insert_by_lower x l)
  = (with_key key l ++ with_key key [x])%list.
Proof.
  induction 1 as [|y l Hs IH Hy]; [reflexivity|].
  cbn [Simple.insert_by_lower].
  destruct (PyStr.lower x <? PyStr.lower y) eqn:E.
  - rewrite (with_key_cons key x (y :: l)), (with_key_cons key x []).
    destruct (PyStr.lower x =? key) eqn:Ex.
    + apply String.eqb_eq in Ex.
      assert (N : with_key key (y :: l) = []).
      { apply with_key_none. intros z [<-|Hz] Ez.
        - rewrite Ex, Ez, ltb_irrefl in E. discriminate.
        - rewrite Forall_forall in Hy. pose proof (Hy z Hz) as Hn.
          unfold not_after in Hn. rewrite Ez, <- Ex, E in Hn. discriminate. }
      rewrite N. reflexivity.
    + cbn [app]. rewrite app_nil_r. reflexivity.
  - rewrite (with_key_cons key y (Simple.insert_by_lower x l)),
      (with_key_cons key y l), IH.
    rewrite <- app_assoc. reflexivity.
Qed.

Lemma sort_fold l : forall acc,
  StronglySorted not_after acc ->
  Permutation (acc ++ l)
    (fold_left (fun sorted x => Simple.insert_by_lower x sorted) l acc)
  /\ StronglySorted not_after
       (fold_left (fun sorted x => Simple.insert_by_lower x sorted) l acc)
  /\ forall key,
       with_key key
         (fold_left (fun sorted x => Simple.insert_by_lower x sorted) l acc)
       = (with_key key acc ++ with_key key l)%list.
Proof.
  induction l as [|x l IH]; intros acc Hs.
  - cbn. rewrite app_nil_r. split; [apply Permutation_refl|].
    split; [exact Hs|]. intro key. rewrite app_nil_r. reflexivity.
  - cbn [fold_left].
    destruct (IH (Simple.insert_by_lower x acc) (insert_by_lower_sorted x acc Hs))
      as (P & S' & K).
    split; [|split; [exact S'|]].
    + eapply Permutation_trans; [|exact P].
      eapply Permutation_trans; [apply Permutation_sym, Permutation_middle|].
      apply (Permutation_app_tail l (insert_by_lower_perm x acc)).
    + intro key. rewrite K, (insert_by_lower_with_key key x acc Hs).
      rewrite (with_key_cons key x l), (with_key_cons key x []).
      rewrite app_nil_r, <- app_assoc. reflexivity.
Qed.

(** The order of a listing.  The names of a listing are the names of the
    directory, each as often as it is there; no name comes before one whose
    lower-case form is smaller; and names with the same lower-case form
    stay in the order [os.listdir] gave them. *)
Theorem listing_is_sorted_complete_and_stable (names : list string) :
  Permutation names (Simple.sort_by_lower names)
  /\ StronglySorted not_after (Simple.sort_by_lower names)
  /\ forall key,
       with_key key (Simple.sort_by_lower names) = with_key key names.
Proof.
  destruct (sort_fold names [] (SSorted_nil _)) as (P & S' & K).
  split; [exact P|]. split; [exact S'|exact K].
Qed.

#[local] Existing Instance Sample.lib.

Example split_path : PyStr.split "/" "/a//b/" = [""; "a"; ""; "b"; ""].
Proof. reflexivity. Qed.

Example split_ws_line :
  PyStr.split_ws "GET  /x HTTP/1.1" = ["GET"; "/x"; "HTTP/1.1"].
Proof. reflexivity. Qed.

Example str_of_Z_0 : PyStr.str_of_Z 0 = "0" /\ PyStr.str_of_Z 404 = "404".
Proof. split; reflexivity. Qed.

Example normpath_dotdot :
  posixpath.normpath "/a/../../etc/passwd" = "/etc/passwd"
  /\ posixpath.normpath "//a/./b/" = "//a/b"
  /\ posixpath.normpath "a/../.." = "..".
Proof. repeat split; reflexivity. Qed.

Example splitext_names :
  posixpath.splitext "/d.x/bcrdf-v1.tar.gz" = ("/d.x/bcrdf-v1.tar", ".gz")
  /\ posixpath.splitext "/d/.profile" = ("/d/.profile", "").
Proof. split; reflexivity. Qed.

(** The scenario of the specification: the listing at start-up has
    [bcrdf-v1.bin] and not [notes.txt]. *)
Example startup_prints :
  stdout (snd (Script.python (Sample.machine Sample.root [])))
  = [ "🚀 Test server starting on http://localhost:8080";
      "📁 Serving files from: /srv/dist";
      "📋 Available files:";
      "   - bcrdf-v1.bin";
      "✅ Server ready! Press Ctrl+C to stop" ].
Proof. vm_compute. reflexivity. Qed.

Example scenario_statuses :
  status_of (Sample.answer Sample.get_file) = Some (Base.status_line 200 "OK")
  /\ bodies_of (Sample.answer Sample.get_file) = ["BINARY"]
  /\ carries_cors (Sample.answer Sample.get_file) = true
  /\ status_of (Sample.answer Sample.get_missing)
     = Some (Base.status_line 404 "File not found")
  /\ carries_cors (Sample.answer Sample.get_missing) = true.
Proof. vm_compute. repeat split. Qed.

(** ** Claim C1 *)

(** A request line of two words is handled as HTTP/0.9: the file is sent
    bare, without status line or header.  A request line of one word is
    refused, and the error page is sent bare too. *)
Lemma cors_header_missing_without_version :
  Sample.answer Sample.old_get_notes = [Body "hello"]
  /\ carries_cors (Sample.answer Sample.old_get_notes) = false
  /\ bodies_of (Sample.answer Sample.one_word)
     = [ Base.error_message_format 400 "Bad request syntax ('GET')"
           "Bad request syntax or unsupported method" ]
  /\ status_of (Sample.answer Sample.one_word) = None
  /\ carries_cors (Sample.answer Sample.one_word) = false.
Proof. vm_compute. repeat split. Qed.

Lemma header_block_ends_with_cors_witness :
  request_version
    (My.handle_one_request Sample.root Sample.served Sample.get_missing
       (My.new Sample.served)) <> "HTTP/0.9"
  /\ (My.respond Sample.root Sample.served Sample.get_missing = []
      \/ exists lines body,
           My.respond Sample.root Sample.served Sample.get_missing
           = Headers (lines ++ [cors_line; PyStr.CRLF])%list :: body
           /\ bodies body).
Proof.
  split; [vm_compute; discriminate|].
  apply (header_block_ends_with_cors Sample.root Sample.served Sample.get_missing).
  vm_compute; discriminate.
Defined.

(** ** Claim C2 *)

(** The interrupt ends the process with status 130, and not 0. *)
Lemma interrupt_exit_status_is_130 :
  fst (Script.python (Sample.machine Sample.root [Interrupt]))
  = Script.Exited 130
  /\ fst (Script.python (Sample.machine Sample.root [Interrupt]))
     <> Script.Exited 0
  /\ stderr (snd (Script.python (Sample.machine Sample.root [Interrupt])))
     = ["Traceback (most recent call last):"; "KeyboardInterrupt"].
Proof. vm_compute. repeat split. discriminate. Qed.

Lemma interrupt_closes_listener_and_kills_process_witness :
  Os.chdir (fs (Sample.machine Sample.root [Connect [Sample.get_file] None; Interrupt]))
    (cwd (Sample.machine Sample.root [Connect [Sample.get_file] None; Interrupt]))
    "dist" = inr Sample.served
  /\ Os.listdir
       (fs (Sample.machine Sample.root [Connect [Sample.get_file] None; Interrupt]))
       Sample.served "."
     = inr ["bcrdf-v1.bin"; "notes.txt"; "locked.txt"; "sub"; "site"]
  /\ may_bind (Sample.machine Sample.root [Connect [Sample.get_file] None; Interrupt])
       Script.PORT = true
  /\ TCPServer.taken
       (Sample.machine Sample.root [Connect [Sample.get_file] None; Interrupt])
       Script.PORT = false
  /\ In Interrupt
       (incoming (Sample.machine Sample.root [Connect [Sample.get_file] None; Interrupt]))
  /\ exists s',
       Script.python
         (Sample.machine Sample.root [Connect [Sample.get_file] None; Interrupt])
       = (Script.Exited 130, s')
       /\ listening s'
          = listening
              (Sample.machine Sample.root [Connect [Sample.get_file] None; Interrupt])
       /\ socket s' = None
       /\ In "KeyboardInterrupt" (stderr s').
Proof.
  split; [reflexivity|]. split; [reflexivity|]. split; [reflexivity|].
  split; [reflexivity|]. split; [right; left; reflexivity|].
  apply (interrupt_closes_listener_and_kills_process
           (Sample.machine Sample.root [Connect [Sample.get_file] None; Interrupt])
           Sample.served
           ["bcrdf-v1.bin"; "notes.txt"; "locked.txt"; "sub"; "site"]);
    first [reflexivity | right; left; reflexivity].
Defined.

(** ** Claim C3 *)

Lemma missing_dist_is_fatal_witness :
  FS.lookup (fs Sample.bare) (cwd Sample.bare) "dist" = None
  /\ exists status s',
       Script.python Sample.bare = (Script.Exited status, s')
       /\ status <> 0%Z
       /\ In "FileNotFoundError: [Errno 2] No such file or directory: 'dist'"
            (stderr s')
       /\ listening s' = listening Sample.bare
       /\ socket s' = socket Sample.bare
       /\ steps s' = steps Sample.bare
       /\ (TCPServer.taken Sample.bare Script.PORT = false ->
           TCPServer.taken s' Script.PORT = false).
Proof.
  split; [reflexivity|]. apply (missing_dist_is_fatal Sample.bare). reflexivity.
Defined.

(** ** Claim C4 *)



(** ** Claim C5 *)



(** ** Claim C6 *)



(** ** Claim C7 *)


(** ** Claim C8 *)

Lemma binds_port_8080_on_all_interfaces_witness :
  Os.chdir (fs (Sample.busy [])) (cwd (Sample.busy [])) "dist" = inr Sample.served
  /\ Os.listdir (fs (Sample.busy [])) Sample.served "."
     = inr ["bcrdf-v1.bin"; "notes.txt"; "locked.txt"; "sub"; "site"]
  /\ Script.PORT = 8080%Z
  /\ (may_bind (Sample.busy []) Script.PORT = true ->
      TCPServer.taken (Sample.busy []) Script.PORT = false ->
      incoming (Sample.busy []) = [] ->
      exists s',
        Script.python (Sample.busy []) = (Script.Serving, s')
        /\ listening s'
           = (listening (Sample.busy []) ++ [("", Script.PORT, pid (Sample.busy []))])%list
        /\ socket s' = Some ("", Script.PORT))
  /\ (may_bind (Sample.busy []) Script.PORT = false
      \/ TCPServer.taken (Sample.busy []) Script.PORT = true ->
      exists status s',
        Script.python (Sample.busy []) = (Script.Exited status, s')
        /\ status <> 0%Z
        /\ listening s' = listening (Sample.busy [])
        /\ fs s' = fs (Sample.busy [])
        /\ steps s' = steps (Sample.busy [])
        /\ sent s' = sent (Sample.busy [])).
Proof.
  split; [reflexivity|]. split; [reflexivity|].
  apply (binds_port_8080_on_all_interfaces (Sample.busy []) Sample.served
           ["bcrdf-v1.bin"; "notes.txt"; "locked.txt"; "sub"; "site"]);
    reflexivity.
Defined.

(** The second instance: the port is taken, it exits with status 1, and the
    socket of the first is where it was. *)
Example second_instance_fails :
  fst (Script.python (Sample.busy [])) = Script.Exited 1
  /\ listening (snd (Script.python (Sample.busy []))) = [("", 8080%Z, 7)]
  /\ stderr (snd (Script.python (Sample.busy [])))
     = [ "Traceback (most recent call last):";
         "OSError: [Errno 98] Address already in use" ].
Proof. vm_compute. repeat split. Qed.

(** ** Claim C9 *)


(** The climb out of the serving root ends inside it: the path is
    [/srv/dist/etc/passwd], which names nothing, and the answer is 404. *)
Example climb_is_not_found :
  Sample.resolved Sample.get_climb = "/srv/dist/etc/passwd"
  /\ status_of (Sample.answer Sample.get_climb)
     = Some (Base.status_line 404 "File not found").
Proof. vm_compute. repeat split. Qed.

(** ** Claim C10 *)

Example three_connections :
  steps
    (snd (Script.python
            (Sample.machine Sample.root
               [ Connect [Sample.get_file] None;
                 Connect [Sample.get_missing]
                   (Some (OSError "BrokenPipeError" 32 "Broken pipe" None));
                 AcceptError;
                 Connect [Sample.get_sub] None ])))
  = [ Accept 0; Begin 0; End_ 0; Close 0;
      Accept 1; Begin 1; End_ 1; Close 1;
      Accept 2; Begin 2; End_ 2; Close 2 ].
Proof. vm_compute. reflexivity. Qed.

(** ** More of the script, on the machines of the examples *)


(** The port is taken: the run ends with status 1, and the line that the
    server is ready is on standard output all the same. *)
Example ready_is_printed_though_the_port_is_taken :
  fst (Script.python (Sample.busy [])) = Script.Exited 1
  /\ last (stdout (snd (Script.python (Sample.busy [])))) ""
     = "✅ Server ready! Press Ctrl+C to stop".
Proof. vm_compute. split; reflexivity. Qed.

Lemma unlistable_dist_is_fatal_witness :
  Os.chdir (fs Sample.locked_dist) (cwd Sample.locked_dist) "dist"
  = inr Sample.served
  /\ Os.listdir (fs Sample.locked_dist) Sample.served "." = inl (EACCES ".")
  /\ exists s',
       Script.python Sample.locked_dist = (Script.Exited 1, s')
       /\ stdout s'
          = List.app (stdout Sample.locked_dist)
              [ "🚀 Test server starting on http://localhost:8080";
                "📁 Serving files from: " ++ Os.getcwd Sample.served;
                "📋 Available files:" ]
       /\ In (exn_line (EACCES ".")) (stderr s')
       /\ listening s' = listening Sample.locked_dist
       /\ socket s' = socket Sample.locked_dist
       /\ steps s' = steps Sample.locked_dist.
Proof.
  split; [reflexivity|]. split; [reflexivity|].
  apply (unlistable_dist_is_fatal Sample.locked_dist Sample.served (EACCES "."));
    reflexivity.
Defined.

Lemma dist_that_is_a_file_is_fatal_witness :
  FS.lookup (fs Sample.file_dist) (cwd Sample.file_dist) "dist"
  = Some (FS.File "not a directory" 0 true)
  /\ exists s',
       Script.python Sample.file_dist = (Script.Exited 1, s')
       /\ In "NotADirectoryError: [Errno 20] Not a directory: 'dist'" (stderr s')
       /\ stdout s' = stdout Sample.file_dist
       /\ cwd s' = cwd Sample.file_dist
       /\ listening s' = listening Sample.file_dist
       /\ socket s' = socket Sample.file_dist
       /\ steps s' = steps Sample.file_dist.
Proof.
  split; [reflexivity|].
  apply (dist_that_is_a_file_is_fatal Sample.file_dist "not a directory" 0 true).
  reflexivity.
Defined.

Lemma server_outlives_handler_exceptions_witness :
  Os.chdir (fs (Sample.machine Sample.root Sample.mixed))
    (cwd (Sample.machine Sample.root Sample.mixed)) "dist" = inr Sample.served
  /\ Os.listdir (fs (Sample.machine Sample.root Sample.mixed)) Sample.served "."
     = inr Sample.dist_names
  /\ may_bind (Sample.machine Sample.root Sample.mixed) Script.PORT = true
  /\ TCPServer.taken (Sample.machine Sample.root Sample.mixed) Script.PORT = false
  /\ forallb survivable (incoming (Sample.machine Sample.root Sample.mixed)) = true
  /\ exists s',
       Script.python (Sample.machine Sample.root Sample.mixed)
       = (Script.Serving, s')
       /\ socket s' = Some ("", Script.PORT)
       /\ accepted s'
          = (accepted (Sample.machine Sample.root Sample.mixed)
             + connections (incoming (Sample.machine Sample.root Sample.mixed)))%nat
       /\ steps s'
          = (steps (Sample.machine Sample.root Sample.mixed)
             ++ blocks (accepted (Sample.machine Sample.root Sample.mixed))
                  (connections
                     (incoming (Sample.machine Sample.root Sample.mixed))))%list
       /\ incoming s' = []
       /\ forall reqs e,
            In (Connect reqs (Some e))
              (incoming (Sample.machine Sample.root Sample.mixed)) ->
            In (exn_line e) (stderr s').
Proof.
  split; [reflexivity|]. split; [reflexivity|]. split; [reflexivity|].
  split; [reflexivity|]. split; [reflexivity|].
  apply (server_outlives_handler_exceptions
           (Sample.machine Sample.root Sample.mixed) Sample.served
           Sample.dist_names); reflexivity.
Defined.

(** Four connections, the second with a handler that raised: all four are
    accepted and closed, and the line of the exception is on standard
    error. *)
Example four_connections_one_report :
  accepted (snd (Script.python (Sample.machine Sample.root Sample.mixed))) = 4
  /\ existsb (String.eqb "BrokenPipeError: [Errno 32] Broken pipe")
       (stderr (snd (Script.python (Sample.machine Sample.root Sample.mixed))))
     = true.
Proof. vm_compute. split; reflexivity. Qed.

Lemma each_connection_gets_its_first_response_witness :
  Os.chdir (fs (Sample.machine Sample.root Sample.mixed))
    (cwd (Sample.machine Sample.root Sample.mixed)) "dist" = inr Sample.served
  /\ Os.listdir (fs (Sample.machine Sample.root Sample.mixed)) Sample.served "."
     = inr Sample.dist_names
  /\ may_bind (Sample.machine Sample.root Sample.mixed) Script.PORT = true
  /\ TCPServer.taken (Sample.machine Sample.root Sample.mixed) Script.PORT = false
  /\ forallb survivable (incoming (Sample.machine Sample.root Sample.mixed)) = true
  /\ sent (snd (Script.python (Sample.machine Sample.root Sample.mixed)))
     = (sent (Sample.machine Sample.root Sample.mixed)
        ++ replies (fs (Sample.machine Sample.root Sample.mixed)) Sample.served
             (accepted (Sample.machine Sample.root Sample.mixed))
             (incoming (Sample.machine Sample.root Sample.mixed)))%list.
Proof.
  split; [reflexivity|]. split; [reflexivity|]. split; [reflexivity|].
  split; [reflexivity|]. split; [reflexivity|].
  apply (each_connection_gets_its_first_response
           (Sample.machine Sample.root Sample.mixed) Sample.served
           Sample.dist_names); reflexivity.
Defined.

(** What the three connections without a fault got: the file, nothing, and
    the redirection. *)
Example replies_of_the_connections :
  map (fun r => (fst r, status_of (snd r)))
    (sent (snd (Script.python (Sample.machine Sample.root Sample.mixed))))
  = [ (0, Some (Base.status_line 200 "OK"));
      (2, None);
      (3, Some (Base.status_line 301 "Moved Permanently")) ].
Proof. vm_compute. reflexivity. Qed.

Lemma interrupt_inside_a_handler_closes_the_connection_witness :
  Os.chdir (fs (Sample.machine Sample.root Sample.interrupted))
    (cwd (Sample.machine Sample.root Sample.interrupted)) "dist"
  = inr Sample.served
  /\ Os.listdir (fs (Sample.machine Sample.root Sample.interrupted))
       Sample.served "." = inr Sample.dist_names
  /\ may_bind (Sample.machine Sample.root Sample.interrupted) Script.PORT = true
  /\ TCPServer.taken (Sample.machine Sample.root Sample.interrupted) Script.PORT
     = false
  /\ incoming (Sample.machine Sample.root Sample.interrupted)
     = ([Connect [Sample.get_file] None]
        ++ Connect [Sample.get_sub] (Some KeyboardInterrupt)
           :: [Connect [Sample.get_missing] None])%list
  /\ forallb survivable [Connect [Sample.get_file] None] = true
  /\ exists s',
       Script.python (Sample.machine Sample.root Sample.interrupted)
       = (Script.Exited 130, s')
       /\ steps s'
          = (steps (Sample.machine Sample.root Sample.interrupted)
             ++ blocks (accepted (Sample.machine Sample.root Sample.interrupted))
                  (S (connections [Connect [Sample.get_file] None])))%list
       /\ accepted s'
          = S (accepted (Sample.machine Sample.root Sample.interrupted)
               + connections [Connect [Sample.get_file] None])
       /\ incoming s' = [Connect [Sample.get_missing] None]
       /\ socket s' = None
       /\ listening s' = listening (Sample.machine Sample.root Sample.interrupted).
Proof.
  split; [reflexivity|]. split; [reflexivity|]. split; [reflexivity|].
  split; [reflexivity|]. split; [reflexivity|]. split; [reflexivity|].
  apply (interrupt_inside_a_handler_closes_the_connection
           (Sample.machine Sample.root Sample.interrupted) Sample.served
           Sample.dist_names [Connect [Sample.get_file] None] [Sample.get_sub]
           [Connect [Sample.get_missing] None]); reflexivity.
Defined.

(** ** More of the handler, on the requests of the examples *)

Lemma unsupported_method_gets_501_witness :
  accepts Sample.served Sample.post_notes (Sample.parsed Sample.post_notes)
  /\ command (Sample.parsed Sample.post_notes) = Some "POST"
  /\ "POST" <> "GET"
  /\ "POST" <> "HEAD"
  /\ request_version (Sample.parsed Sample.post_notes) <> "HTTP/0.9"
  /\ My.respond Sample.root Sample.served Sample.post_notes
     = error_reply false HTTPStatus.NOT_IMPLEMENTED
         ("Unsupported method (" ++ py_repr "POST" ++ ")")
         "Server does not support this operation".
Proof.
  assert (A : accepts Sample.served Sample.post_notes
                (Sample.parsed Sample.post_notes))
    by (split; [vm_compute; discriminate|vm_compute; reflexivity]).
  split; [exact A|]. split; [reflexivity|].
  split; [discriminate|]. split; [discriminate|].
  split; [vm_compute; discriminate|].
  apply (unsupported_method_gets_501 Sample.root Sample.served Sample.post_notes
           (Sample.parsed Sample.post_notes) "POST" A);
    first [reflexivity | discriminate | vm_compute; discriminate].
Defined.

Lemma unchanged_file_gets_304_witness :
  accepts Sample.served Sample.get_cached (Sample.parsed Sample.get_cached)
  /\ command (Sample.parsed Sample.get_cached) = Some "GET"
  /\ request_version (Sample.parsed Sample.get_cached) <> "HTTP/0.9"
  /\ FS.lookup Sample.root Sample.served (Sample.resolved Sample.get_cached)
     = Some (FS.File "hello" 0 true)
  /\ Simple.not_modified (headers (Sample.parsed Sample.get_cached)) 0 = true
  /\ My.respond Sample.root Sample.served Sample.get_cached
     = [ Headers (response_head HTTPStatus.NOT_MODIFIED None
                  ++ [cors_line; PyStr.CRLF])%list ].
Proof.
  assert (A : accepts Sample.served Sample.get_cached
                (Sample.parsed Sample.get_cached))
    by (split; [vm_compute; discriminate|vm_compute; reflexivity]).
  split; [exact A|]. split; [reflexivity|].
  split; [vm_compute; discriminate|]. split; [vm_compute; reflexivity|].
  split; [vm_compute; reflexivity|].
  apply (unchanged_file_gets_304 Sample.root Sample.served Sample.get_cached
           (Sample.parsed Sample.get_cached) "hello" 0 A);
    first [reflexivity | vm_compute; discriminate | vm_compute; reflexivity].
Defined.

Lemma directory_without_slash_is_redirected_witness :
  accepts Sample.served Sample.get_sub (Sample.parsed Sample.get_sub)
  /\ command (Sample.parsed Sample.get_sub) = Some "GET"
  /\ request_version (Sample.parsed Sample.get_sub) <> "HTTP/0.9"
  /\ FS.lookup Sample.root Sample.served (Sample.resolved Sample.get_sub)
     = Some (FS.Dir true [ ("bcrdf-v2.bin", FS.File "V2" 0 true) ])
  /\ PyStr.endswith (url_path (self_path (Sample.parsed Sample.get_sub))) "/"
     = false
  /\ My.respond Sample.root Sample.served Sample.get_sub
     = [ Headers
           (redirect_head (with_slash (self_path (Sample.parsed Sample.get_sub)))
            ++ [cors_line; PyStr.CRLF])%list ].
Proof.
  assert (A : accepts Sample.served Sample.get_sub (Sample.parsed Sample.get_sub))
    by (split; [vm_compute; discriminate|vm_compute; reflexivity]).
  split; [exact A|]. split; [reflexivity|].
  split; [vm_compute; discriminate|]. split; [vm_compute; reflexivity|].
  split; [vm_compute; reflexivity|].
  apply (directory_without_slash_is_redirected Sample.root Sample.served
           Sample.get_sub (Sample.parsed Sample.get_sub) true
           [ ("bcrdf-v2.bin", FS.File "V2" 0 true) ] A);
    first [reflexivity | vm_compute; discriminate | vm_compute; reflexivity].
Defined.

(** The redirection of [/sub] is to [/sub/]. *)
Example redirection_adds_the_slash :
  with_slash (self_path (Sample.parsed Sample.get_sub)) = "/sub/"
  /\ with_slash "/sub?x=1" = "/sub/?x=1".
Proof. vm_compute. split; reflexivity. Qed.


(** The index file with and without a date of the client's copy. *)
Example index_file_and_the_client_copy :
  status_of (Sample.answer Sample.get_site) = Some (Base.status_line 200 "OK")
  /\ bodies_of (Sample.answer Sample.get_site) = ["<p>hi</p>"]
  /\ status_of (Sample.answer Sample.get_site_cached)
     = Some (Base.status_line 304 "Not Modified")
  /\ bodies_of (Sample.answer Sample.get_site_cached) = [].
Proof. vm_compute. repeat split. Qed.

Lemma unreadable_file_gets_404_witness :
  accepts Sample.served Sample.get_locked (Sample.parsed Sample.get_locked)
  /\ command (Sample.parsed Sample.get_locked) = Some "GET"
  /\ request_version (Sample.parsed Sample.get_locked) <> "HTTP/0.9"
  /\ FS.lookup Sample.root Sample.served (Sample.resolved Sample.get_locked)
     = Some (FS.File "secret" 0 false)
  /\ My.respond Sample.root Sample.served Sample.get_locked
     = error_reply false HTTPStatus.NOT_FOUND "File not found"
         "Nothing matches the given URI".
Proof.
  assert (A : accepts Sample.served Sample.get_locked
                (Sample.parsed Sample.get_locked))
    by (split; [vm_compute; discriminate|vm_compute; reflexivity]).
  split; [exact A|]. split; [reflexivity|].
  split; [vm_compute; discriminate|]. split; [vm_compute; reflexivity|].
  apply (unreadable_file_gets_404 Sample.root Sample.served Sample.get_locked
           (Sample.parsed Sample.get_locked) "secret" 0 A);
    first [reflexivity | vm_compute; discriminate | vm_compute; reflexivity].
Defined.

Lemma unlistable_directory_gets_404_witness :
  accepts Sample.served Sample.get_vault (Sample.parsed Sample.get_vault)
  /\ command (Sample.parsed Sample.get_vault) = Some "GET"
  /\ request_version (Sample.parsed Sample.get_vault) <> "HTTP/0.9"
  /\ FS.lookup Sample.vault Sample.served (Sample.resolved Sample.get_vault)
     = Some (FS.Dir false [ ("key.pem", FS.File "KEY" 0 true) ])
  /\ PyStr.endswith (url_path (self_path (Sample.parsed Sample.get_vault))) "/"
     = true
  /\ Simple.find_index Sample.vault Sample.served
       (Sample.resolved Sample.get_vault) = None
  /\ My.respond Sample.vault Sample.served Sample.get_vault
     = error_reply false HTTPStatus.NOT_FOUND "No permission to list directory"
         "Nothing matches the given URI".
Proof.
  assert (A : accepts Sample.served Sample.get_vault
                (Sample.parsed Sample.get_vault))
    by (split; [vm_compute; discriminate|vm_compute; reflexivity]).
  split; [exact A|]. split; [reflexivity|].
  split; [vm_compute; discriminate|]. split; [vm_compute; reflexivity|].
  split; [vm_compute; reflexivity|]. split; [vm_compute; reflexivity|].
  apply (unlistable_directory_gets_404 Sample.vault Sample.served
           Sample.get_vault (Sample.parsed Sample.get_vault)
           [ ("key.pem", FS.File "KEY" 0 true) ] A);
    first [reflexivity | vm_compute; discriminate | vm_compute; reflexivity].
Defined.

Lemma too_long_request_line_gets_414_witness :
  (65536 < Z.of_nat (String.length (raw_requestline Sample.long_line)))%Z
  /\ My.respond Sample.root Sample.served Sample.long_line
     = error_reply false HTTPStatus.REQUEST_URI_TOO_LONG "Request-URI Too Long"
         "URI is too long".
Proof.
  assert (H : (65536 < Z.of_nat (String.length (raw_requestline Sample.long_line)))%Z)
    by (vm_compute; reflexivity).
  split; [exact H|].
  apply (too_long_request_line_gets_414 Sample.root Sample.served
           Sample.long_line H).
Defined.

Lemma blank_request_line_gets_no_response_witness :
  (Z.of_nat (String.length (raw_requestline Sample.blank_line)) <= 65536)%Z
  /\ request_words Sample.blank_line = []
  /\ My.respond Sample.root Sample.served Sample.blank_line = []
  /\ close_connection
       (My.handle_one_request Sample.root Sample.served Sample.blank_line
          (My.new Sample.served)) = true.
Proof.
  split; [vm_compute; discriminate|]. split; [reflexivity|].
  apply (blank_request_line_gets_no_response Sample.root Sample.served
           Sample.blank_line); [vm_compute; discriminate|reflexivity].
Defined.

Lemma unreadable_version_gets_a_bare_page_witness :
  (Z.of_nat (String.length (raw_requestline Sample.get_ftp)) <= 65536)%Z
  /\ (3 <= length (request_words Sample.get_ftp))%nat
  /\ Base.parse_version (last (request_words Sample.get_ftp) "") = None
  /\ My.respond Sample.root Sample.served Sample.get_ftp
     = [ Body
           (error_page HTTPStatus.BAD_REQUEST
              ("Bad request version ("
               ++ py_repr (last (request_words Sample.get_ftp) "") ++ ")")
              "Bad request syntax or unsupported method") ].
Proof.
  split; [vm_compute; discriminate|]. split; [vm_compute; lia|].
  split; [reflexivity|].
  apply (unreadable_version_gets_a_bare_page Sample.root Sample.served
           Sample.get_ftp);
    [vm_compute; discriminate|vm_compute; lia|reflexivity].
Defined.

Lemma version_2_gets_a_bare_page_witness :
  (Z.of_nat (String.length (raw_requestline Sample.get_http2)) <= 65536)%Z
  /\ (3 <= length (request_words Sample.get_http2))%nat
  /\ Base.parse_version (last (request_words Sample.get_http2) "")
     = Some ("2.0", (2, 0)%Z)
  /\ Base.tuple_ge (2, 0)%Z (2, 0)%Z = true
  /\ My.respond Sample.root Sample.served Sample.get_http2
     = [ Body
           (error_page HTTPStatus.HTTP_VERSION_NOT_SUPPORTED
              ("Invalid HTTP version (" ++ "2.0" ++ ")")
              "Cannot fulfill request") ].
Proof.
  split; [vm_compute; discriminate|]. split; [vm_compute; lia|].
  split; [reflexivity|]. split; [reflexivity|].
  apply (version_2_gets_a_bare_page Sample.root Sample.served Sample.get_http2
           "2.0" (2, 0)%Z);
    [vm_compute; discriminate|vm_compute; lia|reflexivity|reflexivity].
Defined.

Lemma one_word_request_gets_a_bare_page_witness :
  (Z.of_nat (String.length (raw_requestline Sample.one_word)) <= 65536)%Z
  /\ request_words Sample.one_word = ["GET"]
  /\ My.respond Sample.root Sample.served Sample.one_word
     = [ Body
           (error_page HTTPStatus.BAD_REQUEST
              ("Bad request syntax ("
               ++ py_repr
                    (PyStr.rstrip_by PyStr.is_crlf
                       (raw_requestline Sample.one_word))
               ++ ")")
              "Bad request syntax or unsupported method") ].
Proof.
  split; [vm_compute; discriminate|]. split; [reflexivity|].
  apply (one_word_request_gets_a_bare_page Sample.root Sample.served
           Sample.one_word "GET"); [vm_compute; discriminate|reflexivity].
Defined.

Lemma unreadable_headers_get_431_witness :
  (Z.of_nat (String.length (raw_requestline Sample.long_header)) <= 65536)%Z
  /\ request_words Sample.long_header = ["GET"; "/notes.txt"; "HTTP/1.1"]
  /\ Base.parse_version "HTTP/1.1" = Some ("1.1", (1, 1)%Z)
  /\ Base.tuple_ge (1, 1)%Z (2, 0)%Z = false
  /\ "HTTP/1.1" <> "HTTP/0.9"
  /\ header_lines Sample.long_header
     = LineTooLong "got more than 65536 bytes when reading header line"
  /\ My.respond Sample.root Sample.served Sample.long_header
     = error_reply ("GET" =? "HEAD") HTTPStatus.REQUEST_HEADER_FIELDS_TOO_LARGE
         "Line too long" "got more than 65536 bytes when reading header line".
Proof.
  split; [vm_compute; discriminate|]. split; [reflexivity|].
  split; [reflexivity|]. split; [reflexivity|]. split; [discriminate|].
  split; [reflexivity|].
  apply (proj1 (unreadable_headers_get_431 Sample.root Sample.served
                  Sample.long_header "GET" "/notes.txt" "HTTP/1.1" "1.1"
                  (1, 1)%Z
                  ltac:(vm_compute; discriminate) eq_refl eq_refl eq_refl
                  ltac:(discriminate))).
  reflexivity.
Defined.


(** The target [//other.example/sub] is taken as the path
    [/other.example/sub]. *)
Example two_slashes_become_one :
  self_path (Sample.parsed Sample.get_two_slashes) = "/other.example/sub".
Proof. reflexivity. Qed.

Lemma head_response_is_the_get_response_without_body_witness :
  accepts Sample.served Sample.head_notes
    (set_command (Sample.parsed Sample.get_notes) (Some "HEAD"))
  /\ accepts Sample.served Sample.get_notes
       (set_command (Sample.parsed Sample.get_notes) (Some "GET"))
  /\ My.respond Sample.root Sample.served Sample.head_notes
     = headers_only (My.respond Sample.root Sample.served Sample.get_notes).
Proof.
  assert (A : accepts Sample.served Sample.head_notes
                (set_command (Sample.parsed Sample.get_notes) (Some "HEAD")))
    by (split; [vm_compute; discriminate|vm_compute; reflexivity]).
  assert (B : accepts Sample.served Sample.get_notes
                (set_command (Sample.parsed Sample.get_notes) (Some "GET")))
    by (split; [vm_compute; discriminate|vm_compute; reflexivity]).
  split; [exact A|]. split; [exact B|].
  apply (head_response_is_the_get_response_without_body Sample.root
           Sample.served Sample.head_notes Sample.get_notes
           (Sample.parsed Sample.get_notes) A B).
Defined.

(** The [HEAD] for a file: the header block of the [GET], and no body. *)
Example head_of_a_file :
  bodies_of (Sample.answer Sample.head_notes) = []
  /\ bodies_of (Sample.answer Sample.get_notes) = ["hello"]
  /\ status_of (Sample.answer Sample.head_notes)
     = Some (Base.status_line 200 "OK")
  /\ carries_cors (Sample.answer Sample.head_notes) = true.
Proof. vm_compute. repeat split. Qed.

(** ** More of paths and pages *)

(** A listing of names in two cases. *)
Example listing_order :
  Simple.sort_by_lower ["b.txt"; "A.txt"; "a.txt"; "C.txt"; "B.txt"]
  = ["A.txt"; "a.txt"; "b.txt"; "B.txt"; "C.txt"].
Proof. reflexivity. Qed.

Example escaped_name :
  html_escape "<b>&</b>" = "&lt;b&gt;&amp;&lt;/b&gt;".
Proof. reflexivity. Qed.

Lemma error_page_has_only_its_own_markup_witness :
  wfile (My.new Sample.served) = []
  /\ In (Body
           (error_page HTTPStatus.NOT_IMPLEMENTED
              "Unsupported method ('<script>')"
              "Server does not support this operation"))
       (wfile
          (Base.send_error My.end_headers Simple.server_version
             HTTPStatus.NOT_IMPLEMENTED
             (Some "Unsupported method ('<script>')") None
             (My.new Sample.served)))
  /\ occurrences "<"
       (error_page HTTPStatus.NOT_IMPLEMENTED "Unsupported method ('<script>')"
          "Server does not support this operation")
     = occurrences "<" (error_page HTTPStatus.NOT_IMPLEMENTED "" "")
  /\ occurrences ">"
       (error_page HTTPStatus.NOT_IMPLEMENTED "Unsupported method ('<script>')"
          "Server does not support this operation")
     = occurrences ">" (error_page HTTPStatus.NOT_IMPLEMENTED "" "").
Proof.
  assert (I : In (Body
                    (error_page HTTPStatus.NOT_IMPLEMENTED
                       "Unsupported method ('<script>')"
                       "Server does not support this operation"))
                (wfile
                   (Base.send_error My.end_headers Simple.server_version
                      HTTPStatus.NOT_IMPLEMENTED
                      (Some "Unsupported method ('<script>')") None
                      (My.new Sample.served))))
    by (vm_compute; right; left; reflexivity).
  split; [reflexivity|]. split; [exact I|].
  exact (error_page_has_only_its_own_markup HTTPStatus.NOT_IMPLEMENTED
           (Some "Unsupported method ('<script>')") None (My.new Sample.served)
           _ eq_refl I).
Defined.

(** The listing of [/sub/] for a target whose query cannot be decoded: the
    title has the path of the directory in the file system. *)
Example listing_title_of_an_undecodable_target :
  Sample.resolved Sample.get_sub_query = "/srv/dist/sub/"
  /\ bodies_of (Sample.answer Sample.get_sub_query)
     = [ Simple.listing_page Sample.root Sample.served "/srv/dist/sub/"
           "/srv/dist/sub/" ["bcrdf-v2.bin"] ]
  /\ bodies_of (Sample.answer Sample.get_sub_slash)
     = [ Simple.listing_page Sample.root Sample.served "/srv/dist/sub/"
           "/sub/" ["bcrdf-v2.bin"] ].
Proof. vm_compute. repeat split. Qed.
